(** * AI Mindmap Generator: plugin entry point and mindmap core

    Part I embeds the asynchronous methods of [AIMindmapPlugin] (main.ts) in
    a small trace-and-exception monad: every call to a collaborator and
    every notice is an event of the trace, a thrown exception is the left
    injection of the result. Its continuation embeds the methods that read
    or assign [this.settings] (loading and saving, [onload], the handlers
    of the settings tab) as functions of the current settings.

    Part II models the mindmap core (tag resolver, structure builder,
    multi-parent linker, serializer, combiner), whose sources are not part
    of the repository snapshot, from the specification. *)

From Stdlib Require Import List String Ascii Arith Lia Bool DecimalString
  DecimalNat.
Import ListNotations.
Open Scope string_scope.

Set Warnings "-register-all".

(** ** Generic helpers *)

(** A JavaScript [Set<string>] iterates in insertion order; [set_add] is
    [Set.prototype.add]: a value already present is left where it is. *)
Definition set_add (s : list string) (x : string) : list string :=
  if in_dec string_dec x s then s else (s ++ [x])%list.

(** Decimal rendering of a number inside a template literal. *)
Definition nat_to_string (n : nat) : string :=
  NilEmpty.string_of_uint (Nat.to_uint n).

Module Plugin.

(** *** Settings *)

Inductive LLMProvider := claude | openai | custom.
Inductive TagWeighting := high | medium | low.
Inductive OutputFormat := note | view | both.
Inductive SaveFormat := markdown | markdown_and_metadata.

(** Modelled from the spec: the PluginSettings declaration of
    src/types/interfaces.ts is missing; the record has the fields that
    DEFAULT_SETTINGS initialises, and [customApiUrl] that the settings tab
    reads. *)
Record PluginSettings := {
  llmProvider : LLMProvider;
  apiKey : string;
  model : string;
  maxTokens : nat;
  includeContent : bool;
  tagWeighting : TagWeighting;
  autoSave : bool;
  outputFormat : OutputFormat;
  enableMultiParent : bool;
  maxSourceFiles : nat;
  mindmapsFolder : string;
  saveFormat : SaveFormat;
  customApiUrl : option string
}.

Definition DEFAULT_SETTINGS : PluginSettings := {|
  llmProvider := claude;
  apiKey := "";
  model := "claude-3-5-sonnet-latest";
  maxTokens := 4000;
  includeContent := true;
  tagWeighting := high;
  autoSave := true;
  outputFormat := both;
  enableMultiParent := true;
  maxSourceFiles := 50;
  mindmapsFolder := "AI Mindmaps";
  saveFormat := markdown_and_metadata;
  customApiUrl := None
|}.

(** Modelled from the spec: the SourceSelection declaration of
    src/types/interfaces.ts is missing; the fields are those of the literal
    built by generateFromCurrentNote ([sel_tags] is its [tags]). *)
Record SourceSelection := {
  files : list string;
  folders : list string;
  sel_tags : list string;
  includeSubfolders : bool;
  contentPreview : string
}.

(** Modelled from the spec: one processed source of the missing
    contentAggregator service (identifier, extracted tags, raw text).
    main.ts reads [filePath] and the optional [tags] (accessed as
    [content.tags?.forEach]). *)
Record ProcessedContent := {
  filePath : string;
  tags : option (list string);
  content : string
}.

(** A thrown JavaScript value, as the catch blocks of main.ts use it: they
    log it and read [error.message] into a template literal. That read
    throws in its turn when the value is null or undefined (a TypeError),
    or when the property cannot be turned into text; otherwise it gives the
    text (the word undefined for a value without the property). *)
Inductive JsError := Thrown (read_message : JsError + string).

(** [error.message] inside a template literal: the text, or what the read
    throws. *)
Definition message (e : JsError) : (JsError + string)%type :=
  match e with Thrown r => r end.

(** An Error object with the given message. *)
Definition error_with (msg : string) : JsError := Thrown (inr msg).

(** A thrown [null]: reading its message throws a TypeError. *)
Definition thrown_null : JsError :=
  Thrown (inl (error_with "Cannot read properties of null (reading 'message')")).

Definition result (A : Type) : Type := (JsError + A)%type.

(** *** extractAllTags *)

(** The callback of the outer [forEach]: [content.tags?.forEach(tag =>
    allTags.add(tag))]. *)
Definition collect_tags (allTags : list string) (content : ProcessedContent)
  : list string :=
  match tags content with
  | Some ts => fold_left set_add ts allTags
  | None => allTags
  end.

Definition extractAllTags (processedContent : list ProcessedContent) : list string :=
  fold_left collect_tags processedContent [].

Section Methods.

(** The raw outline returned by the model service and the structure built
    from it are opaque to main.ts ([any]). [SavedMindmap] is an entry of the
    persistence service. *)
Variables RawOutline Structure SavedMindmap : Type.

(** Modelled from the spec: the response of the missing llmService, with
    the three fields main.ts reads. *)
Record LLMResponse := {
  success : bool;
  error : string;
  structure : RawOutline
}.

(** Observable actions, in program order. *)
Inductive event :=
| ENotice (msg : string)
| EConsoleLog (msg : string)
| EConsoleError (msg : string) (err : JsError)
| EProcessSelection (selection : SourceSelection)
| EGenerateMindmapStructure (pc : list ProcessedContent) (allTags : list string)
| EBuildStructure (raw : RawOutline) (pc : list ProcessedContent) (st : PluginSettings)
| EConvertToMarkdown (s : Structure)
| EVaultCreate (fileName markdownContent : string)
| EGetLeaf
| ESetViewState (mindmapData : Structure) (sourceFiles : list string)
| ERevealLeaf
| EGetAllMindmaps
| ENewCombinerModal
| EModalOpen.

(** The collaborators of the plugin: each either returns or throws. *)
Record Collaborators := {
  processSelection : SourceSelection -> result (list ProcessedContent);
  generateMindmapStructure :
    list ProcessedContent -> list string -> result LLMResponse;
  buildStructure :
    RawOutline -> list ProcessedContent -> PluginSettings -> result Structure;
  convertToMarkdown : Structure -> result string;
  vaultCreate : string -> string -> result unit;
  getLeaf : result unit;
  setViewState : Structure -> list string -> result unit;
  revealLeaf : result unit;
  getAllMindmaps : result (list SavedMindmap);
  newCombinerModal : result unit;
  modalOpen : result unit;
  (** [new Date().toISOString()] *)
  nowISO : string
}.

(** *** The effect monad: a trace of events and a result or an exception *)

Definition Eff (A : Type) : Type := (list event * result A)%type.

Definition ret {A} (a : A) : Eff A := ([], inr a).

Definition bind {A B} (m : Eff A) (f : A -> Eff B) : Eff B :=
  match m with
  | (t, inl e) => (t, inl e)
  | (t, inr a) => let (t', r) := f a in ((t ++ t')%list, r)
  end.

(** [try { m } catch (error) { h error }] *)
Definition try_catch {A} (m : Eff A) (h : JsError -> Eff A) : Eff A :=
  match m with
  | (t, inl e) => let (t', r) := h e in ((t ++ t')%list, r)
  | (t, inr a) => (t, inr a)
  end.

Definition call {A} (ev : event) (r : result A) : Eff A := ([ev], r).

(** An evaluation that calls nothing but may throw. *)
Definition evaluate {A} (r : result A) : Eff A := ([], r).
Definition emit (ev : event) : Eff unit := ([ev], inr tt).
Definition Notice (msg : string) : Eff unit := emit (ENotice msg).

Definition trace {A} (m : Eff A) : list event := fst m.

Notation "x <- m ;; k" := (bind m (fun x => k))
  (at level 61, m at next level, right associativity).
Notation "m ;;; k" := (bind m (fun _ => k))
  (at level 61, right associativity).

Arguments ret {A} a.
Arguments bind {A B} m f.
Arguments try_catch {A} m h.
Arguments call {A} ev r.
Arguments evaluate {A} r.

Variable env : Collaborators.
Variable settings : PluginSettings.

(** [s.slice(0, 19).replace(/:/g, '-')] *)
Fixpoint replace_colons (s : string) : string :=
  match s with
  | EmptyString => EmptyString
  | String c r =>
      String (if Ascii.eqb c ":"%char then "-"%char else c) (replace_colons r)
  end.

Definition createMindmapNote (s : Structure) : Eff unit :=
  let fileName :=
    "AI Mindmap - " ++ replace_colons (substring 0 19 (nowISO env)) ++ ".md" in
  markdownContent <- call (EConvertToMarkdown s) (convertToMarkdown env s) ;;
  call (EVaultCreate fileName markdownContent)
       (vaultCreate env fileName markdownContent) ;;;
  if autoSave settings then Notice ("Mindmap saved as: " ++ fileName)
  else ret tt.

Definition openVisualMindmapView (s : Structure) (sourceFiles : list string)
  : Eff unit :=
  call EGetLeaf (getLeaf env) ;;;
  call (ESetViewState s sourceFiles) (setViewState env s sourceFiles) ;;;
  call ERevealLeaf (revealLeaf env).

Definition displayMindmap (s : Structure) (sourceFiles : list string) : Eff unit :=
  (match outputFormat settings with
   | note | both => createMindmapNote s
   | view => ret tt
   end) ;;;
  match outputFormat settings with
  | view | both => openVisualMindmapView s sourceFiles
  | note => ret tt
  end.

Definition generateMindmapFromSelection (selection : SourceSelection) : Eff unit :=
  if String.eqb (apiKey settings) "" then
    Notice "Please configure your API key in settings first"
  else
    try_catch
      (Notice "Analyzing content and generating mindmap..." ;;;
       (* Step 1: aggregate content *)
       processedContent <-
         call (EProcessSelection selection) (processSelection env selection) ;;
       if Nat.eqb (List.length processedContent) 0 then
         Notice "No content found in selection"
       else
         (* Step 2: generate mindmap via LLM *)
         let allTags := extractAllTags processedContent in
         llmResponse <-
           call (EGenerateMindmapStructure processedContent allTags)
                (generateMindmapStructure env processedContent allTags) ;;
         if negb (success llmResponse) then
           Notice ("Failed to generate mindmap: " ++ error llmResponse)
         else
           (* Step 3: create mindmap structure *)
           mindmapStructure <-
             call (EBuildStructure (structure llmResponse) processedContent settings)
                  (buildStructure env (structure llmResponse) processedContent
                     settings) ;;
           (* Step 4: display/save results *)
           let sourceFiles := map filePath processedContent in
           displayMindmap mindmapStructure sourceFiles ;;;
           Notice ("Mindmap generated successfully! ("
                   ++ nat_to_string (List.length processedContent)
                   ++ " sources processed)"))
      (fun err =>
         emit (EConsoleError "Error generating mindmap:" err) ;;;
         msg <- evaluate (message err) ;;
         Notice ("Error: " ++ msg)).

Definition openMindmapCombiner : Eff unit :=
  try_catch
    (emit (EConsoleLog "Opening mindmap combiner modal...") ;;;
     savedMindmaps <- call EGetAllMindmaps (getAllMindmaps env) ;;
     emit (EConsoleLog ("Found " ++ nat_to_string (List.length savedMindmaps)
                        ++ " saved mindmaps")) ;;;
     if Nat.ltb (List.length savedMindmaps) 2 then
       Notice "You need at least 2 saved mindmaps to combine. Generate more mindmaps first!"
     else
       call ENewCombinerModal (newCombinerModal env) ;;;
       call EModalOpen (modalOpen env) ;;;
       emit (EConsoleLog "Mindmap combiner modal opened successfully"))
    (fun err =>
       emit (EConsoleError "Failed to open mindmap combiner:" err) ;;;
       msg <- evaluate (message err) ;;
       Notice ("Failed to open mindmap combiner: " ++ msg)).

(** *** Stages of the generation pipeline *)

Inductive stage := Aggregation | ModelCall | Building | DisplaySave.

Definition stage_of (e : event) : option stage :=
  match e with
  | EProcessSelection _ => Some Aggregation
  | EGenerateMindmapStructure _ _ => Some ModelCall
  | EBuildStructure _ _ _ => Some Building
  | EConvertToMarkdown _ | EVaultCreate _ _ | EGetLeaf
  | ESetViewState _ _ | ERevealLeaf => Some DisplaySave
  | _ => None
  end.

Definition stages (t : list event) : list stage :=
  flat_map (fun e => match stage_of e with Some s => [s] | None => [] end) t.

(** The structure handed to the display/save collaborators by an event. *)
Definition shown (e : event) : option Structure :=
  match e with
  | EConvertToMarkdown s => Some s
  | ESetViewState s _ => Some s
  | _ => None
  end.

(** No event of the trace hands a structure to a display/save collaborator. *)
Definition shows_nothing (t : list event) : Prop :=
  forall e s, In e t -> shown e = Some s -> False.

End Methods.

Arguments success {RawOutline} _.
Arguments error {RawOutline} _.
Arguments structure {RawOutline} _.
Arguments Build_LLMResponse {RawOutline} _ _ _.
Arguments ENotice {RawOutline Structure} msg.
Arguments EConsoleLog {RawOutline Structure} msg.
Arguments EConsoleError {RawOutline Structure} msg err.
Arguments EProcessSelection {RawOutline Structure} selection.
Arguments EGenerateMindmapStructure {RawOutline Structure} pc allTags.
Arguments EBuildStructure {RawOutline Structure} raw pc st.
Arguments EConvertToMarkdown {RawOutline Structure} s.
Arguments EVaultCreate {RawOutline Structure} fileName markdownContent.
Arguments EGetLeaf {RawOutline Structure}.
Arguments ESetViewState {RawOutline Structure} mindmapData sourceFiles.
Arguments ERevealLeaf {RawOutline Structure}.
Arguments EGetAllMindmaps {RawOutline Structure}.
Arguments ENewCombinerModal {RawOutline Structure}.
Arguments EModalOpen {RawOutline Structure}.
Arguments processSelection {RawOutline Structure SavedMindmap} _ _.
Arguments generateMindmapStructure {RawOutline Structure SavedMindmap} _ _ _.
Arguments buildStructure {RawOutline Structure SavedMindmap} _ _ _ _.
Arguments convertToMarkdown {RawOutline Structure SavedMindmap} _ _.
Arguments vaultCreate {RawOutline Structure SavedMindmap} _ _ _.
Arguments getLeaf {RawOutline Structure SavedMindmap} _.
Arguments setViewState {RawOutline Structure SavedMindmap} _ _ _.
Arguments revealLeaf {RawOutline Structure SavedMindmap} _.
Arguments getAllMindmaps {RawOutline Structure SavedMindmap} _.
Arguments newCombinerModal {RawOutline Structure SavedMindmap} _.
Arguments modalOpen {RawOutline Structure SavedMindmap} _.
Arguments nowISO {RawOutline Structure SavedMindmap} _.
Arguments trace {RawOutline Structure A} m.
Arguments ret {RawOutline Structure A} a.
Arguments bind {RawOutline Structure A B} m f.
Arguments try_catch {RawOutline Structure A} m h.
Arguments call {RawOutline Structure A} ev r.
Arguments evaluate {RawOutline Structure A} r.
Arguments emit {RawOutline Structure} ev.
Arguments Notice {RawOutline Structure} msg.
Arguments stage_of {RawOutline Structure} e.
Arguments stages {RawOutline Structure} t.
Arguments shown {RawOutline Structure} e.
Arguments shows_nothing {RawOutline Structure} t.
Arguments createMindmapNote {RawOutline Structure SavedMindmap} env settings s.
Arguments openVisualMindmapView {RawOutline Structure SavedMindmap} env s sourceFiles.
Arguments displayMindmap {RawOutline Structure SavedMindmap} env settings s sourceFiles.
Arguments generateMindmapFromSelection {RawOutline Structure SavedMindmap}
  env settings selection.
Arguments openMindmapCombiner {RawOutline Structure SavedMindmap} env.

(** *** Sample collaborators

    A vault with two notes, a model service that answers with a two-title
    outline (and declines fewer than two sources), and a persistence
    service that holds the given saved mindmaps. *)

Definition sample_contents : list ProcessedContent :=
  [ {| filePath := "notes/quantum.md";
       tags := Some ["deeptech/quantum-ai"; "research"];
       content := "Quantum computing research" |};
    {| filePath := "notes/ml.md";
       tags := None;
       content := "Machine learning integration" |} ].

Definition sample_env (saved : list string)
  : Collaborators (list string) string string := {|
  processSelection := fun sel =>
    inr (filter (fun c => existsb (String.eqb (filePath c)) (files sel))
           sample_contents);
  generateMindmapStructure := fun pc _ =>
    inr {| success := Nat.leb 2 (List.length pc);
           error := "not enough material";
           structure := ["Quantum Computing"; "AI Research"] |};
  buildStructure := fun raw _ _ => inr (String.concat "," raw);
  convertToMarkdown := fun s => inr ("# " ++ s);
  vaultCreate := fun _ _ => inr tt;
  getLeaf := inr tt;
  setViewState := fun _ _ => inr tt;
  revealLeaf := inr tt;
  getAllMindmaps := inr saved;
  newCombinerModal := inr tt;
  modalOpen := inr tt;
  nowISO := "2025-01-01T10:00:00.000Z"
|}.

(** Collaborators whose aggregator and persistence service throw [null]. *)
Definition failing_env : Collaborators (list string) string string := {|
  processSelection := fun _ => inl thrown_null;
  generateMindmapStructure := fun pc _ =>
    inr {| success := true; error := ""; structure := [] |};
  buildStructure := fun raw _ _ => inr (String.concat "," raw);
  convertToMarkdown := fun s => inr ("# " ++ s);
  vaultCreate := fun _ _ => inr tt;
  getLeaf := inr tt;
  setViewState := fun _ _ => inr tt;
  revealLeaf := inr tt;
  getAllMindmaps := inl thrown_null;
  newCombinerModal := inr tt;
  modalOpen := inr tt;
  nowISO := "2025-01-01T10:00:00.000Z"
|}.

Definition sample_selection (paths : list string) : SourceSelection := {|
  files := paths;
  folders := [];
  sel_tags := [];
  includeSubfolders := false;
  contentPreview := ""
|}.

Definition with_apiKey (key : string) (st : PluginSettings) : PluginSettings := {|
  llmProvider := llmProvider st;
  apiKey := key;
  model := model st;
  maxTokens := maxTokens st;
  includeContent := includeContent st;
  tagWeighting := tagWeighting st;
  autoSave := autoSave st;
  outputFormat := outputFormat st;
  enableMultiParent := enableMultiParent st;
  maxSourceFiles := maxSourceFiles st;
  mindmapsFolder := mindmapsFolder st;
  saveFormat := saveFormat st;
  customApiUrl := customApiUrl st
|}.

End Plugin.

(** * Part I, continued: outcomes of the plugin methods *)

Module Outcomes.

Import Plugin.

(** [s.includes(c)] for a single character. *)
Fixpoint includes_char (c : ascii) (s : string) : bool :=
  match s with
  | EmptyString => false
  | String x r => Ascii.eqb x c || includes_char c r
  end.

(** The tags of the processed contents in reading order, repetitions
    included; a content without [tags] has none. *)
Definition tags_in_order (processedContent : list ProcessedContent)
  : list string :=
  flat_map (fun c => match tags c with Some ts => ts | None => [] end)
    processedContent.

(** The first occurrence of every string of [l] that is not in [seen], in
    the order of [l]. *)
Fixpoint first_occurrences (seen l : list string) : list string :=
  match l with
  | [] => []
  | x :: r =>
      if in_dec string_dec x seen then first_occurrences seen r
      else x :: first_occurrences (x :: seen) r
  end.

Section Vocabulary.

Context {RawOutline Structure : Type}.

Local Abbreviation event := (Plugin.event RawOutline Structure).

(** What the [catch] block of generateMindmapFromSelection does with the
    value it caught: the console error, then the notice when the message
    of the value can be read. *)
Definition error_report (e : JsError) : list event :=
  EConsoleError "Error generating mindmap:" e ::
  match message e with
  | inr msg => [ENotice ("Error: " ++ msg)]
  | inl _ => []
  end.

(** What the [catch] block of openMindmapCombiner does. *)
Definition combiner_error_report (e : JsError) : list event :=
  EConsoleError "Failed to open mindmap combiner:" e ::
  match message e with
  | inr msg => [ENotice ("Failed to open mindmap combiner: " ++ msg)]
  | inl _ => []
  end.

(** How a [catch] block that reads the message of [e] ends: normally, or
    with what that read throws. *)
Definition after_report (e : JsError) : result unit :=
  match message e with
  | inr _ => inr tt
  | inl e' => inl e'
  end.

Definition is_notice (e : event) : bool :=
  match e with ENotice _ => true | _ => false end.

(** Actions of createMindmapNote on its collaborators. *)
Definition note_action (e : event) : bool :=
  match e with
  | EConvertToMarkdown _ | EVaultCreate _ _ => true
  | _ => false
  end.

(** Actions of openVisualMindmapView. *)
Definition view_action (e : event) : bool :=
  match e with
  | EGetLeaf | ESetViewState _ _ | ERevealLeaf => true
  | _ => false
  end.

(** Calls to the three services of the pipeline. *)
Definition is_aggregator_call (e : event) : bool :=
  match e with EProcessSelection _ => true | _ => false end.

Definition is_model_call (e : event) : bool :=
  match e with EGenerateMindmapStructure _ _ => true | _ => false end.

Definition is_builder_call (e : event) : bool :=
  match e with EBuildStructure _ _ _ => true | _ => false end.

(** Calls to a collaborator (everything but notices and console output). *)
Definition is_call (e : event) : bool :=
  match e with
  | ENotice _ | EConsoleLog _ | EConsoleError _ _ => false
  | _ => true
  end.

End Vocabulary.

Section Failures.

Context {RawOutline Structure SavedMindmap : Type}.
Variable env : Collaborators RawOutline Structure SavedMindmap.
Variable settings : PluginSettings.

(** Some step inside the [try] block of generateMindmapFromSelection threw
    [e]: the aggregation, the model call, the building of the structure, or
    the display of the result. *)
Definition thrown (selection : SourceSelection) (e : JsError) : Prop :=
  processSelection env selection = inl e \/
  exists pc,
    processSelection env selection = inr pc /\ pc <> [] /\
    (generateMindmapStructure env pc (extractAllTags pc) = inl e \/
     exists resp,
       generateMindmapStructure env pc (extractAllTags pc) = inr resp /\
       success resp = true /\
       (buildStructure env (structure resp) pc settings = inl e \/
        exists s,
          buildStructure env (structure resp) pc settings = inr s /\
          snd (displayMindmap env settings s (map filePath pc)) = inl e)).

(** Every step of the pipeline returned: a non-empty aggregation, a
    successful model response, a built structure, and its display. *)
Definition completed (selection : SourceSelection) (n : nat) : Prop :=
  exists pc resp s,
    processSelection env selection = inr pc /\ pc <> [] /\
    n = List.length pc /\
    generateMindmapStructure env pc (extractAllTags pc) = inr resp /\
    success resp = true /\
    buildStructure env (structure resp) pc settings = inr s /\
    snd (displayMindmap env settings s (map filePath pc)) = inr tt.

(** Opening the combiner failed with [e]: the persistence query threw [e],
    or at least two mindmaps were found and constructing or opening the
    modal threw [e]. *)
Definition combiner_failed (e : JsError) : Prop :=
  getAllMindmaps env = inl e \/
  exists saved,
    getAllMindmaps env = inr saved /\ 2 <= List.length saved /\
    (newCombinerModal env = inl e \/
     newCombinerModal env = inr tt /\ modalOpen env = inl e).

(** At least two mindmaps were found and the modal was constructed and
    opened. *)
Definition combiner_opened : Prop :=
  exists saved,
    getAllMindmaps env = inr saved /\ 2 <= List.length saved /\
    newCombinerModal env = inr tt /\ modalOpen env = inr tt.

(** What openMindmapCombiner does before its last step: calls to the
    collaborators and log lines other than the closing one. *)
Definition combiner_step (e : Plugin.event RawOutline Structure) : Prop :=
  is_call e = true \/
  exists m, e = EConsoleLog m /\
            m <> "Mindmap combiner modal opened successfully".

(** What happens before the closing notice or error report of
    generateMindmapFromSelection: the opening notice, calls to the
    collaborators, and the confirmation of a created note. *)
Definition body_event (e : Plugin.event RawOutline Structure) : Prop :=
  is_call e = true \/
  e = ENotice "Analyzing content and generating mindmap..." \/
  exists name, e = ENotice ("Mindmap saved as: " ++ name).

End Failures.

(** The notice that closes a complete run of generateMindmapFromSelection. *)
Definition success_notice (n : nat) : string :=
  "Mindmap generated successfully! (" ++ nat_to_string n ++ " sources processed)".

End Outcomes.

(** * Part I, continued: current note, settings and lifecycle *)

Module Lifecycle.

Import Plugin.

(** ** generateFromCurrentNote and openTagSelector *)

(** The file and view handles of the host, as far as main.ts reads them:
    [view.file] may be null, [file.path] is a string. *)
Record TFile := { path : string }.
Record MarkdownView := { file : option TFile }.

Section CurrentNote.

Context {RawOutline Structure SavedMindmap : Type}.
Variable env : Collaborators RawOutline Structure SavedMindmap.
Variable settings : PluginSettings.

(** [view] is [None] when the argument is falsy. *)
Definition generateFromCurrentNote (view : option MarkdownView)
  : Eff RawOutline Structure unit :=
  match view with
  | None => Notice "No active note found"
  | Some v =>
      match file v with
      | None => Notice "Current view has no associated file"
      | Some f =>
          let selection :=
            {| files := [path f];
               folders := [];
               sel_tags := [];
               includeSubfolders := false;
               contentPreview := "" |} in
          generateMindmapFromSelection env settings selection
      end
  end.

Definition openTagSelector : Eff RawOutline Structure unit :=
  Notice "Tag selector coming in next version!".

End CurrentNote.

(** ** Stored settings and Object.assign *)

(** What [loadData] resolves to, read at the keys of PluginSettings: a key
    the stored object lacks is [None]. *)
Record StoredSettings := {
  stored_llmProvider : option LLMProvider;
  stored_apiKey : option string;
  stored_model : option string;
  stored_maxTokens : option nat;
  stored_includeContent : option bool;
  stored_tagWeighting : option TagWeighting;
  stored_autoSave : option bool;
  stored_outputFormat : option OutputFormat;
  stored_enableMultiParent : option bool;
  stored_maxSourceFiles : option nat;
  stored_mindmapsFolder : option string;
  stored_saveFormat : option SaveFormat;
  stored_customApiUrl : option string
}.

(** One key of [Object.assign(target, source)]: the source's value when it
    has the key, the target's otherwise. *)
Definition assign_key {A} (target : A) (source : option A) : A :=
  match source with
  | Some v => v
  | None => target
  end.

(** [Object.assign({}, defaults, data)]; a null or undefined source is
    skipped. *)
Definition assign (defaults : PluginSettings) (data : option StoredSettings)
  : PluginSettings :=
  match data with
  | None => defaults
  | Some d => {|
      llmProvider := assign_key (llmProvider defaults) (stored_llmProvider d);
      apiKey := assign_key (apiKey defaults) (stored_apiKey d);
      model := assign_key (model defaults) (stored_model d);
      maxTokens := assign_key (maxTokens defaults) (stored_maxTokens d);
      includeContent :=
        assign_key (includeContent defaults) (stored_includeContent d);
      tagWeighting := assign_key (tagWeighting defaults) (stored_tagWeighting d);
      autoSave := assign_key (autoSave defaults) (stored_autoSave d);
      outputFormat := assign_key (outputFormat defaults) (stored_outputFormat d);
      enableMultiParent :=
        assign_key (enableMultiParent defaults) (stored_enableMultiParent d);
      maxSourceFiles :=
        assign_key (maxSourceFiles defaults) (stored_maxSourceFiles d);
      mindmapsFolder :=
        assign_key (mindmapsFolder defaults) (stored_mindmapsFolder d);
      saveFormat := assign_key (saveFormat defaults) (stored_saveFormat d);
      customApiUrl :=
        match stored_customApiUrl d with
        | Some url => Some url
        | None => customApiUrl defaults
        end
    |}
  end.

(** The object that [saveData(this.settings)] stores: every property of the
    settings object; [customApiUrl] only when it is defined. *)
Definition stored_of (s : PluginSettings) : StoredSettings := {|
  stored_llmProvider := Some (llmProvider s);
  stored_apiKey := Some (apiKey s);
  stored_model := Some (model s);
  stored_maxTokens := Some (maxTokens s);
  stored_includeContent := Some (includeContent s);
  stored_tagWeighting := Some (tagWeighting s);
  stored_autoSave := Some (autoSave s);
  stored_outputFormat := Some (outputFormat s);
  stored_enableMultiParent := Some (enableMultiParent s);
  stored_maxSourceFiles := Some (maxSourceFiles s);
  stored_mindmapsFolder := Some (mindmapsFolder s);
  stored_saveFormat := Some (saveFormat s);
  stored_customApiUrl := customApiUrl s
|}.

(** ** Field updates of the settings object *)

Definition with_llmProvider (v : LLMProvider) (s : PluginSettings) :=
  Build_PluginSettings v (apiKey s) (model s) (maxTokens s) (includeContent s)
    (tagWeighting s) (autoSave s) (outputFormat s) (enableMultiParent s)
    (maxSourceFiles s) (mindmapsFolder s) (saveFormat s) (customApiUrl s).

Definition with_model (v : string) (s : PluginSettings) :=
  Build_PluginSettings (llmProvider s) (apiKey s) v (maxTokens s)
    (includeContent s) (tagWeighting s) (autoSave s) (outputFormat s)
    (enableMultiParent s) (maxSourceFiles s) (mindmapsFolder s) (saveFormat s)
    (customApiUrl s).

Definition with_customApiUrl (v : string) (s : PluginSettings) :=
  Build_PluginSettings (llmProvider s) (apiKey s) (model s) (maxTokens s)
    (includeContent s) (tagWeighting s) (autoSave s) (outputFormat s)
    (enableMultiParent s) (maxSourceFiles s) (mindmapsFolder s) (saveFormat s)
    (Some v).

Definition with_maxTokens (v : nat) (s : PluginSettings) :=
  Build_PluginSettings (llmProvider s) (apiKey s) (model s) v
    (includeContent s) (tagWeighting s) (autoSave s) (outputFormat s)
    (enableMultiParent s) (maxSourceFiles s) (mindmapsFolder s) (saveFormat s)
    (customApiUrl s).

Definition with_tagWeighting (v : TagWeighting) (s : PluginSettings) :=
  Build_PluginSettings (llmProvider s) (apiKey s) (model s) (maxTokens s)
    (includeContent s) v (autoSave s) (outputFormat s) (enableMultiParent s)
    (maxSourceFiles s) (mindmapsFolder s) (saveFormat s) (customApiUrl s).

Definition with_autoSave (v : bool) (s : PluginSettings) :=
  Build_PluginSettings (llmProvider s) (apiKey s) (model s) (maxTokens s)
    (includeContent s) (tagWeighting s) v (outputFormat s)
    (enableMultiParent s) (maxSourceFiles s) (mindmapsFolder s) (saveFormat s)
    (customApiUrl s).

Definition with_outputFormat (v : OutputFormat) (s : PluginSettings) :=
  Build_PluginSettings (llmProvider s) (apiKey s) (model s) (maxTokens s)
    (includeContent s) (tagWeighting s) (autoSave s) v (enableMultiParent s)
    (maxSourceFiles s) (mindmapsFolder s) (saveFormat s) (customApiUrl s).

Definition with_enableMultiParent (v : bool) (s : PluginSettings) :=
  Build_PluginSettings (llmProvider s) (apiKey s) (model s) (maxTokens s)
    (includeContent s) (tagWeighting s) (autoSave s) (outputFormat s) v
    (maxSourceFiles s) (mindmapsFolder s) (saveFormat s) (customApiUrl s).

Definition with_maxSourceFiles (v : nat) (s : PluginSettings) :=
  Build_PluginSettings (llmProvider s) (apiKey s) (model s) (maxTokens s)
    (includeContent s) (tagWeighting s) (autoSave s) (outputFormat s)
    (enableMultiParent s) v (mindmapsFolder s) (saveFormat s) (customApiUrl s).

Definition with_mindmapsFolder (v : string) (s : PluginSettings) :=
  Build_PluginSettings (llmProvider s) (apiKey s) (model s) (maxTokens s)
    (includeContent s) (tagWeighting s) (autoSave s) (outputFormat s)
    (enableMultiParent s) (maxSourceFiles s) v (saveFormat s) (customApiUrl s).

Definition with_saveFormat (v : SaveFormat) (s : PluginSettings) :=
  Build_PluginSettings (llmProvider s) (apiKey s) (model s) (maxTokens s)
    (includeContent s) (tagWeighting s) (autoSave s) (outputFormat s)
    (enableMultiParent s) (maxSourceFiles s) (mindmapsFolder s) v
    (customApiUrl s).

(** ** Numbers as parseInt returns them *)

(** NaN, or an integer given by its sign and magnitude. Numbers are IEEE
    doubles: the magnitude stands for an integral double, the infinities
    that parseInt returns for inputs of several hundred digits are left
    out. *)
Inductive JsInt :=
| NaN
| Finite (negative : bool) (magnitude : nat).

Definition isNaN (n : JsInt) : bool :=
  match n with NaN => true | Finite _ _ => false end.

(** [n > 0] *)
Definition above_zero (n : JsInt) : bool :=
  match n with
  | NaN => false
  | Finite negative magnitude => negb negative && Nat.ltb 0 magnitude
  end.

Definition magnitude_of (n : JsInt) : nat :=
  match n with NaN => 0 | Finite _ m => m end.

(** ** The plugin object and its host *)

(** The methods that ribbon icons and commands are bound to. *)
Inductive Method :=
| OpenSourceSelector
| GenerateFromCurrentNote
| OpenTagSelector
| ActivateVisualMindmapView
| OpenMindmapCombiner.

(** A command is registered with a [callback] or with an [editorCallback]. *)
Inductive CommandKind := Callback | EditorCallback.

Definition Leaf := nat.

(** The result of [llmService.testConnection()], as the settings tab reads
    it. *)
Record TestResult := { test_success : bool; test_error : string }.

(** An edit in the settings tab: the control and the value its [onChange]
    receives. *)
Inductive Edit :=
| ChangeProvider (value : LLMProvider)
| ChangeApiKey (value : string)
| ChangeModel (value : string)
| ChangeCustomApiUrl (value : string)
| ChangeMaxTokens (value : string)
| ChangeTagWeighting (value : TagWeighting)
| ChangeMultiParent (value : bool)
| ChangeOutputFormat (value : OutputFormat)
| ChangeAutoSave (value : bool)
| ChangeMaxSourceFiles (value : string)
| ChangeMindmapsFolder (value : string)
| ChangeSaveFormat (value : SaveFormat).

Inductive host_event :=
| HLoadData
| HSaveData (data : PluginSettings)
| HUpdateSettings (st : PluginSettings)
| HNewContentAggregator
| HNewLLMService (st : PluginSettings)
| HNewMindmapGenerator
| HNewPersistenceService
| HPersistenceInitialize
| HRegisterView (viewType : string)
| HAddRibbonIcon (icon title : string) (callback : Method)
| HAddCommand (id name : string) (kind : CommandKind) (callback : Method)
| HAddSettingTab
| HConsoleLog (msg : string)
| HGetLeavesOfType (viewType : string)
| HGetLeaf
| HSetViewState (leaf : Leaf) (viewType : string)
| HRevealLeaf (leaf : Leaf)
| HDisplay
| HSetButtonText (text : string)
| HTestConnection
| HNotice (msg : string).

(** The host application and the services, each call returning or
    throwing. *)
Record Host := {
  loadData : result (option StoredSettings);
  saveData : PluginSettings -> result unit;
  updateSettings : PluginSettings -> result unit;
  newContentAggregator : result unit;
  newLLMService : PluginSettings -> result unit;
  newMindmapGenerator : result unit;
  newPersistenceService : result unit;
  persistenceInitialize : result unit;
  registerView : string -> result unit;
  addRibbonIcon : string -> string -> result unit;
  addCommand : string -> string -> result unit;
  addSettingTab : result unit;
  getLeavesOfType : string -> result (list Leaf);
  workspaceGetLeaf : result Leaf;
  leafSetViewState : Leaf -> string -> result unit;
  workspaceRevealLeaf : Leaf -> result unit;
  testConnection : result TestResult
}.

(** *** Methods over [this.settings]

    A method takes the current value of [this.settings] and yields its
    trace, the value of [this.settings] when it stops, and its result or
    the exception it threw. An assignment made before an exception
    stays. *)

Definition Task (A : Type) : Type :=
  PluginSettings -> list host_event * PluginSettings * result A.

Definition task_ret {A} (a : A) : Task A := fun s => ([], s, inr a).

Definition task_bind {A B} (m : Task A) (f : A -> Task B) : Task B :=
  fun s =>
    match m s with
    | (t, s', inl e) => (t, s', inl e)
    | (t, s', inr a) =>
        match f a s' with
        | (t', s'', r) => ((t ++ t')%list, s'', r)
        end
    end.

(** [try { m } catch (error) { h error }] *)
Definition task_try {A} (m : Task A) (h : JsError -> Task A) : Task A :=
  fun s =>
    match m s with
    | (t, s', inl e) =>
        match h e s' with
        | (t', s'', r) => ((t ++ t')%list, s'', r)
        end
    | (t, s', inr a) => (t, s', inr a)
    end.

Definition task_call {A} (ev : host_event) (r : result A) : Task A :=
  fun s => ([ev], s, r).

Definition task_emit (ev : host_event) : Task unit := fun s => ([ev], s, inr tt).

(** An evaluation that calls nothing but may throw. *)
Definition task_evaluate {A} (r : result A) : Task A := fun s => ([], s, r).

(** Reading [this.settings] and assigning to it or to one of its fields. *)
Definition get_settings : Task PluginSettings := fun s => ([], s, inr s).
Definition set_settings (s' : PluginSettings) : Task unit :=
  fun _ => ([], s', inr tt).
Definition modify_settings (f : PluginSettings -> PluginSettings) : Task unit :=
  fun s => ([], f s, inr tt).

Definition task_trace {A} (x : list host_event * PluginSettings * result A)
  : list host_event := fst (fst x).
Definition task_settings {A} (x : list host_event * PluginSettings * result A)
  : PluginSettings := snd (fst x).
Definition task_result {A} (x : list host_event * PluginSettings * result A)
  : result A := snd x.

Section PluginObject.

(** The built-ins [parseInt] and [String.prototype.trim] of the JavaScript
    runtime: whatever they compute. *)
Variable parseInt : string -> JsInt.
Variable trim : string -> string.

(** The view type constants of the missing view modules. *)
Variables VIEW_TYPE_MINDMAP VIEW_TYPE_VISUAL_MINDMAP : string.

Variable host : Host.

Notation "x <- m ;; k" := (task_bind m (fun x => k))
  (at level 61, m at next level, right associativity).
Notation "m ;;; k" := (task_bind m (fun _ => k))
  (at level 61, right associativity).

Definition loadSettings : Task unit :=
  data <- task_call HLoadData (loadData host) ;;
  set_settings (assign DEFAULT_SETTINGS data).

Definition saveSettings : Task unit :=
  (s <- get_settings ;; task_call (HSaveData s) (saveData host s)) ;;;
  (* update services when settings change *)
  s <- get_settings ;; task_call (HUpdateSettings s) (updateSettings host s).

Definition onload : Task unit :=
  loadSettings ;;;
  (* initialize services *)
  task_call HNewContentAggregator (newContentAggregator host) ;;;
  (s <- get_settings ;; task_call (HNewLLMService s) (newLLMService host s)) ;;;
  task_call HNewMindmapGenerator (newMindmapGenerator host) ;;;
  task_call HNewPersistenceService (newPersistenceService host) ;;;
  task_call HPersistenceInitialize (persistenceInitialize host) ;;;
  (* register views *)
  task_call (HRegisterView VIEW_TYPE_MINDMAP)
    (registerView host VIEW_TYPE_MINDMAP) ;;;
  task_call (HRegisterView VIEW_TYPE_VISUAL_MINDMAP)
    (registerView host VIEW_TYPE_VISUAL_MINDMAP) ;;;
  (* ribbon icons *)
  task_call
    (HAddRibbonIcon "brain-circuit" "AI Mindmap Generator" OpenSourceSelector)
    (addRibbonIcon host "brain-circuit" "AI Mindmap Generator") ;;;
  task_call (HAddRibbonIcon "link" "Combine Mindmaps" OpenMindmapCombiner)
    (addRibbonIcon host "link" "Combine Mindmaps") ;;;
  (* commands *)
  task_call
    (HAddCommand "generate-mindmap-from-selection"
       "Generate mindmap from selected files" Callback OpenSourceSelector)
    (addCommand host "generate-mindmap-from-selection"
       "Generate mindmap from selected files") ;;;
  task_call
    (HAddCommand "generate-mindmap-from-current"
       "Generate mindmap from current note" EditorCallback
       GenerateFromCurrentNote)
    (addCommand host "generate-mindmap-from-current"
       "Generate mindmap from current note") ;;;
  task_call
    (HAddCommand "generate-mindmap-from-tag" "Generate mindmap from tag"
       Callback OpenTagSelector)
    (addCommand host "generate-mindmap-from-tag" "Generate mindmap from tag") ;;;
  task_call
    (HAddCommand "open-visual-mindmap" "Open visual mindmap view" Callback
       ActivateVisualMindmapView)
    (addCommand host "open-visual-mindmap" "Open visual mindmap view") ;;;
  task_call
    (HAddCommand "combine-mindmaps" "Combine multiple mindmaps" Callback
       OpenMindmapCombiner)
    (addCommand host "combine-mindmaps" "Combine multiple mindmaps") ;;;
  (* settings tab *)
  task_call HAddSettingTab (addSettingTab host) ;;;
  task_emit (HConsoleLog "AI Mindmap Generator plugin loaded").

Definition onunload : Task unit :=
  task_emit (HConsoleLog "AI Mindmap Generator plugin unloaded").

Definition activateVisualMindmapView : Task unit :=
  leaves <- task_call (HGetLeavesOfType VIEW_TYPE_VISUAL_MINDMAP)
              (getLeavesOfType host VIEW_TYPE_VISUAL_MINDMAP) ;;
  match leaves with
  | first :: _ =>
      (* focus existing view *)
      task_call (HRevealLeaf first) (workspaceRevealLeaf host first)
  | [] =>
      (* create new view *)
      leaf <- task_call HGetLeaf (workspaceGetLeaf host) ;;
      task_call (HSetViewState leaf VIEW_TYPE_VISUAL_MINDMAP)
        (leafSetViewState host leaf VIEW_TYPE_VISUAL_MINDMAP) ;;;
      task_call (HRevealLeaf leaf) (workspaceRevealLeaf host leaf)
  end.

(** *** The settings tab: the [onChange] handlers of [display] *)

(** The two numeric fields share their handler: the entry is parsed and
    taken only when it is a number above zero. *)
Definition onChange_number (set : nat -> PluginSettings -> PluginSettings)
    (value : string) : Task unit :=
  let numValue := parseInt value in
  if negb (isNaN numValue) && above_zero numValue then
    modify_settings (set (magnitude_of numValue)) ;;; saveSettings
  else task_ret tt.

Definition onChange (e : Edit) : Task unit :=
  match e with
  | ChangeProvider value =>
      modify_settings (with_llmProvider value) ;;;
      saveSettings ;;;
      (* refresh to show provider-specific options *)
      task_emit HDisplay
  | ChangeApiKey value => modify_settings (with_apiKey value) ;;; saveSettings
  | ChangeModel value => modify_settings (with_model value) ;;; saveSettings
  | ChangeCustomApiUrl value =>
      modify_settings (with_customApiUrl value) ;;; saveSettings
  | ChangeMaxTokens value => onChange_number with_maxTokens value
  | ChangeTagWeighting value =>
      modify_settings (with_tagWeighting value) ;;; saveSettings
  | ChangeMultiParent value =>
      modify_settings (with_enableMultiParent value) ;;; saveSettings
  | ChangeOutputFormat value =>
      modify_settings (with_outputFormat value) ;;; saveSettings
  | ChangeAutoSave value => modify_settings (with_autoSave value) ;;; saveSettings
  | ChangeMaxSourceFiles value => onChange_number with_maxSourceFiles value
  | ChangeMindmapsFolder value =>
      modify_settings
        (with_mindmapsFolder
           (if String.eqb (trim value) "" then "AI Mindmaps" else trim value)) ;;;
      saveSettings
  | ChangeSaveFormat value =>
      modify_settings (with_saveFormat value) ;;; saveSettings
  end.

(** The [onClick] handler of the Test Connection button. *)
Definition onClick_testConnection : Task unit :=
  task_emit (HSetButtonText "Testing...") ;;;
  task_try
    (testResult <- task_call HTestConnection (testConnection host) ;;
     if test_success testResult then
       task_emit (HNotice "✅ API connection successful!")
     else
       task_emit (HNotice ("❌ Connection failed: " ++ test_error testResult)))
    (fun error =>
       msg <- task_evaluate (message error) ;;
       task_emit (HNotice ("❌ Connection error: " ++ msg))) ;;;
  task_emit (HSetButtonText "Test Connection").

End PluginObject.

(** Settings after a series of edits in the tab, each against the host as
    it then is; an edit whose handler throws keeps the assignments it made. *)
Fixpoint edit_all (parseInt : string -> JsInt) (trim : string -> string)
    (edits : list (Host * Edit)) (s : PluginSettings) : PluginSettings :=
  match edits with
  | [] => s
  | (host, e) :: rest =>
      edit_all parseInt trim rest
        (task_settings (onChange parseInt trim host e s))
  end.

(** The settings the tab is meant to keep: above_zero limits and a folder
    name. *)
Definition valid_settings (s : PluginSettings) : Prop :=
  0 < maxTokens s /\ 0 < maxSourceFiles s /\ mindmapsFolder s <> "".

(** An entry that a numeric field does not take: it parses to NaN or to a
    number that is not above zero. *)
Definition rejected (parseInt : string -> JsInt) (e : Edit) : bool :=
  match e with
  | ChangeMaxTokens value | ChangeMaxSourceFiles value =>
      isNaN (parseInt value) || negb (above_zero (parseInt value))
  | _ => false
  end.

(** The page is rebuilt after a change of provider only. *)
Definition refresh (e : Edit) : list host_event :=
  match e with
  | ChangeProvider _ => [HDisplay]
  | _ => []
  end.

Definition is_registration (e : host_event) : bool :=
  match e with
  | HRegisterView _ | HAddRibbonIcon _ _ _ | HAddCommand _ _ _ _
  | HAddSettingTab => true
  | _ => false
  end.

Definition command_ids (t : list host_event) : list string :=
  flat_map (fun e => match e with
                     | HAddCommand id _ _ _ => [id]
                     | _ => []
                     end) t.

Definition is_reveal (e : host_event) : bool :=
  match e with HRevealLeaf _ => true | _ => false end.

(** The two built-ins on plain decimal and space-padded text, to run the
    handlers on examples. *)
Fixpoint decimal_digits (acc : option nat) (s : string) : option nat :=
  match s with
  | EmptyString => acc
  | String c r =>
      let n := nat_of_ascii c in
      if Nat.leb 48 n && Nat.leb n 57 then
        decimal_digits
          (Some (10 * match acc with Some a => a | None => 0 end + (n - 48))) r
      else acc
  end.

Definition sample_parseInt (s : string) : JsInt :=
  match s with
  | String "-" r =>
      match decimal_digits None r with Some n => Finite true n | None => NaN end
  | _ =>
      match decimal_digits None s with Some n => Finite false n | None => NaN end
  end.

Fixpoint sample_trimStart (s : string) : string :=
  match s with
  | EmptyString => EmptyString
  | String c r => if Ascii.eqb c " " then sample_trimStart r else s
  end.

Fixpoint sample_trimEnd (s : string) : string :=
  match s with
  | EmptyString => EmptyString
  | String c r =>
      match sample_trimEnd r with
      | EmptyString =>
          if Ascii.eqb c " " then EmptyString else String c EmptyString
      | r' => String c r'
      end
  end.

Definition sample_trim (s : string) : string :=
  sample_trimEnd (sample_trimStart s).

(** A host where every call returns: the data file holds [data], and
    [leaves] are the workspace leaves of the visual mindmap type. *)
Definition sample_host (data : option StoredSettings) (leaves : list Leaf)
  : Host := {|
  loadData := inr data;
  saveData := fun _ => inr tt;
  updateSettings := fun _ => inr tt;
  newContentAggregator := inr tt;
  newLLMService := fun _ => inr tt;
  newMindmapGenerator := inr tt;
  newPersistenceService := inr tt;
  persistenceInitialize := inr tt;
  registerView := fun _ => inr tt;
  addRibbonIcon := fun _ _ => inr tt;
  addCommand := fun _ _ => inr tt;
  addSettingTab := inr tt;
  getLeavesOfType := fun _ => inr leaves;
  workspaceGetLeaf := inr 7;
  leafSetViewState := fun _ _ => inr tt;
  workspaceRevealLeaf := fun _ => inr tt;
  testConnection := inr {| test_success := true; test_error := "" |}
|}.

(** A host whose data file cannot be written. *)
Definition read_only_host : Host := {|
  loadData := inr None;
  saveData := fun _ => inl (error_with "EACCES: permission denied");
  updateSettings := fun _ => inr tt;
  newContentAggregator := inr tt;
  newLLMService := fun _ => inr tt;
  newMindmapGenerator := inr tt;
  newPersistenceService := inr tt;
  persistenceInitialize := inl (error_with "Failed to create folder");
  registerView := fun _ => inr tt;
  addRibbonIcon := fun _ _ => inr tt;
  addCommand := fun _ _ => inr tt;
  addSettingTab := inr tt;
  getLeavesOfType := fun _ => inr [];
  workspaceGetLeaf := inr 7;
  leafSetViewState := fun _ _ => inr tt;
  workspaceRevealLeaf := fun _ => inr tt;
  testConnection := inl thrown_null
|}.

End Lifecycle.

(** * Part II: the mindmap core *)

Module Core.

Import Plugin.

(** ** Text helpers *)

Definition is_upper (c : ascii) : bool :=
  let n := nat_of_ascii c in Nat.leb 65 n && Nat.leb n 90.

Definition lower_ascii (c : ascii) : ascii :=
  if is_upper c then ascii_of_nat (nat_of_ascii c + 32) else c.

Fixpoint to_lower (s : string) : string :=
  match s with
  | EmptyString => EmptyString
  | String c r => String (lower_ascii c) (to_lower r)
  end.

(** Case-insensitive comparison of two strings. *)
Definition eq_ci (a b : string) : bool := String.eqb (to_lower a) (to_lower b).

Definition is_whitespace (c : ascii) : bool :=
  Ascii.eqb c " "%char || Ascii.eqb c "009"%char ||
  Ascii.eqb c "010"%char || Ascii.eqb c "013"%char.

Fixpoint all_chars (p : ascii -> bool) (s : string) : bool :=
  match s with
  | EmptyString => true
  | String c r => p c && all_chars p r
  end.

(** Empty or whitespace-only. *)
Definition is_blank (s : string) : bool := all_chars is_whitespace s.

(** [s.split(sep)] for a one-character separator. *)
Fixpoint split_on (sep : ascii) (s : string) : list string :=
  match s with
  | EmptyString => [EmptyString]
  | String c r =>
      if Ascii.eqb c sep then EmptyString :: split_on sep r
      else match split_on sep r with
           | h :: t => String c h :: t
           | [] => [String c EmptyString]
           end
  end.

Fixpoint first_some {A} (l : list (option A)) : option A :=
  match l with
  | [] => None
  | Some a :: _ => Some a
  | None :: r => first_some r
  end.

(** ** Data model (section 3 of the specification) *)

Unset Elimination Schemes.

(** Modelled from the spec: the MindmapNode type of the missing
    src/types/interfaces.ts, with the fields the specification lists.
    [children] is the owning (primary) tree; [secondaryParents] holds ids of
    other nodes, never ownership. *)
Inductive MindmapNode : Type := mkNode {
  id : nat;
  title : string;
  category : option string;
  depth : nat;
  tags : list string;
  sourceRefs : list string;
  children : list MindmapNode;
  secondaryParents : list nat
}.

(** Modelled from the spec: a node of the raw nested outline returned by
    the model service: a title (absent when malformed), an optional
    category hint, optional tag hints, and child nodes. *)
Inductive RawNode : Type := mkRaw {
  raw_title : option string;
  raw_category : option string;
  raw_tags : list string;
  raw_children : list RawNode
}.

Set Elimination Schemes.

(** Modelled from the spec: the Mindmap value. An absent [categorySchema]
    is [None]. *)
Record Mindmap := {
  root : MindmapNode;
  categorySchema : option (list string);
  createdAt : string;
  sourceFiles : list string
}.

(** Modelled from the spec: what the core reads of one aggregated source:
    identifier, extracted tags, raw text length. *)
Record SourceContent := {
  source_id : string;
  source_tags : list string;
  text_length : nat
}.

Inductive Warning :=
| WUnattributed (node_title : string)
| WUncategorized (node_title : string)
| WDroppedAnnotation (node_title annotation : string).

Inductive StructureError := StructureError_empty_outline.
Inductive CombineError := CombineError_missing_schema.
Inductive ParseError :=
| ParseError_unreadable_line (line : string)
| ParseError_unbalanced_indentation.

Definition UNATTRIBUTED : string := "unattributed".
Definition UNCATEGORIZED : string := "Uncategorized".

(** Structural induction over the owning tree. *)
Section NodeInduction.

Variable P : MindmapNode -> Prop.
Hypothesis P_node :
  forall i t c d tg sr ch sp, Forall P ch -> P (mkNode i t c d tg sr ch sp).

Fixpoint MindmapNode_ind (n : MindmapNode) : P n :=
  match n with
  | mkNode i t c d tg sr ch sp =>
      P_node i t c d tg sr ch sp
        ((fix all (l : list MindmapNode) : Forall P l :=
            match l with
            | [] => Forall_nil P
            | x :: r => Forall_cons x (MindmapNode_ind x) (all r)
            end) ch)
  end.

End NodeInduction.

Section RawInduction.

Variable P : RawNode -> Prop.
Hypothesis P_raw :
  forall t c tg ch, Forall P ch -> P (mkRaw t c tg ch).

Fixpoint RawNode_ind (r : RawNode) : P r :=
  match r with
  | mkRaw t c tg ch =>
      P_raw t c tg ch
        ((fix all (l : list RawNode) : Forall P l :=
            match l with
            | [] => Forall_nil P
            | x :: rest => Forall_cons x (RawNode_ind x) (all rest)
            end) ch)
  end.

End RawInduction.

(** Nodes of a subtree in depth-first (pre-)order, the node itself first. *)
Fixpoint preorder (n : MindmapNode) : list MindmapNode :=
  n :: flat_map preorder (children n).

Definition size (n : MindmapNode) : nat := List.length (preorder n).

(** ** 4.1 TagHierarchyResolver *)

Record TagPlacement := {
  tp_tag : string;
  tp_path : list string;
  tp_suggestion : option string
}.

(** Modelled from the spec: TagHierarchyResolver for one tag: the path of
    its slash-separated segments, and the schema entry that the first
    segment matches case-insensitively, if any. *)
Definition resolve_tag (schema : list string) (tag : string) : TagPlacement :=
  let path := split_on "/"%char tag in
  {| tp_tag := tag;
     tp_path := path;
     tp_suggestion :=
       match path with
       | first :: _ => find (eq_ci first) schema
       | [] => None
       end |}.

(** Modelled from the spec: TagHierarchyResolver. Empty and whitespace-only
    tags are dropped silently; every other tag is retained. The weighting
    mode plays no part here, it is used by [resolveCategory]. *)
Definition resolveTags (schema : list string) (rawTags : list string)
  : list TagPlacement :=
  map (resolve_tag schema) (filter (fun t => negb (is_blank t)) rawTags).

(** The tag-derived category suggestion of a node: that of its first tag
    that has one. *)
Definition tag_suggestion (schema : list string) (tgs : list string)
  : option string :=
  first_some (map tp_suggestion (resolveTags schema tgs)).

(** ** 4.2 StructureBuilder *)

Section StructureBuilder.

Variable mode : TagWeighting.
Variable schema : list string.
Variable sources : list SourceContent.

(** Modelled from the spec: the model's category hint, normalized into the
    schema at the StructureBuilder boundary: a hint that matches an entry
    case-insensitively becomes that entry. *)
Definition normalize_hint (hint : string) : string :=
  match find (eq_ci hint) schema with
  | Some c => c
  | None => hint
  end.

(** Number of source files corroborating a category: those with a tag
    whose suggestion is that category. *)
Definition corroboration (c : string) : nat :=
  List.length
    (filter (fun src =>
               existsb (fun p => match tp_suggestion p with
                                 | Some c' => String.eqb c' c
                                 | None => false
                                 end)
                       (resolveTags schema (source_tags src)))
            sources).

(** Modelled from the spec: the arbitration of StructureBuilder between the
    tag suggestion and the model's suggestion. [high]: the tag suggestion
    wins on conflict; [medium]: the one with more corroborating source
    files (the model's on a draw); [low]: the model's suggestion wins, the
    tag suggestion is used only when the model provides none. *)
Definition resolveCategory (tagSug modelSug : option string) : option string :=
  match tagSug, modelSug with
  | None, m => m
  | Some t, None => Some t
  | Some t, Some m =>
      match mode with
      | high => Some t
      | medium => if Nat.ltb (corroboration m) (corroboration t) then Some t
                  else Some m
      | low => Some m
      end
  end.

(** Modelled from the spec: the category StructureBuilder gives a depth-1
    node. The specification populates it in every case; when neither the
    tags nor the model suggest one the fallback category is used. *)
Definition category_of (r : RawNode) : string :=
  match resolveCategory (tag_suggestion schema (raw_tags r))
                        (option_map normalize_hint (raw_category r)) with
  | Some c => c
  | None => UNCATEGORIZED
  end.

(** Modelled from the spec: the sources attributed to a node, those with a
    tag equal (ignoring case) to the node's title or to one of its tags. *)
Definition attributed (ttl : string) (tgs : list string) : list string :=
  map source_id
    (filter (fun src =>
               existsb (fun t => eq_ci t ttl || existsb (eq_ci t) tgs)
                       (source_tags src))
            sources).

Definition source_refs (ttl : string) (tgs : list string) : list string :=
  match attributed ttl tgs with
  | [] => [UNATTRIBUTED]
  | refs => refs
  end.

Definition node_tags (r : RawNode) : list string :=
  map tp_tag (resolveTags schema (raw_tags r)).

(** Modelled from the spec: the depth-first traversal of StructureBuilder.
    One MindmapNode per titled entry, children in outline order; an entry
    without a title is treated as absent. Ids are assigned afterwards by
    [assign_ids]. *)
Fixpoint build_node (d : nat) (r : RawNode) : list MindmapNode :=
  match raw_title r with
  | None => []
  | Some ttl =>
      [ {| id := 0;
           title := ttl;
           category := if Nat.eqb d 1 then Some (category_of r) else None;
           depth := d;
           tags := node_tags r;
           sourceRefs := source_refs ttl (node_tags r);
           children := flat_map (build_node (S d)) (raw_children r);
           secondaryParents := [] |} ]
  end.

Definition build_forest (d : nat) (rs : list RawNode) : list MindmapNode :=
  flat_map (build_node d) rs.

End StructureBuilder.

(** Modelled from the spec: ids stable within a tree, assigned in
    depth-first order: a node takes [next], its children follow. *)
Fixpoint assign_ids (next : nat) (n : MindmapNode) : MindmapNode :=
  {| id := next;
     title := title n;
     category := category n;
     depth := depth n;
     tags := tags n;
     sourceRefs := sourceRefs n;
     children :=
       (fix number (k : nat) (l : list MindmapNode) : list MindmapNode :=
          match l with
          | [] => []
          | c :: r => assign_ids k c :: number (k + size c) r
          end) (S next) (children n);
     secondaryParents := secondaryParents n |}.

Fixpoint assign_ids_forest (k : nat) (l : list MindmapNode) : list MindmapNode :=
  match l with
  | [] => []
  | c :: r => assign_ids k c :: assign_ids_forest (k + size c) r
  end.

Definition categories_of (top : list MindmapNode) : list string :=
  flat_map (fun n => match category n with Some c => [c] | None => [] end) top.

Definition build_warnings (r : MindmapNode) : list Warning :=
  flat_map (fun n =>
              (if list_eq_dec string_dec (sourceRefs n) [UNATTRIBUTED]
               then [WUnattributed (title n)] else []) ++
              (match category n with
               | Some c => if String.eqb c UNCATEGORIZED
                           then [WUncategorized (title n)] else []
               | None => []
               end))%list
           (flat_map preorder (children r)).

(** Modelled from the spec: StructureBuilder. Fails only when the outline
    yields no titled node. The root carries no title; a category missing
    from the configured schema is appended to it. *)
Definition build (mode : TagWeighting) (schema : list string)
    (sources : list SourceContent) (now : string) (outline : list RawNode)
  : StructureError + (Mindmap * list Warning) :=
  match build_forest mode schema sources 1 outline with
  | [] => inl StructureError_empty_outline
  | top =>
      let r := assign_ids 0
                 {| id := 0; title := ""; category := None; depth := 0;
                    tags := []; sourceRefs := []; children := top;
                    secondaryParents := [] |} in
      inr ({| root := r;
              categorySchema := Some (fold_left set_add (categories_of top) schema);
              createdAt := now;
              sourceFiles := map source_id sources |},
           build_warnings r)
  end.

(** ** 4.4 Serializer *)

Inductive Marker := Heading | ListItem.

Definition marker_eqb (a b : Marker) : bool :=
  match a, b with
  | Heading, Heading | ListItem, ListItem => true
  | _, _ => false
  end.

(** Modelled from the spec: the marker style of the Serializer, chosen from
    the depth alone: the heading style at depth 1, the list-item style
    below. *)
Definition marker_of_depth (d : nat) : Marker :=
  if Nat.eqb d 1 then Heading else ListItem.

Definition marker_text (m : Marker) : string :=
  match m with
  | Heading => "# "
  | ListItem => "- "
  end.

Definition INDENT_UNIT : nat := 2.
Definition NEWLINE : string := String "010"%char EmptyString.
Definition ANNOTATION_OPEN : string := " [ALSO: ".
Definition ANNOTATION_CLOSE : ascii := "]"%char.

Fixpoint spaces (n : nat) : string :=
  match n with
  | 0 => EmptyString
  | S k => String " "%char (spaces k)
  end.

(** First node of the tree with the given id, in depth-first order. *)
Definition find_node (r : MindmapNode) (i : nat) : option MindmapNode :=
  find (fun n => Nat.eqb (id n) i) (preorder r).

(** Modelled from the spec: the inline annotation naming a secondary
    parent by its title, verbatim; an id that names no node of the tree has
    nothing to show. *)
Definition annotation (r : MindmapNode) (p : nat) : string :=
  match find_node r p with
  | Some n => ANNOTATION_OPEN ++ title n ++ String ANNOTATION_CLOSE EmptyString
  | None => EmptyString
  end.

(** *** The fields of a node on its line *)

Definition ESCAPE : ascii := "\"%char.
Definition ITEM : ascii := ";"%char.
Definition FIELD_END : ascii := "|"%char.
Definition FIELDS_OPEN : string := "{".
Definition FIELDS_CLOSE : string := "} ".

(** A character of a field value as it is written: a line break becomes
    [\n], and the three characters that structure the fields are preceded
    by the escape character. *)
Definition escape_char (c : ascii) : string :=
  if Ascii.eqb c "010"%char then String ESCAPE (String "n"%char EmptyString)
  else if Ascii.eqb c ESCAPE || Ascii.eqb c ITEM || Ascii.eqb c FIELD_END
       then String ESCAPE (String c EmptyString)
       else String c EmptyString.

Fixpoint escape (s : string) : string :=
  match s with
  | EmptyString => EmptyString
  | String c r => escape_char c ++ escape r
  end.

(** The character that an escaped character stands for. *)
Definition unescape_char (c : ascii) : ascii :=
  if Ascii.eqb c "n"%char then "010"%char else c.

(** A list of strings as one field: every item is preceded by [;], the
    field ends with [|]. *)
Definition write_list (l : list string) : string :=
  fold_right (fun t acc => String ITEM (escape t ++ acc))
             (String FIELD_END EmptyString) l.

Definition push_char (c : ascii) (r : option (list string * string))
  : option (list string * string) :=
  match r with
  | Some (h :: t, rest) => Some (String c h :: t, rest)
  | _ => None
  end.

(** Read one field: the text before the first [;], the items, and what
    follows the end of the field. *)
Fixpoint read_list (s : string) : option (list string * string) :=
  match s with
  | EmptyString => None
  | String c r =>
      if Ascii.eqb c FIELD_END then Some ([EmptyString], r)
      else if Ascii.eqb c ITEM then
        match read_list r with
        | Some (items, rest) => Some (EmptyString :: items, rest)
        | None => None
        end
      else if Ascii.eqb c ESCAPE then
        match r with
        | String e r' => push_char (unescape_char e) (read_list r')
        | EmptyString => None
        end
      else push_char c (read_list r)
  end.

Definition category_items (c : option string) : list string :=
  match c with
  | Some x => [x]
  | None => []
  end.

(** Modelled from the spec: the outline text alone must reconstruct the
    full tree (sections 1 and 6), so a line carries the category, the tags
    and the source references of its node. The specification fixes no
    notation for them; here they are three fields in braces between the
    marker and the title, so that the title and the annotations stay at
    the end of the line. *)
Definition write_fields (n : MindmapNode) : string :=
  FIELDS_OPEN ++ write_list (category_items (category n))
  ++ write_list (tags n) ++ write_list (sourceRefs n) ++ FIELDS_CLOSE.

Definition render_line (r n : MindmapNode) : string :=
  spaces (INDENT_UNIT * depth n) ++ marker_text (marker_of_depth (depth n))
  ++ write_fields n
  ++ title n ++ String.concat "" (map (annotation r) (secondaryParents n)).

(** Modelled from the spec: one line per node below the root, depth first;
    the root has no line. *)
Definition render_lines (r : MindmapNode) : list string :=
  map (render_line r) (flat_map preorder (children r)).

(** Modelled from the spec: the rendering half of the Serializer. *)
Definition render (m : Mindmap) : string :=
  String.concat NEWLINE (render_lines (root m)).

(** *** Parsing *)

Fixpoint leading_spaces (s : string) : nat * string :=
  match s with
  | String c r =>
      if Ascii.eqb c " "%char
      then let (n, rest) := leading_spaces r in (S n, rest)
      else (0, s)
  | EmptyString => (0, s)
  end.

Fixpoint strip_prefix (p s : string) : option string :=
  match p, s with
  | EmptyString, _ => Some s
  | String a p', String b s' =>
      if Ascii.eqb a b then strip_prefix p' s' else None
  | String _ _, EmptyString => None
  end.

(** Indentation, marker and remaining text of a line. *)
Definition line_style (line : string) : option (nat * Marker * string) :=
  let (n, rest) := leading_spaces line in
  match strip_prefix (marker_text Heading) rest with
  | Some text => Some (n, Heading, text)
  | None =>
      match strip_prefix (marker_text ListItem) rest with
      | Some text => Some (n, ListItem, text)
      | None => None
      end
  end.

(** Pieces of [s] between the occurrences of [delim], scanning left to
    right; [skip] counts the characters of an occurrence still to pass. *)
Fixpoint split_str (delim : string) (skip : nat) (s : string) : list string :=
  match s with
  | EmptyString => [EmptyString]
  | String c r =>
      match skip with
      | S k => split_str delim k r
      | 0 =>
          if String.prefix delim s
          then EmptyString :: split_str delim (String.length delim - 1) r
          else match split_str delim 0 r with
               | h :: t => String c h :: t
               | [] => [String c EmptyString]
               end
      end
  end.

(** A piece that follows an annotation opener is an annotation when it
    ends with the closing bracket; its text is what precedes the bracket. *)
Fixpoint close_annotation (piece : string) : list string :=
  match piece with
  | EmptyString => []
  | String c EmptyString =>
      if Ascii.eqb c ANNOTATION_CLOSE then [EmptyString] else []
  | String c r => map (String c) (close_annotation r)
  end.

Record ParsedLine := {
  pl_depth : nat;
  pl_category : option string;
  pl_tags : list string;
  pl_sourceRefs : list string;
  pl_title : string;
  pl_annotations : list string
}.

(** The three fields at the start of the text of a line, and the text that
    follows them. At most one category can be given. *)
Definition read_fields (text : string)
  : option (option string * list string * list string * string) :=
  match strip_prefix FIELDS_OPEN text with
  | None => None
  | Some s0 =>
      match read_list s0 with
      | Some (EmptyString :: cs, s1) =>
          match read_list s1 with
          | Some (EmptyString :: tg, s2) =>
              match read_list s2 with
              | Some (EmptyString :: sr, s3) =>
                  match strip_prefix FIELDS_CLOSE s3, cs with
                  | Some rest, [] => Some (None, tg, sr, rest)
                  | Some rest, [c] => Some (Some c, tg, sr, rest)
                  | _, _ => None
                  end
              | _ => None
              end
          | _ => None
          end
      | _ => None
      end
  end.

(** Modelled from the spec: a line of the outline read back. Depth is
    recovered from marker and indentation: the indentation is a multiple of
    the unit, the depth is at least 1, and the marker is the one of that
    depth; the fields of the node are read next; annotations are found by
    scanning the rest for the annotation pattern. *)
Definition parse_line (line : string) : option ParsedLine :=
  match line_style line with
  | None => None
  | Some (n, m, text) =>
      let d := n / INDENT_UNIT in
      if Nat.eqb (n mod INDENT_UNIT) 0 && Nat.leb 1 d
         && marker_eqb m (marker_of_depth d)
      then match read_fields text with
           | Some (c, tg, sr, rest) =>
               match split_str ANNOTATION_OPEN 0 rest with
               | ttl :: pieces =>
                   Some {| pl_depth := d;
                           pl_category := c;
                           pl_tags := tg;
                           pl_sourceRefs := sr;
                           pl_title := ttl;
                           pl_annotations := flat_map close_annotation pieces |}
               | [] => None
               end
           | None => None
           end
      else None
  end.

(** Blank lines are skipped; any other line must be readable. *)
Fixpoint parse_lines (lines : list string) : ParseError + list ParsedLine :=
  match lines with
  | [] => inr []
  | l :: rest =>
      if is_blank l then parse_lines rest
      else match parse_line l with
           | None => inl (ParseError_unreadable_line l)
           | Some pl =>
               match parse_lines rest with
               | inl e => inl e
               | inr pls => inr (pl :: pls)
               end
           end
  end.

(** Ids are line numbers, the root being 0. *)
Definition number_lines (pls : list ParsedLine) : list (nat * ParsedLine) :=
  List.combine (seq 1 (List.length pls)) pls.

(** Modelled from the spec: annotations are resolved by title within the
    parsed document, the first line with that title wins; a title found
    nowhere is dropped. *)
Definition resolve_annotation (numbered : list (nat * ParsedLine)) (a : string)
  : option nat :=
  option_map fst (find (fun e => String.eqb (pl_title (snd e)) a) numbered).

Definition resolve_annotations (numbered : list (nat * ParsedLine))
    (pl : ParsedLine) : list nat :=
  nodup Nat.eq_dec
    (flat_map (fun a => match resolve_annotation numbered a with
                        | Some i => [i]
                        | None => []
                        end)
              (pl_annotations pl)).

Definition dropped_annotations (numbered : list (nat * ParsedLine))
    (pl : ParsedLine) : list Warning :=
  flat_map (fun a => match resolve_annotation numbered a with
                     | Some _ => []
                     | None => [WDroppedAnnotation (pl_title pl) a]
                     end)
           (pl_annotations pl).

Fixpoint span {A} (p : A -> bool) (l : list A) : list A * list A :=
  match l with
  | [] => ([], [])
  | x :: r => if p x then let (a, b) := span p r in (x :: a, b) else ([], l)
  end.

(** Modelled from the spec: the tree is rebuilt from the depths of the
    lines. The lines are attached from the last one to the first: a line
    owns the subtrees to its right that are deeper than it, and every one of
    them must be exactly one level deeper (balanced indentation). *)
Definition attach (numbered : list (nat * ParsedLine)) (e : nat * ParsedLine)
    (acc : option (list MindmapNode)) : option (list MindmapNode) :=
  match acc with
  | None => None
  | Some forest =>
      let d := pl_depth (snd e) in
      let (kids, rest) := span (fun n => Nat.ltb d (depth n)) forest in
      if forallb (fun n => Nat.eqb (depth n) (S d)) kids
      then Some ({| id := fst e;
                    title := pl_title (snd e);
                    category := pl_category (snd e);
                    depth := d;
                    tags := pl_tags (snd e);
                    sourceRefs := pl_sourceRefs (snd e);
                    children := kids;
                    secondaryParents := resolve_annotations numbered (snd e) |}
                 :: rest)
      else None
  end.

Definition assemble (numbered : list (nat * ParsedLine))
  : option (list MindmapNode) :=
  match fold_right (attach numbered) (Some []) numbered with
  | Some top =>
      if forallb (fun n => Nat.eqb (depth n) 1) top then Some top else None
  | None => None
  end.

(** Modelled from the spec: the parsing half of the Serializer. It
    reconstructs the tree from the outline text alone, every field of
    every node included. *)
Definition parse (text : string) : ParseError + (MindmapNode * list Warning) :=
  match parse_lines (split_on "010"%char text) with
  | inl e => inl e
  | inr pls =>
      let numbered := number_lines pls in
      match assemble numbered with
      | None => inl ParseError_unbalanced_indentation
      | Some top =>
          inr ({| id := 0; title := ""; category := None; depth := 0;
                  tags := []; sourceRefs := []; children := top;
                  secondaryParents := [] |},
               flat_map (dropped_annotations numbered) pls)
      end
  end.

Set Warnings "-register-all".

(** Structural equality: every field of the two nodes is the same and the
    children are structurally equal in the same order; only the secondary
    parents are compared as sets. *)
Inductive struct_eq : MindmapNode -> MindmapNode -> Prop :=
| struct_eq_node (a b : MindmapNode) :
    id a = id b ->
    title a = title b ->
    category a = category b ->
    depth a = depth b ->
    tags a = tags b ->
    sourceRefs a = sourceRefs b ->
    (forall p, In p (secondaryParents a) <-> In p (secondaryParents b)) ->
    Forall2 struct_eq (children a) (children b) ->
    struct_eq a b.

Definition not_newline (c : ascii) : bool := negb (Ascii.eqb c "010"%char).

(** The shape of a subtree as StructureBuilder leaves it: every node at
    the depth of its position, and no secondary parent yet. *)
Inductive built_shape : nat -> MindmapNode -> Prop :=
| built_shape_node (d : nat) (n : MindmapNode) :
    depth n = d ->
    secondaryParents n = [] ->
    Forall (built_shape (S d)) (children n) ->
    built_shape d n.

(** Every node of the subtree is at the depth of its position. *)
Inductive depth_shape : nat -> MindmapNode -> Prop :=
| depth_shape_node (d : nat) (n : MindmapNode) :
    depth n = d ->
    Forall (depth_shape (S d)) (children n) ->
    depth_shape d n.

(** The titles that the line of [n] names in its annotations. *)
Definition annotation_titles (r n : MindmapNode) : list string :=
  flat_map (fun p => match find_node r p with
                     | Some x => [title x]
                     | None => []
                     end)
           (secondaryParents n).

(** The parsed line of a node of the tree [r]. *)
Definition line_in (r n : MindmapNode) : nat * ParsedLine :=
  (id n, {| pl_depth := depth n; pl_category := category n;
            pl_tags := tags n; pl_sourceRefs := sourceRefs n;
            pl_title := title n;
            pl_annotations := annotation_titles r n |}).

(** The subtree that the parser rebuilds from the lines of [n] and of its
    descendants, the annotations being resolved in [numbered]. *)
Fixpoint rebuilt (numbered : list (nat * ParsedLine)) (r n : MindmapNode)
  : MindmapNode :=
  {| id := id n;
     title := title n;
     category := category n;
     depth := depth n;
     tags := tags n;
     sourceRefs := sourceRefs n;
     children := map (rebuilt numbered r) (children n);
     secondaryParents := resolve_annotations numbered (snd (line_in r n)) |}.

Definition not_bracket (c : ascii) : bool := negb (Ascii.eqb c "["%char).

(** A title usable on a line with annotations: no line break and no
    opening bracket in it. *)
Definition bracket_free (t : string) : bool :=
  all_chars not_newline t && all_chars not_bracket t.

(** The text of the annotations naming the given titles. *)
Definition annotations_text (ts : list string) : string :=
  fold_right append ""
    (map (fun t => ANNOTATION_OPEN ++ t ++ String ANNOTATION_CLOSE "") ts).

(** The parsed line of a node without annotations. *)
Definition line_of (n : MindmapNode) : nat * ParsedLine :=
  (id n, {| pl_depth := depth n; pl_category := category n;
            pl_tags := tags n; pl_sourceRefs := sourceRefs n;
            pl_title := title n; pl_annotations := [] |}).

(** The subtree at the head of the pending list is not deeper than [d]. *)
Definition head_le (d : nat) (acc : list MindmapNode) : Prop :=
  match acc with
  | [] => True
  | x :: _ => depth x <= d
  end.

(** The scenario of two nodes named alike in different branches. *)
Definition twin_outline : list RawNode :=
  [ mkRaw (Some "Frontend") None []
      [ mkRaw (Some "State Management") None ["state"] [] ];
    mkRaw (Some "Backend") None []
      [ mkRaw (Some "State Management") None ["state"] [] ] ].

(** An outline with a line break inside a title. *)
Definition broken_outline : list RawNode :=
  [ mkRaw (Some (String "A" (String "I" (String "010"%char "Research"))))
          None [] [] ].

(** An outline in which the model wrote a cross-reference into a title. *)
Definition annotated_outline : list RawNode :=
  [ mkRaw (Some "AI Research") None [] [];
    mkRaw (Some "Quantum Computing") None []
      [ mkRaw (Some "Quantum AI Applications [ALSO: AI Research]") None [] [] ] ].

(** Occurrence of [delim] somewhere in [s]. *)
Fixpoint occurs (delim s : string) : bool :=
  String.prefix delim s ||
  match s with
  | EmptyString => false
  | String _ r => occurs delim r
  end.

(** A title that the outline format carries verbatim: no line break and no
    annotation opener in it. *)
Definition clean_title (t : string) : bool :=
  negb (occurs NEWLINE t) && negb (occurs ANNOTATION_OPEN t).

(** A node whose line is read back as it was written: below the root,
    without secondary parents, with a clean title. *)
Definition plain (n : MindmapNode) : Prop :=
  1 <= depth n /\ secondaryParents n = [] /\ clean_title (title n) = true.

(** ** 4.3 MultiParentLinker *)

Definition ids_of (l : list MindmapNode) : list nat := map id l.

(** Ids of the proper descendants in the owning tree. *)
Definition descendants (n : MindmapNode) : list nat :=
  ids_of (flat_map preorder (children n)).

(** A node with the ids of its owning-parent chain, the root first. *)
Record NodeInfo := {
  ni_node : MindmapNode;
  ni_ancestors : list nat
}.

Fixpoint node_infos (anc : list nat) (n : MindmapNode) : list NodeInfo :=
  {| ni_node := n; ni_ancestors := anc |}
  :: flat_map (node_infos (anc ++ [id n])) (children n).

(** The primary branch of a node: the child of the root that owns it. The
    root itself is in no branch. *)
Definition branch_of (i : NodeInfo) : option nat :=
  nth_error (ni_ancestors i ++ [id (ni_node i)]) 1.

Definition mem_nat (x : nat) (l : list nat) : bool := existsb (Nat.eqb x) l.

Definition add_nat (s : list nat) (x : nat) : list nat :=
  if mem_nat x s then s else (s ++ [x])%list.

Section MultiParentLinker.

(** The lexical-overlap judgement on two titles, with its threshold: a
    tunable parameter of the linker. *)
Variable title_overlap : string -> string -> bool.

Definition shares_tag (a b : MindmapNode) : bool :=
  existsb (fun t => existsb (eq_ci t) (tags b)) (tags a).

Definition related (a b : MindmapNode) : bool :=
  shares_tag a b || title_overlap (title a) (title b).

Definition different_branches (a b : NodeInfo) : bool :=
  match branch_of a, branch_of b with
  | Some x, Some y => negb (Nat.eqb x y)
  | _, _ => false
  end.

(** Modelled from the spec: the exclusion check of the linker before
    recording [b] on [a]: [b] is not [a], not an ancestor of [a] and not a
    descendant of [a]. *)
Definition violates_exclusion (a b : NodeInfo) : bool :=
  let ib := id (ni_node b) in
  Nat.eqb ib (id (ni_node a)) || mem_nat ib (ni_ancestors a)
  || mem_nat ib (descendants (ni_node a)).

Definition candidate (a b : NodeInfo) : bool :=
  different_branches a b && related (ni_node a) (ni_node b)
  && negb (violates_exclusion a b).

(** Modelled from the spec: links in discovery order: for a pair discovered
    as [a] then [b], [b] is recorded on [a], never the reverse. *)
Fixpoint link_pairs (infos : list NodeInfo) : list (nat * nat) :=
  match infos with
  | [] => []
  | a :: rest =>
      (map (fun b => (id (ni_node a), id (ni_node b))) (filter (candidate a) rest)
       ++ link_pairs rest)%list
  end.

Definition targets_of (pairs : list (nat * nat)) (i : nat) : list nat :=
  map snd (filter (fun pr => Nat.eqb (fst pr) i) pairs).

Fixpoint link_node (pairs : list (nat * nat)) (n : MindmapNode) : MindmapNode :=
  {| id := id n;
     title := title n;
     category := category n;
     depth := depth n;
     tags := tags n;
     sourceRefs := sourceRefs n;
     children := map (link_node pairs) (children n);
     secondaryParents :=
       fold_left add_nat (targets_of pairs (id n)) (secondaryParents n) |}.

(** Modelled from the spec: MultiParentLinker. Only [secondaryParents]
    grows; with the flag disabled the mindmap passes through. *)
Definition link (enable : bool) (m : Mindmap) : Mindmap :=
  if enable then
    {| root := link_node (link_pairs (node_infos [] (root m))) (root m);
       categorySchema := categorySchema m;
       createdAt := createdAt m;
       sourceFiles := sourceFiles m |}
  else m.

End MultiParentLinker.

(** No node is its own ancestor in the owning-parent chain. *)
Definition acyclic (r : MindmapNode) : Prop :=
  forall i, In i (node_infos [] r) -> ~ In (id (ni_node i)) (ni_ancestors i).

(** No secondary parent of a node is the node itself, one of its ancestors
    or one of its descendants. *)
Definition exclusion_ok (r : MindmapNode) : Prop :=
  forall i p,
    In i (node_infos [] r) -> In p (secondaryParents (ni_node i)) ->
    p <> id (ni_node i) /\ ~ In p (ni_ancestors i) /\
    ~ In p (descendants (ni_node i)).

(** A tree whose outline is read back as it was written: a root without
    title, category, tags or source references, every node at the depth of
    its position, ids in line order, titles below the root pairwise
    distinct and free of line breaks and opening brackets, and secondary
    parents that are nodes below the root. *)
Definition outline_ready (r : MindmapNode) : Prop :=
  let nodes := flat_map preorder (children r) in
  id r = 0 /\ title r = "" /\ depth r = 0 /\
  (category r = None /\ tags r = [] /\ sourceRefs r = []) /\
  secondaryParents r = [] /\
  children r <> [] /\
  Forall (depth_shape 1) (children r) /\
  ids_of nodes = seq 1 (List.length nodes) /\
  NoDup (map title nodes) /\
  forall n, In n nodes ->
            bracket_free (title n) = true /\
            forall p, In p (secondaryParents n) -> In p (ids_of nodes).

(** ** 4.5 MindmapCombiner *)

Definition union (a b : list string) : list string := fold_left set_add b a.

Definition schema_of (m : Mindmap) : list string :=
  match categorySchema m with
  | Some sch => sch
  | None => []
  end.

Definition schema_missing (m : Mindmap) : bool :=
  match categorySchema m with
  | None | Some [] => true
  | Some (_ :: _) => false
  end.

(** The union of all input schemas, in first-seen order. *)
Definition unified_schema (inputs : list Mindmap) : list string :=
  fold_left (fun acc m => fold_left set_add (schema_of m) acc) inputs [].

Definition has_category (c : string) (u : MindmapNode) : bool :=
  match category u with
  | Some c' => String.eqb c' c
  | None => false
  end.

(** The unified depth-1 node of a category, before anything is grafted. *)
Definition category_node (c : string) : MindmapNode :=
  {| id := 0; title := c; category := Some c; depth := 1; tags := [];
     sourceRefs := []; children := []; secondaryParents := [] |}.

(** The links of the inputs name ids of the input trees; they are dropped
    before the merged tree is numbered and linked again. *)
Fixpoint clear_links (n : MindmapNode) : MindmapNode :=
  {| id := id n;
     title := title n;
     category := category n;
     depth := depth n;
     tags := tags n;
     sourceRefs := sourceRefs n;
     children := map clear_links (children n);
     secondaryParents := [] |}.

(** What combine preserves of a node: everything but ids and links, which
    are reassigned on the merged tree. *)
Fixpoint content_of (n : MindmapNode) : MindmapNode :=
  {| id := 0;
     title := title n;
     category := category n;
     depth := depth n;
     tags := tags n;
     sourceRefs := sourceRefs n;
     children := map content_of (children n);
     secondaryParents := [] |}.

(** A subtree moved one level down: every depth grows by one, nothing
    else changes. *)
Fixpoint deepen (n : MindmapNode) : MindmapNode :=
  {| id := id n;
     title := title n;
     category := category n;
     depth := S (depth n);
     tags := tags n;
     sourceRefs := sourceRefs n;
     children := map deepen (children n);
     secondaryParents := secondaryParents n |}.

Section MindmapCombiner.

Variable title_overlap : string -> string -> bool.

(** The tag-set overlap judgement with its threshold: a tunable parameter
    of the combiner. *)
Variable tags_overlap : list string -> list string -> bool.

(** Modelled from the spec: two concept nodes are duplicates when their
    normalized titles are equal or their tag sets overlap above the
    threshold. *)
Definition is_duplicate (a b : MindmapNode) : bool :=
  eq_ci (title a) (title b) || tags_overlap (tags a) (tags b).

(** Add [b] to a list of siblings: merged (by [m]) into the first sibling
    judged a duplicate of it, appended when there is none. *)
Fixpoint insert_with (m : MindmapNode -> MindmapNode) (b : MindmapNode)
    (cs : list MindmapNode) : list MindmapNode :=
  match cs with
  | [] => [b]
  | c :: r => if is_duplicate c b then m c :: r else c :: insert_with m b r
  end.

(** Modelled from the spec: merge [b] into [a]: the union of the source
    references and of the tags, and the recursive merge of the children. *)
Fixpoint merge_into (b a : MindmapNode) : MindmapNode :=
  {| id := id a;
     title := title a;
     category := category a;
     depth := depth a;
     tags := union (tags a) (tags b);
     sourceRefs := union (sourceRefs a) (sourceRefs b);
     children :=
       fold_left (fun cs b' => insert_with (merge_into b') b' cs)
                 (children b) (children a);
     secondaryParents := secondaryParents a |}.

(** Modelled from the spec: grafting (step 2) with deduplication (step 3).
    The entire subtree of [n] goes under [u], one level down: merged into
    the first child of [u] judged a duplicate of it, a new last child when
    there is none. *)
Definition graft_whole (u n : MindmapNode) : MindmapNode :=
  {| id := id u;
     title := title u;
     category := category u;
     depth := depth u;
     tags := tags u;
     sourceRefs := sourceRefs u;
     children := insert_with (merge_into (deepen n)) (deepen n) (children u);
     secondaryParents := secondaryParents u |}.

(** Modelled from the spec: the unified node [u] of a category takes in
    the depth-1 node [n] of an input (steps 2 and 3). A depth-1 node that
    is the node of the category itself (its title is the category name, as
    in the trees of the combine scenario and in every tree that combine
    produced) is merged into [u], so that the subtrees below it come to lie
    under [u]. Any other depth-1 node is a concept of that category: its
    entire subtree, the node included, is grafted under [u]. *)
Definition absorb (u n : MindmapNode) : MindmapNode :=
  if String.eqb (title n) (title u) then merge_into n u else graft_whole u n.

(** [a] carries [b]: [a] is [b], or what [b] became when duplicates were
    merged. The title of [a] is that of [b] up to case, or [b] was judged
    a duplicate by the overlap of its tags with tags that [a] has; [a] has
    the tags and the source references of [b]; and every child of [b] is
    carried by a child of [a]. Ids, links and depths, which combine
    reassigns, play no part. *)
Inductive carries : MindmapNode -> MindmapNode -> Prop :=
| carries_node (a b : MindmapNode) :
    (exists tc,
        incl tc (tags a) /\
        eq_ci (title a) (title b) || tags_overlap tc (tags b) = true) ->
    incl (tags b) (tags a) ->
    incl (sourceRefs b) (sourceRefs a) ->
    Forall (fun c => Exists (fun c' => carries c' c) (children a)) (children b) ->
    carries a b.

(** The depth-1 node [n] of an input is held by the depth-1 node [u] of
    the combined tree: [u] carries it when [n] is the node of the category
    itself, a child of [u] carries it otherwise. *)
Definition holds (u n : MindmapNode) : Prop :=
  if String.eqb (title n) (title u) then carries u n
  else Exists (fun s => carries s n) (children u).

(** The child [s] of the depth-1 node [u] of the combined tree stems from
    the depth-1 node [n] of an input: it carries [n], or a child of [n]
    when [n] is the node of the category itself. *)
Definition stems_from (u s n : MindmapNode) : Prop :=
  if String.eqb (title n) (title u)
  then Exists (fun k => carries s k) (children n)
  else carries s n.

(** Modelled from the spec: where a depth-1 node of an input goes: under
    its own category when the unified schema has it, nowhere otherwise. *)
Definition placement (unified : list string) (n : MindmapNode) : option string :=
  match category n with
  | Some c => if existsb (String.eqb c) unified then Some c else None
  | None => None
  end.

(** Graft the subtrees of [n] under the unified node of category [c]. *)
Definition graft_under (c : string) (n : MindmapNode) (cats : list MindmapNode)
  : list MindmapNode :=
  map (fun u => if has_category c u then absorb u n else u) cats.

(** The synthetic fallback category is added, at the end, the first time
    it is needed. *)
Definition ensure_uncategorized (cats : list MindmapNode) : list MindmapNode :=
  if existsb (has_category UNCATEGORIZED) cats then cats
  else (cats ++ [category_node UNCATEGORIZED])%list.

(** Modelled from the spec: step 2 of the combiner for one depth-1 node of
    an input. The node is grafted under the unified node of its own
    category; only a node whose category no schema lists goes to the
    fallback category, with a warning. *)
Definition graft_category (unified : list string)
    (st : list MindmapNode * list Warning) (n : MindmapNode)
  : list MindmapNode * list Warning :=
  match placement unified n with
  | Some c => (graft_under c n (fst st), snd st)
  | None =>
      (graft_under UNCATEGORIZED n (ensure_uncategorized (fst st)),
       (snd st ++ [WUncategorized (title n)])%list)
  end.

Definition graft_tree (unified : list string)
    (st : list MindmapNode * list Warning) (m : Mindmap)
  : list MindmapNode * list Warning :=
  fold_left (graft_category unified) (children (root m)) st.

(** Modelled from the spec: MindmapCombiner. An input without category
    schema is a CombineError. Otherwise: one unified node per category of
    the unified schema (step 1), the depth-1 nodes of the inputs grafted in
    input order with deduplication (steps 2 and 3), fresh ids, and the
    linker run again on the merged tree (step 4). *)
Definition combine (now : string) (inputs : list Mindmap)
  : CombineError + (Mindmap * list Warning) :=
  if existsb schema_missing inputs then inl CombineError_missing_schema
  else
    let unified := unified_schema inputs in
    let st := fold_left (graft_tree unified) inputs
                        (map category_node unified, []) in
    let r := assign_ids 0
               (clear_links
                  {| id := 0; title := ""; category := None; depth := 0;
                     tags := []; sourceRefs := []; children := fst st;
                     secondaryParents := [] |}) in
    inr (link title_overlap true
           {| root := r;
              categorySchema := Some (categories_of (fst st));
              createdAt := now;
              sourceFiles :=
                fold_left (fun acc m => union acc (sourceFiles m)) inputs [] |},
         snd st).

(** *** What combine is expected to produce, category by category *)

(** All depth-1 nodes of the inputs, in input order. *)
Definition depth1_nodes (inputs : list Mindmap) : list MindmapNode :=
  flat_map (fun m => children (root m)) inputs.

(** A depth-1 node whose category is in no supplied schema. *)
Definition orphan (unified : list string) (n : MindmapNode) : bool :=
  match placement unified n with
  | Some _ => false
  | None => true
  end.

(** The category a depth-1 node is grafted under. *)
Definition target (unified : list string) (n : MindmapNode) : string :=
  match placement unified n with
  | Some c => c
  | None => UNCATEGORIZED
  end.

Definition grafts_for (unified : list string) (c : string)
    (ns : list MindmapNode) : list MindmapNode :=
  filter (fun n => String.eqb (target unified n) c) ns.

(** The unified node of a category after absorbing the given depth-1
    nodes, in order. *)
Definition merged_category (c : string) (ns : list MindmapNode) : MindmapNode :=
  fold_left absorb ns (category_node c).

(** The categories of the combined tree: the unified schema, followed by
    the synthetic fallback when an orphan needs it and the schema lacks it. *)
Definition final_categories (unified : list string) (ns : list MindmapNode)
  : list string :=
  (unified ++
   (if existsb (orphan unified) ns && negb (existsb (String.eqb UNCATEGORIZED) unified)
    then [UNCATEGORIZED] else []))%list.

Definition combined_categories (unified : list string) (ns : list MindmapNode)
  : list MindmapNode :=
  map (fun c => merged_category c (grafts_for unified c ns))
      (final_categories unified ns).

Definition fallback_warnings (unified : list string) (ns : list MindmapNode)
  : list Warning :=
  map (fun n => WUncategorized (title n)) (filter (orphan unified) ns).

End MindmapCombiner.

(** *** Sample data *)

(** A clean outline with two branches that share a tag. *)
Definition sample_outline : list RawNode :=
  [ mkRaw (Some "Frontend") (Some "Technological") []
      [ mkRaw (Some "State Management") None ["state"] [];
        mkRaw (Some "React") None ["ui"] [ mkRaw (Some "Hooks") None [] [] ] ];
    mkRaw (Some "Backend") (Some "Technological") []
      [ mkRaw (Some "Sessions") None ["State"] [] ] ].

Definition sample_sources : list SourceContent :=
  [ {| source_id := "notes/frontend.md"; source_tags := ["ui"; "state"];
       text_length := 120 |} ].

Definition leaf (i : nat) (t : string) : MindmapNode :=
  {| id := i; title := t; category := None; depth := 2; tags := [];
     sourceRefs := ["notes/a.md"]; children := []; secondaryParents := [] |}.

Definition category_tree (i : nat) (c : string) (kids : list MindmapNode)
  : MindmapNode :=
  {| id := i; title := c; category := Some c; depth := 1; tags := [];
     sourceRefs := ["notes/a.md"]; children := kids; secondaryParents := [] |}.

Definition tree_of (schema : option (list string)) (top : list MindmapNode)
  : Mindmap :=
  {| root := {| id := 0; title := ""; category := None; depth := 0;
                tags := []; sourceRefs := []; children := top;
                secondaryParents := [] |};
     categorySchema := schema;
     createdAt := "2025-01-01";
     sourceFiles := ["notes/a.md"] |}.

(** The two trees of the combine scenario. *)
Definition tree_a : Mindmap :=
  tree_of (Some ["Technological"; "Economic"])
          [category_tree 1 "Technological" [leaf 2 "AI Research"]].

Definition tree_b : Mindmap :=
  tree_of (Some ["Technological"; "Economic"])
          [category_tree 1 "Economic" [leaf 2 "Market Shift"]].

(** A tree with a depth-1 category that no schema lists. *)
Definition tree_legal : Mindmap :=
  tree_of (Some ["Technological"])
          [category_tree 1 "Legal" [leaf 2 "GDPR"]].

(** A built tree: its depth-1 nodes are concepts with a category. *)
Definition concept (i : nat) (t c : string) (kids : list MindmapNode)
  : MindmapNode :=
  {| id := i; title := t; category := Some c; depth := 1; tags := [];
     sourceRefs := ["notes/a.md"]; children := kids; secondaryParents := [] |}.

Definition tree_concepts : Mindmap :=
  tree_of (Some ["Technological"; "Economic"])
          [concept 1 "Frontend" "Technological" [leaf 2 "React"];
           concept 3 "Backend" "Technological" [leaf 4 "Sessions"]].

(** A tree that lost its schema. *)
Definition tree_without_schema : Mindmap :=
  tree_of None [category_tree 1 "Economic" [leaf 2 "Market Shift"]].

Definition never (A : Type) (_ _ : A) : bool := false.

End Core.




(** * Properties of the plugin entry point *)

Section PluginProperties.

Import Plugin.

Lemma set_add_In (s : list string) (x y : string) :
  In y (set_add s x) <-> In y s \/ y = x.
Proof.
  unfold set_add. destruct (in_dec string_dec x s) as [Hin | Hnin].
  - split; [auto | intros [H | ->]; assumption].
  - rewrite in_app_iff. simpl. intuition congruence.
Qed.

Lemma set_add_NoDup (s : list string) (x : string) :
  NoDup s -> NoDup (set_add s x).
Proof.
  intros Hs. unfold set_add. destruct (in_dec string_dec x s) as [Hin | Hnin].
  - assumption.
  - apply NoDup_app; [assumption | repeat constructor; simpl; tauto | ].
    intros a Ha [<- | []]. contradiction.
Qed.

Lemma fold_set_add_In (ts acc : list string) (y : string) :
  In y (fold_left set_add ts acc) <-> In y acc \/ In y ts.
Proof.
  revert acc. induction ts as [| t ts IH]; intros acc; simpl.
  - tauto.
  - rewrite IH, set_add_In. intuition congruence.
Qed.

Lemma fold_set_add_NoDup (ts acc : list string) :
  NoDup acc -> NoDup (fold_left set_add ts acc).
Proof.
  revert acc. induction ts as [| t ts IH]; intros acc Hacc; simpl.
  - assumption.
  - apply IH, set_add_NoDup, Hacc.
Qed.

Lemma collect_all_In (pc : list ProcessedContent) (acc : list string) (y : string) :
  In y (fold_left collect_tags pc acc) <->
  In y acc \/ exists c ts, In c pc /\ tags c = Some ts /\ In y ts.
Proof.
  revert acc. induction pc as [| c pc IH]; intros acc; simpl.
  - split; [auto | intros [H | (c & ts & [] & _)]; assumption].
  - rewrite IH. unfold collect_tags at 1. destruct (tags c) as [ts |] eqn:Hc.
    + rewrite fold_set_add_In. split.
      * intros [[H | H] | (c' & ts' & Hin & Ht & Hy)]; eauto 8.
      * intros [H | (c' & ts' & [<- | Hin] & Ht & Hy)]; eauto 8.
        rewrite Hc in Ht. injection Ht as <-. auto.
    + split.
      * intros [H | (c' & ts' & Hin & Ht & Hy)]; eauto 8.
      * intros [H | (c' & ts' & [<- | Hin] & Ht & Hy)]; eauto 8.
        congruence.
Qed.

Lemma collect_all_NoDup (pc : list ProcessedContent) (acc : list string) :
  NoDup acc -> NoDup (fold_left collect_tags pc acc).
Proof.
  revert acc. induction pc as [| c pc IH]; intros acc Hacc; simpl.
  - assumption.
  - apply IH. unfold collect_tags. destruct (tags c); [| assumption].
    apply fold_set_add_NoDup, Hacc.
Qed.

(** C8. The list returned by [extractAllTags] has no repeated entry, and a
    string is in it exactly when it is a tag of one of the processed
    contents; a content whose [tags] is absent contributes nothing. *)
Theorem extractAllTags_spec (pc : list ProcessedContent) :
  NoDup (extractAllTags pc) /\
  forall t : string,
    In t (extractAllTags pc) <->
    exists c ts, In c pc /\ tags c = Some ts /\ In t ts.
Proof.
  unfold extractAllTags. split.
  - apply collect_all_NoDup. constructor.
  - intros t. rewrite collect_all_In. simpl. tauto.
Qed.

Section Traces.

Context {RawOutline Structure SavedMindmap : Type}.
Variable env : Collaborators RawOutline Structure SavedMindmap.
Variable st : PluginSettings.

(** C9. With an empty [apiKey] the method shows the configuration notice
    and returns: that notice is the whole trace, so no content is
    aggregated, the model service is not called, no structure is built and
    no file is created. *)
Theorem generate_without_apiKey (selection : SourceSelection) :
  apiKey st = "" ->
  generateMindmapFromSelection env st selection =
  ([ENotice "Please configure your API key in settings first"], inr tt).
Proof.
  intros Hkey. unfold generateMindmapFromSelection. rewrite Hkey. reflexivity.
Qed.

(** C10. With fewer than two saved mindmaps the combiner modal is neither
    constructed nor opened: besides the console logging and the persistence
    query the only action is the notice. Conversely the modal is opened
    only when persistence returned at least two saved mindmaps. *)
Theorem openMindmapCombiner_guard :
  (forall saved,
      getAllMindmaps env = inr saved -> List.length saved < 2 ->
      openMindmapCombiner env =
      ([EConsoleLog "Opening mindmap combiner modal...";
        EGetAllMindmaps;
        EConsoleLog ("Found " ++ nat_to_string (List.length saved)
                     ++ " saved mindmaps");
        ENotice "You need at least 2 saved mindmaps to combine. Generate more mindmaps first!"],
       inr tt)) /\
  (In EModalOpen (trace (openMindmapCombiner env)) ->
   exists saved, getAllMindmaps env = inr saved /\ 2 <= List.length saved).
Proof.
  unfold openMindmapCombiner. split.
  - intros saved Hsaved Hlt. rewrite Hsaved.
    apply Nat.ltb_lt in Hlt. simpl. rewrite Hlt. reflexivity.
  - destruct (getAllMindmaps env) as [err | saved] eqn:Hsaved; simpl.
    + destruct (message err); simpl; intuition discriminate.
    + destruct (Nat.ltb_spec (List.length saved) 2) as [Hlt | Hge].
      * simpl. intuition discriminate.
      * intros _. exists saved. split; [reflexivity | exact Hge].
Qed.



(** Whatever the display collaborators do, [displayMindmap] performs only
    display/save actions and hands out only the structure it was given. *)
Lemma displayMindmap_trace (s : Structure) (sourceFiles : list string) :
  (exists k, stages (trace (displayMindmap env st s sourceFiles)) =
             repeat DisplaySave k) /\
  (forall e s', In e (trace (displayMindmap env st s sourceFiles)) ->
                shown e = Some s' -> s' = s).
Proof.
  unfold displayMindmap, createMindmapNote, openVisualMindmapView.
  destruct (outputFormat st), (convertToMarkdown env s) as [? | md];
    simpl; try destruct (vaultCreate env _ md);
    simpl; try destruct (autoSave st);
    simpl; try destruct (getLeaf env);
    simpl; try destruct (setViewState env s sourceFiles);
    simpl; try destruct (revealLeaf env); simpl;
    (split;
     [ match goal with
       | |- exists k, ?l = _ => exists (List.length l); reflexivity
       end
     | intros e s' Hin Hs;
       repeat (destruct Hin as [<- | Hin]; [simpl in Hs; congruence |]);
       destruct Hin ]).
Qed.

Lemma firstn_pipeline (k : nat) :
  firstn (3 + k) ([Aggregation; ModelCall; Building] ++ repeat DisplaySave k) =
  ([Aggregation; ModelCall; Building] ++ repeat DisplaySave k)%list.
Proof.
  apply firstn_all2. rewrite length_app, repeat_length. simpl. lia.
Qed.


End Traces.

End PluginProperties.

(** Witness for C9: the default settings have no API key. *)
Lemma generate_without_apiKey_witness :
  Plugin.generateMindmapFromSelection (Plugin.sample_env [])
    Plugin.DEFAULT_SETTINGS (Plugin.sample_selection ["notes/quantum.md"]) =
  ([Plugin.ENotice "Please configure your API key in settings first"], inr tt).
Proof.
  apply (generate_without_apiKey (Plugin.sample_env []) Plugin.DEFAULT_SETTINGS).
  reflexivity.
Defined.

(** Witness for C10: with one saved mindmap only the notice is shown; with
    two the modal opens, and the guard yields the two. *)
Lemma openMindmapCombiner_guard_witness :
  Plugin.openMindmapCombiner
    (Plugin.sample_env ["AI Mindmap - 2025-01-01T10-00-00"]) =
  ([Plugin.EConsoleLog "Opening mindmap combiner modal...";
    Plugin.EGetAllMindmaps;
    Plugin.EConsoleLog "Found 1 saved mindmaps";
    Plugin.ENotice "You need at least 2 saved mindmaps to combine. Generate more mindmaps first!"],
   inr tt) /\
  exists saved,
    Plugin.getAllMindmaps
      (Plugin.sample_env ["AI Mindmap - A"; "AI Mindmap - B"]) = inr saved /\
    2 <= List.length saved.
Proof.
  split.
  - apply (proj1 (openMindmapCombiner_guard
                    (Plugin.sample_env ["AI Mindmap - 2025-01-01T10-00-00"]))
             ["AI Mindmap - 2025-01-01T10-00-00"]).
    + reflexivity.
    + simpl. lia.
  - apply (proj2 (openMindmapCombiner_guard
                    (Plugin.sample_env ["AI Mindmap - A"; "AI Mindmap - B"]))).
    simpl. auto 10.
Defined.


(** * Order of the extracted tags *)

Section TagOrder.

Import Plugin Outcomes.

Lemma first_occurrences_ext (l seen seen' : list string) :
  (forall x, In x seen <-> In x seen') ->
  first_occurrences seen l = first_occurrences seen' l.
Proof.
  revert seen seen'. induction l as [| x l IH]; intros seen seen' Hsame; simpl.
  - reflexivity.
  - destruct (in_dec string_dec x seen) as [Hin | Hnin],
             (in_dec string_dec x seen') as [Hin' | Hnin'].
    + apply IH, Hsame.
    + destruct Hnin'. apply Hsame, Hin.
    + destruct Hnin. apply Hsame, Hin'.
    + f_equal. apply IH. intros y. simpl. rewrite Hsame. tauto.
Qed.

Lemma fold_set_add_first_occurrences (l acc : list string) :
  fold_left set_add l acc = (acc ++ first_occurrences acc l)%list.
Proof.
  revert acc. induction l as [| x l IH]; intros acc; simpl.
  - symmetry. apply app_nil_r.
  - rewrite IH. unfold set_add.
    destruct (in_dec string_dec x acc) as [Hin | Hnin]; [reflexivity |].
    rewrite <- app_assoc. simpl. do 2 f_equal.
    apply first_occurrences_ext. intros y. rewrite in_app_iff. simpl. tauto.
Qed.

Lemma collect_tags_fold (pc : list ProcessedContent) (acc : list string) :
  fold_left collect_tags pc acc = fold_left set_add (tags_in_order pc) acc.
Proof.
  revert acc. induction pc as [| c pc IH]; intros acc; simpl.
  - reflexivity.
  - rewrite fold_left_app, IH. unfold collect_tags.
    destruct (tags c); reflexivity.
Qed.

(** X17. [extractAllTags] returns the tags in the order in which they first
    occur when the processed contents are read in order: it is the list of
    all their tags with every repetition after the first removed. In
    particular the result for contents read one after the other starts
    with the result for the first ones. *)
Theorem extractAllTags_first_occurrence (pc : list ProcessedContent) :
  extractAllTags pc = first_occurrences [] (tags_in_order pc) /\
  forall more, exists rest,
    extractAllTags (pc ++ more) = (extractAllTags pc ++ rest)%list.
Proof.
  unfold extractAllTags. split.
  - rewrite collect_tags_fold, fold_set_add_first_occurrences. reflexivity.
  - intros more. rewrite fold_left_app.
    rewrite (collect_tags_fold more), fold_set_add_first_occurrences.
    eexists. reflexivity.
Qed.

End TagOrder.

(** * Outcomes of the plugin methods *)

Section OutcomeProperties.

Import Plugin Outcomes.

Context {RawOutline Structure SavedMindmap : Type}.
Variable env : Collaborators RawOutline Structure SavedMindmap.
Variable st : PluginSettings.

Local Abbreviation event := (Plugin.event RawOutline Structure).

(** The run of [createMindmapNote], by what its collaborators do. *)
Lemma createMindmapNote_runs (s : Structure) :
  let fileName :=
    "AI Mindmap - " ++ replace_colons (substring 0 19 (nowISO env)) ++ ".md" in
  createMindmapNote env st s =
  match convertToMarkdown env s with
  | inl e => ([EConvertToMarkdown s], inl e)
  | inr md =>
      match vaultCreate env fileName md with
      | inl e => ([EConvertToMarkdown s; EVaultCreate fileName md], inl e)
      | inr _ =>
          (EConvertToMarkdown s :: EVaultCreate fileName md ::
           (if autoSave st then [ENotice ("Mindmap saved as: " ++ fileName)]
            else []), inr tt)
      end
  end.
Proof.
  intros fileName. unfold createMindmapNote. fold fileName.
  destruct (convertToMarkdown env s) as [e | md]; [reflexivity |].
  cbn -[String.append]. destruct (vaultCreate env fileName md) as [e | []];
    [reflexivity |].
  destruct (autoSave st); reflexivity.
Qed.

(** The run of [openVisualMindmapView]. *)
Lemma openVisualMindmapView_runs (s : Structure) (sourceFiles : list string) :
  openVisualMindmapView env s sourceFiles =
  match getLeaf env with
  | inl e => ([EGetLeaf], inl e)
  | inr _ =>
      match setViewState env s sourceFiles with
      | inl e => ([EGetLeaf; ESetViewState s sourceFiles], inl e)
      | inr _ => ([EGetLeaf; ESetViewState s sourceFiles; ERevealLeaf],
                  revealLeaf env)
      end
  end.
Proof.
  unfold openVisualMindmapView.
  destruct (getLeaf env) as [e | []]; [reflexivity |].
  cbn. destruct (setViewState env s sourceFiles) as [e | []]; reflexivity.
Qed.

Lemma includes_char_app (c : ascii) (a b : string) :
  includes_char c (a ++ b) = includes_char c a || includes_char c b.
Proof.
  induction a as [| x a IH]; simpl; [reflexivity |].
  rewrite IH. apply orb_assoc.
Qed.

Lemma replace_colons_clean (s : string) :
  includes_char ":" (replace_colons s) = false.
Proof.
  induction s as [| c s IH]; simpl; [reflexivity |].
  rewrite IH, orb_false_r. destruct (Ascii.eqb_spec c ":") as [-> | Hc].
  - reflexivity.
  - apply Ascii.eqb_neq. exact Hc.
Qed.

Lemma replace_colons_length (s : string) :
  String.length (replace_colons s) = String.length s.
Proof. induction s as [| c s IH]; simpl; congruence. Qed.

Lemma substring_length_le (n m : nat) (s : string) :
  String.length (substring n m s) <= m.
Proof.
  revert n m. induction s as [| c s IH]; intros [| n] [| m]; simpl;
    try lia.
  - specialize (IH 0 m). lia.
  - apply IH.
  - apply IH.
Qed.

Lemma string_length_app (a b : string) :
  String.length (a ++ b) = String.length a + String.length b.
Proof. induction a as [| c a IH]; simpl; congruence. Qed.


Lemma substring_length_min (m : nat) (s : string) :
  String.length (substring 0 m s) = Nat.min m (String.length s).
Proof.
  revert m. induction s as [| c s IH]; intros [| m]; simpl; try reflexivity.
  rewrite IH. reflexivity.
Qed.

Lemma replace_colons_get (i : nat) (s : string) :
  String.get i (replace_colons s) =
  match String.get i s with
  | Some c => Some (if Ascii.eqb c ":" then "-"%char else c)
  | None => None
  end.
Proof.
  revert i. induction s as [| c s IH]; intros [| i]; simpl; try reflexivity.
  apply IH.
Qed.

(** X1. The note that [createMindmapNote] creates is named [AI Mindmap - ],
    then the first 19 characters of the clock's ISO time with every colon
    replaced by a dash, then [.md]: character by character the stamp is
    the clock's time, a dash standing for each colon. The name therefore
    contains no colon and has 16 characters more than the stamp. The
    content of the note is what [convertToMarkdown] returned. *)
Theorem createMindmapNote_fileName (s : Structure) (name md : string) :
  In (EVaultCreate name md) (trace (createMindmapNote env st s)) ->
  let stamp := replace_colons (substring 0 19 (nowISO env)) in
  name = "AI Mindmap - " ++ stamp ++ ".md" /\
  String.length stamp = Nat.min 19 (String.length (nowISO env)) /\
  (forall i, i < 19 ->
     String.get i stamp =
     match String.get i (nowISO env) with
     | Some c => Some (if Ascii.eqb c ":" then "-"%char else c)
     | None => None
     end) /\
  includes_char ":" name = false /\
  String.length name = 16 + Nat.min 19 (String.length (nowISO env)) /\
  convertToMarkdown env s = inr md.
Proof.
  intros Hin stamp.
  assert (Hlen : String.length stamp = Nat.min 19 (String.length (nowISO env))).
  { unfold stamp. rewrite replace_colons_length. apply substring_length_min. }
  assert (Hcreated : name = "AI Mindmap - " ++ stamp ++ ".md" /\
                     convertToMarkdown env s = inr md).
  { pose proof (createMindmapNote_runs s) as Hrun. cbv zeta in Hrun.
    rewrite Hrun in Hin. clear Hrun. fold stamp in Hin.
    assert (Hname :
      forall md', EVaultCreate (RawOutline := RawOutline) (Structure := Structure)
                    ("AI Mindmap - " ++ stamp ++ ".md") md' =
                  EVaultCreate name md ->
                  name = "AI Mindmap - " ++ stamp ++ ".md" /\ md' = md).
    { intros md' Heq.
      assert (Hn : "AI Mindmap - " ++ stamp ++ ".md" = name)
        by (injection Heq; intros _ H; exact H).
      assert (Hm : md' = md) by (injection Heq; intros H _; exact H).
      auto. }
    destruct (convertToMarkdown env s) as [e | md0]; simpl in Hin.
    { destruct Hin as [H | []]. discriminate. }
    destruct (vaultCreate env _ md0) as [e | []]; simpl in Hin.
    - destruct Hin as [H | [H | []]]; [discriminate |].
      destruct (Hname md0 H) as [H1 <-]. auto.
    - destruct Hin as [H | [H | H]]; [discriminate | |].
      + destruct (Hname md0 H) as [H1 <-]. auto.
      + destruct (autoSave st); simpl in H; [destruct H as [H | []] |];
          try discriminate. destruct H. }
  destruct Hcreated as [Hname Hmd].
  split; [exact Hname |]. split; [exact Hlen |]. split; [| split; [| split]].
  - intros i Hi. unfold stamp. rewrite replace_colons_get.
    rewrite (substring_correct1 (nowISO env) 0 19 i Hi), Nat.add_0_r.
    reflexivity.
  - rewrite Hname, !includes_char_app. unfold stamp.
    rewrite replace_colons_clean. reflexivity.
  - rewrite Hname, !string_length_app, Hlen. simpl. lia.
  - exact Hmd.
Qed.


(** X2. [autoSave] decides only whether the confirmation notice is shown:
    the conversion, the creation of the note and the result of
    [createMindmapNote] are the same under any two settings. The notice
    appears only with [autoSave] on and after [vault.create] returned, and
    it names the file that was created. *)
Theorem createMindmapNote_autoSave (s : Structure) :
  (forall st' : PluginSettings,
      filter (fun e => negb (is_notice e)) (trace (createMindmapNote env st s)) =
      filter (fun e => negb (is_notice e)) (trace (createMindmapNote env st' s)) /\
      snd (createMindmapNote env st s) = snd (createMindmapNote env st' s)) /\
  (forall msg : string,
      In (ENotice msg) (trace (createMindmapNote env st s)) ->
      autoSave st = true /\
      snd (createMindmapNote env st s) = inr tt /\
      exists name md,
        In (EVaultCreate name md) (trace (createMindmapNote env st s)) /\
        vaultCreate env name md = inr tt /\
        msg = "Mindmap saved as: " ++ name).
Proof.
  split.
  - intros st'.
    pose proof (createMindmapNote_runs s) as Hrun. cbv zeta in Hrun.
    rewrite Hrun. clear Hrun.
    unfold createMindmapNote at 1 2.
    destruct (convertToMarkdown env s) as [e | md]; [split; reflexivity |].
    cbn -[String.append].
    destruct (vaultCreate env _ md) as [e | []]; [split; reflexivity |].
    destruct (autoSave st), (autoSave st'); split; reflexivity.
  - intros msg.
    pose proof (createMindmapNote_runs s) as Hrun. cbv zeta in Hrun.
    rewrite Hrun. clear Hrun.
    destruct (convertToMarkdown env s) as [e | md]; simpl.
    { intros [H | []]. discriminate. }
    destruct (vaultCreate env _ md) as [e | []] eqn:Hcreate; simpl.
    { intros [H | [H | []]]; discriminate. }
    destruct (autoSave st); simpl.
    + intros [H | [H | [H | []]]]; try discriminate.
      split; [reflexivity |]. split; [reflexivity |].
      eexists _, md. split; [right; left; reflexivity |].
      split; [exact Hcreate |]. injection H as <-. reflexivity.
    + intros [H | [H | []]]; discriminate.
Qed.

(** X3. [displayMindmap] by output format: with [note] no workspace leaf is
    touched; with [view] nothing is converted, no note is created and no
    notice is shown; with [both] the note is created first, the view is
    opened after it, and when creating the note throws the view is not
    opened and the error is passed on. *)
Theorem displayMindmap_by_format (s : Structure) (sourceFiles : list string) :
  let tr := trace (displayMindmap env st s sourceFiles) in
  (outputFormat st = note ->
   forallb (fun e => negb (view_action e)) tr = true) /\
  (outputFormat st = view ->
   forallb (fun e => negb (note_action e) && negb (is_notice e)) tr = true) /\
  (outputFormat st = both ->
   exists tv,
     tr = (trace (createMindmapNote env st s) ++ tv)%list /\
     forallb view_action tv = true /\
     forall err, snd (createMindmapNote env st s) = inl err ->
                 tv = [] /\
                 snd (displayMindmap env st s sourceFiles) = inl err).
Proof.
  intros tr. subst tr. unfold displayMindmap.
  pose proof (createMindmapNote_runs s) as Hrun. cbv zeta in Hrun.
  rewrite Hrun. clear Hrun. rewrite openVisualMindmapView_runs.
  split; [| split]; intros ->.
  - destruct (convertToMarkdown env s) as [e | md]; [reflexivity |].
    destruct (vaultCreate env _ md) as [e | []]; [reflexivity |].
    destruct (autoSave st); reflexivity.
  - destruct (getLeaf env) as [e | []]; [reflexivity |].
    destruct (setViewState env s sourceFiles) as [e | []]; [reflexivity |].
    destruct (revealLeaf env) as [e | []]; reflexivity.
  - destruct (convertToMarkdown env s) as [e | md].
    { exists []. repeat split; try reflexivity.
      injection H as <-. reflexivity. }
    destruct (vaultCreate env _ md) as [e | []].
    { exists []. repeat split; try reflexivity.
      injection H as <-. reflexivity. }
    destruct (getLeaf env) as [e | []].
    { exists [EGetLeaf]. cbn -[String.append].
      destruct (autoSave st); repeat split; try reflexivity; discriminate. }
    destruct (setViewState env s sourceFiles) as [e | []].
    { exists [EGetLeaf; ESetViewState s sourceFiles]. cbn -[String.append].
      destruct (autoSave st); repeat split; try reflexivity; discriminate. }
    exists [EGetLeaf; ESetViewState s sourceFiles; ERevealLeaf].
    cbn -[String.append].
    destruct (autoSave st), (revealLeaf env) as [e | []];
      repeat split; try reflexivity; discriminate.
Qed.


(** The run of [generateMindmapFromSelection] once an API key is set, by
    what its collaborators do: the events in order, and how the method
    ends. *)
Lemma generate_runs (selection : SourceSelection) :
  apiKey st <> "" ->
  generateMindmapFromSelection env st selection =
  (ENotice "Analyzing content and generating mindmap..." ::
   EProcessSelection selection ::
   match processSelection env selection with
   | inl e => error_report e
   | inr [] => [ENotice "No content found in selection"]
   | inr pc =>
       EGenerateMindmapStructure pc (extractAllTags pc) ::
       match generateMindmapStructure env pc (extractAllTags pc) with
       | inl e => error_report e
       | inr resp =>
           if success resp then
             EBuildStructure (structure resp) pc st ::
             match buildStructure env (structure resp) pc st with
             | inl e => error_report e
             | inr s =>
                 match displayMindmap env st s (map filePath pc) with
                 | (td, inl e) => td ++ error_report e
                 | (td, inr _) => td ++ [ENotice (success_notice (List.length pc))]
                 end
             end
           else [ENotice ("Failed to generate mindmap: " ++ error resp)]
       end
   end,
   match processSelection env selection with
   | inl e => after_report e
   | inr [] => inr tt
   | inr pc =>
       match generateMindmapStructure env pc (extractAllTags pc) with
       | inl e => after_report e
       | inr resp =>
           if success resp then
             match buildStructure env (structure resp) pc st with
             | inl e => after_report e
             | inr s =>
                 match snd (displayMindmap env st s (map filePath pc)) with
                 | inl e => after_report e
                 | inr _ => inr tt
                 end
             end
           else inr tt
       end
   end).
Proof.
  intros Hkey. unfold generateMindmapFromSelection, error_report, after_report.
  destruct (String.eqb_spec (apiKey st) "") as [Heq | _]; [contradiction |].
  destruct (processSelection env selection) as [e | pc];
    [destruct e as [[e' | msg]]; reflexivity |].
  destruct pc as [| c pc0]; [reflexivity |].
  set (pc := c :: pc0).
  change (match pc with
          | [] => [ENotice "No content found in selection"]
          | _ :: _ => ?x
          end) with x.
  change (match pc with
          | [] => @inr JsError unit tt
          | _ :: _ => ?x
          end) with x.
  cbn -[extractAllTags nat_to_string String.append displayMindmap success_notice].
  destruct (generateMindmapStructure env pc (extractAllTags pc)) as [e | resp];
    [destruct e as [[e' | msg]]; reflexivity |].
  destruct (success resp); [| reflexivity].
  cbn -[extractAllTags nat_to_string String.append displayMindmap success_notice].
  destruct (buildStructure env (structure resp) pc st) as [e | s];
    [destruct e as [[e' | msg]]; reflexivity |].
  change (map filePath pc) with (map filePath (c :: pc0)).
  cbn -[extractAllTags nat_to_string String.append displayMindmap success_notice].
  destruct (displayMindmap _ _ _ _) as [td [e | []]];
    [destruct e as [[e' | msg]] |]; reflexivity.
Qed.

Lemma ends_with_notice_cons (x : event) (l : list event) :
  (exists t msg, l = t ++ [ENotice msg])%list ->
  (exists t msg, x :: l = t ++ [ENotice msg])%list.
Proof. intros (t & msg & ->). exists (x :: t), msg. reflexivity. Qed.

Lemma ends_with_notice_app (l1 l2 : list event) :
  (exists t msg, l2 = t ++ [ENotice msg])%list ->
  (exists t msg, l1 ++ l2 = t ++ [ENotice msg])%list.
Proof.
  intros (t & msg & ->). exists (l1 ++ t)%list, msg. apply app_assoc.
Qed.

(** How [generateMindmapFromSelection] ends when a step inside its [try]
    block threw [e]: as its [catch] block does. *)
Lemma generate_result_thrown (selection : SourceSelection) (e : JsError) :
  apiKey st <> "" -> thrown env st selection e ->
  snd (generateMindmapFromSelection env st selection) = after_report e.
Proof.
  intros Hkey Hthrown. rewrite generate_runs by assumption. unfold snd.
  destruct Hthrown as [-> | (pc & -> & Hne & Hthrown)]; [reflexivity |].
  destruct pc as [| c pc0]; [contradiction |].
  destruct Hthrown as [-> | (resp & -> & -> & Hthrown)]; [reflexivity |].
  destruct Hthrown as [-> | (s & -> & Hthrown)]; [reflexivity |].
  unfold snd in Hthrown. destruct (displayMindmap _ _ _ _) as [td r].
  rewrite Hthrown. reflexivity.
Qed.

(** [generateMindmapFromSelection] returns normally, unless a step inside
    its [try] block threw a value whose message cannot be read. *)
Lemma generate_result_cases (selection : SourceSelection) :
  snd (generateMindmapFromSelection env st selection) = inr tt \/
  (apiKey st <> "" /\
   exists e e', thrown env st selection e /\ message e = inl e' /\
                snd (generateMindmapFromSelection env st selection) = inl e').
Proof.
  destruct (string_dec (apiKey st) "") as [Hkey | Hkey].
  { left. unfold generateMindmapFromSelection. rewrite Hkey. reflexivity. }
  assert (Hcase : (forall e, ~ thrown env st selection e) \/
                  exists e, thrown env st selection e).
  { unfold thrown.
    destruct (processSelection env selection) as [e | pc] eqn:Hpc;
      [right; exists e; left; reflexivity |].
    destruct pc as [| c pc0].
    { left. intros e [H | (pc & Hpc' & Hne & _)]; congruence. }
    set (pc := c :: pc0) in *.
    assert (Hne : pc <> []) by discriminate.
    destruct (generateMindmapStructure env pc (extractAllTags pc))
      as [e | resp] eqn:Hresp.
    { right. exists e. right. exists pc. auto. }
    destruct (success resp) eqn:Hok.
    2:{ left. intros e [H | (pc' & Hpc' & _ & [H | (resp' & Hr' & Hok' & _)])];
          try congruence.
        all: assert (pc' = pc) by congruence; subst pc'; congruence. }
    destruct (buildStructure env (structure resp) pc st) as [e | s] eqn:Hbuild.
    { right. exists e. right. exists pc. split; [reflexivity |].
      split; [assumption |]. right. exists resp. auto. }
    destruct (snd (displayMindmap env st s (map filePath pc)))
      as [e | []] eqn:Hdisp.
    { right. exists e. right. exists pc. split; [reflexivity |].
      split; [assumption |]. right. exists resp.
      split; [assumption |]. split; [assumption |]. right. exists s. auto. }
    left.
    intros e [H | (pc' & Hpc' & _ & [H | (resp' & Hr' & Hok' &
                                           [H | (s' & Hs' & H)])])];
      try congruence.
    all: assert (pc' = pc) by congruence; subst pc'; try congruence.
    all: assert (resp' = resp) by congruence; subst resp'; congruence. }
  destruct Hcase as [Hnone | [e Hthrown]].
  - left. rewrite generate_runs by assumption. unfold snd.
    destruct (processSelection env selection) as [e | pc] eqn:Hpc.
    { destruct (Hnone e). left. exact Hpc. }
    destruct pc as [| c pc0]; [reflexivity |].
    set (pc := c :: pc0) in *.
    assert (Hne : pc <> []) by discriminate.
    destruct (generateMindmapStructure env pc (extractAllTags pc))
      as [e | resp] eqn:Hresp.
    { destruct (Hnone e). right. exists pc. auto. }
    destruct (success resp) eqn:Hok; [| reflexivity].
    destruct (buildStructure env (structure resp) pc st) as [e | s] eqn:Hbuild.
    { destruct (Hnone e). right. exists pc. split; [exact Hpc |].
      split; [assumption |]. right. exists resp. auto. }
    destruct (displayMindmap env st s (map filePath pc)) as [td [e | []]]
      eqn:Hdisp; [| reflexivity].
    destruct (Hnone e). right. exists pc. split; [exact Hpc |].
    split; [assumption |]. right. exists resp.
    split; [assumption |]. split; [assumption |]. right. exists s.
    split; [assumption |]. rewrite Hdisp. reflexivity.
  - pose proof (generate_result_thrown selection e Hkey Hthrown) as Hres.
    unfold after_report in Hres.
    destruct (message e) as [e' | msg] eqn:Hmsg.
    + right. split; [assumption |]. exists e, e'. auto.
    + left. exact Hres.
Qed.

Lemma string_app_inv_tail (a b s : string) : a ++ s = b ++ s -> a = b.
Proof.
  revert b. induction a as [| x a IH]; intros [| y b] H; simpl in H.
  - reflexivity.
  - apply (f_equal String.length) in H. simpl in H.
    rewrite string_length_app in H. lia.
  - apply (f_equal String.length) in H. simpl in H.
    rewrite string_length_app in H. lia.
  - injection H as -> H. f_equal. apply IH, H.
Qed.

Lemma nat_to_string_inj (n m : nat) : nat_to_string n = nat_to_string m -> n = m.
Proof.
  unfold nat_to_string. intros H. apply DecimalNat.Unsigned.to_uint_inj.
  apply (f_equal NilEmpty.uint_of_string) in H.
  rewrite !NilEmpty.usu in H. congruence.
Qed.

Lemma success_notice_inj (n m : nat) : success_notice n = success_notice m -> n = m.
Proof.
  unfold success_notice. intros H. cbn [String.append] in H.
  repeat (injection H as H). apply nat_to_string_inj.
  apply (string_app_inv_tail _ _ _ H).
Qed.

Lemma success_notice_fresh (n : nat) :
  success_notice n <> "Please configure your API key in settings first" /\
  success_notice n <> "Analyzing content and generating mindmap..." /\
  success_notice n <> "No content found in selection" /\
  (forall m, success_notice n <> "Failed to generate mindmap: " ++ m) /\
  (forall m, success_notice n <> "Error: " ++ m) /\
  (forall m, success_notice n <> "Mindmap saved as: " ++ m).
Proof.
  unfold success_notice. cbn [String.append].
  repeat split; intros; discriminate.
Qed.


Lemma displayMindmap_events (s : Structure) (sourceFiles : list string) :
  Forall body_event (trace (displayMindmap env st s sourceFiles)).
Proof.
  unfold displayMindmap.
  pose proof (createMindmapNote_runs s) as Hrun. cbv zeta in Hrun.
  rewrite Hrun. clear Hrun. rewrite openVisualMindmapView_runs.
  assert (Hcall : forall e : event, is_call e = true -> body_event e)
    by (intros e H; left; exact H).
  assert (Hsaved : forall name,
             body_event (ENotice ("Mindmap saved as: " ++ name) : event))
    by (intros name; right; right; exists name; reflexivity).
  destruct (outputFormat st);
    destruct (convertToMarkdown env s) as [? | md];
    try destruct (vaultCreate env _ md) as [? | []];
    try destruct (autoSave st);
    try destruct (getLeaf env) as [? | []];
    try destruct (setViewState env s sourceFiles) as [? | []];
    try destruct (revealLeaf env) as [? | []];
    cbn -[String.append];
    repeat (constructor; [first [apply Hsaved | apply Hcall; reflexivity] |]);
    constructor.
Qed.

(** The shape of a run of [generateMindmapFromSelection] with an API key:
    a body, then an error report, one of the two refusals, or the success
    notice. *)
Ltac given :=
  solve [ reflexivity | assumption
        | match goal with
          | H : _ = (_, _) |- _ => rewrite H; reflexivity
          end ].

Ltac body_events :=
  repeat (apply Forall_cons;
          [first [assumption | match goal with
                               | H : forall e, _ = true -> _ |- _ =>
                                   apply H; reflexivity
                               end] |]);
  assumption.

Lemma generate_shape (selection : SourceSelection) :
  apiKey st <> "" ->
  exists body ending,
    trace (generateMindmapFromSelection env st selection) = (body ++ ending)%list /\
    Forall body_event body /\
    ((exists e, ending = error_report e /\ thrown env st selection e) \/
     (ending = [ENotice "No content found in selection"] /\
      processSelection env selection = inr []) \/
     (exists pc resp,
         ending = [ENotice ("Failed to generate mindmap: " ++ error resp)] /\
         processSelection env selection = inr pc /\
         generateMindmapStructure env pc (extractAllTags pc) = inr resp /\
         success resp = false) \/
     (exists n, ending = [ENotice (success_notice n)] /\
                completed env st selection n)).
Proof.
  intros Hkey. rewrite generate_runs by assumption.
  unfold trace, fst, thrown, completed.
  assert (Hcall : forall e : event, is_call e = true -> body_event e)
    by (intros e H; left; exact H).
  assert (Hfirst : body_event
            (ENotice "Analyzing content and generating mindmap..." : event))
    by (right; left; reflexivity).
  pose (Hd := Forall_nil (body_event (RawOutline := RawOutline)
                            (Structure := Structure))).
  destruct (processSelection env selection) as [e | [| c pc0]] eqn:Hpc.
  { eexists [_; _], _. split; [given |]. split; [body_events |]. left. eauto. }
  { eexists [_; _], _. split; [given |]. split; [body_events |]. right. left.
    split; reflexivity. }
  set (pc := c :: pc0) in *.
  assert (Hne : pc <> []) by discriminate.
  destruct (generateMindmapStructure env pc (extractAllTags pc))
    as [e | resp] eqn:Hresp.
  { eexists [_; _; _], _. split; [given |]. split; [body_events |].
    left. exists e. split; [given |]. right. exists pc. auto. }
  destruct (success resp) eqn:Hok.
  2:{ eexists [_; _; _], _. split; [given |]. split; [body_events |].
      right. right. left. exists pc, resp. repeat split; given. }
  destruct (buildStructure env (structure resp) pc st) as [e | s] eqn:Hbuild.
  { eexists [_; _; _; _], _. split; [given |]. split; [body_events |].
    left. exists e. split; [given |]. right. exists pc.
    split; [given |]. split; [given |]. right. exists resp.
    split; [given |]. split; [given |]. left. given. }
  clear Hd. pose proof (displayMindmap_events s (map filePath pc)) as Hd.
  destruct (displayMindmap env st s (map filePath pc)) as [td [e | []]] eqn:Hdisp;
    unfold trace, fst in Hd.
  - eexists (_ :: _ :: _ :: _ :: td), (error_report e).
    split; [given |]. split; [body_events |].
    left. exists e. split; [given |]. right. exists pc.
    split; [given |]. split; [given |]. right. exists resp.
    split; [given |]. split; [given |]. right. exists s.
    split; given.
  - eexists (_ :: _ :: _ :: _ :: td), [ENotice (success_notice (List.length pc))].
    split; [given |]. split; [body_events |].
    right. right. right. exists (List.length pc). split; [given |].
    exists pc, resp, s. repeat split; given.
Qed.


Lemma thrown_functional (selection : SourceSelection) (e e' : JsError) :
  thrown env st selection e -> thrown env st selection e' -> e = e'.
Proof.
  unfold thrown.
  intros [H | (pc & Hpc & _ & [H | (resp & Hr & Hok & [H | (s & Hs & H)])])]
         [H' | (pc' & Hpc' & _ &
                [H' | (resp' & Hr' & Hok' & [H' | (s' & Hs' & H')])])];
    try congruence.
  all: assert (pc' = pc) by congruence; subst pc'; try congruence.
  all: assert (resp' = resp) by congruence; subst resp'; try congruence.
Qed.

Lemma thrown_not_completed (selection : SourceSelection) (e : JsError) (n : nat) :
  thrown env st selection e -> completed env st selection n -> False.
Proof.
  unfold thrown, completed.
  intros [H | (pc & Hpc & _ & [H | (resp & Hr & Hok & [H | (s & Hs & H)])])]
         (pc' & resp' & s' & Hpc' & _ & _ & Hr' & _ & Hs' & H');
    try congruence.
  all: assert (pc' = pc) by congruence; subst pc'; try congruence.
  all: assert (resp' = resp) by congruence; subst resp'; try congruence.
Qed.

Lemma body_event_console (m : string) (e : JsError) :
  body_event (EConsoleError m e : event) -> False.
Proof. intros [H | [H | (name & H)]]; discriminate. Qed.

Lemma body_event_notice (m : string) :
  body_event (ENotice m : event) ->
  m = "Analyzing content and generating mindmap..." \/
  exists name, m = "Mindmap saved as: " ++ name.
Proof.
  intros [H | [H | (name & H)]].
  - discriminate.
  - left. congruence.
  - right. exists name. congruence.
Qed.

Lemma app_inj_tail2 {A} (l1 l2 : list A) (a b c d : A) :
  (l1 ++ [a; b] = l2 ++ [c; d])%list -> l1 = l2 /\ a = c /\ b = d.
Proof.
  intros H.
  change (l1 ++ [a; b])%list with (l1 ++ [a] ++ [b])%list in H.
  change (l2 ++ [c; d])%list with (l2 ++ [c] ++ [d])%list in H.
  rewrite !app_assoc in H.
  apply app_inj_tail in H. destruct H as [H ->].
  apply app_inj_tail in H. destruct H as [-> ->]. auto.
Qed.

(** [generateMindmapFromSelection] throws [e'] exactly when a step inside
    its [try] block threw a value for which reading the message throws
    [e']. *)
Lemma generate_throws_iff (selection : SourceSelection) (e' : JsError) :
  snd (generateMindmapFromSelection env st selection) = inl e' <->
  apiKey st <> "" /\
  exists e, thrown env st selection e /\ message e = inl e'.
Proof.
  split.
  - intros Hres.
    destruct (generate_result_cases selection)
      as [H | (Hkey & e & e0 & Hthrown & Hmsg & H)]; [congruence |].
    split; [assumption |]. exists e. split; [assumption |]. congruence.
  - intros (Hkey & e & Hthrown & Hmsg).
    rewrite (generate_result_thrown selection e Hkey Hthrown).
    unfold after_report. rewrite Hmsg. reflexivity.
Qed.

Lemma error_report_read (e : JsError) (msg : string) :
  message e = inr msg ->
  error_report e =
  [EConsoleError "Error generating mindmap:" e; ENotice ("Error: " ++ msg) : event].
Proof. intros H. unfold error_report. rewrite H. reflexivity. Qed.

Lemma error_report_unread (e e' : JsError) :
  message e = inl e' ->
  error_report e = [EConsoleError "Error generating mindmap:" e : event].
Proof. intros H. unfold error_report. rewrite H. reflexivity. Qed.

(** A run in which a step inside the [try] block threw [e] ends with the
    report of [e]. *)
Lemma generate_trace_thrown (selection : SourceSelection) (e : JsError) :
  apiKey st <> "" -> thrown env st selection e ->
  exists body,
    trace (generateMindmapFromSelection env st selection) =
    (body ++ error_report e)%list /\
    Forall body_event body.
Proof.
  intros Hkey Hthrown.
  destruct (generate_shape selection Hkey)
    as (body & ending & Htr & Hbody & Hend).
  rewrite Htr.
  destruct Hend as [(e0 & -> & Hthrown0) | [[-> Hnone]
                    | [(pc & resp & -> & Hpc & Hresp & Hok)
                    | (n & -> & Hdone)]]].
  - rewrite (thrown_functional _ _ _ Hthrown Hthrown0). exists body. auto.
  - exfalso. unfold thrown in Hthrown.
    destruct Hthrown as [H | (pc & Hpc & Hne & _)]; congruence.
  - exfalso. unfold thrown in Hthrown.
    destruct Hthrown as [H | (pc' & Hpc' & _ & [H | (resp' & Hr' & Hok' & _)])];
      try congruence.
    all: assert (pc' = pc) by congruence; subst pc'; congruence.
  - destruct (thrown_not_completed _ _ _ Hthrown Hdone).
Qed.

(** A console error in a run of [generateMindmapFromSelection] is the one
    of its [catch] block. *)
Lemma generate_console_error (selection : SourceSelection)
    (m : string) (e : JsError) :
  In (EConsoleError m e)
     (trace (generateMindmapFromSelection env st selection)) ->
  m = "Error generating mindmap:" /\ apiKey st <> "" /\
  thrown env st selection e.
Proof.
  intros Hin.
  destruct (string_dec (apiKey st) "") as [Hkey | Hkey].
  { unfold generateMindmapFromSelection in Hin. rewrite Hkey in Hin.
    destruct Hin as [H | []]. discriminate. }
  destruct (generate_shape selection Hkey)
    as (body & ending & Htr & Hbody & Hend).
  rewrite Htr in *. apply in_app_or in Hin. destruct Hin as [Hin | Hin].
  { rewrite Forall_forall in Hbody.
    destruct (body_event_console _ _ (Hbody _ Hin)). }
  destruct Hend as [(e0 & -> & Hthrown) | [[-> _] | [(pc & resp & -> & _)
                    | (n & -> & _)]]].
  - unfold error_report in Hin. destruct Hin as [H | Hin].
    + injection H as <- <-. auto.
    + destruct (message e0); simpl in Hin; [destruct Hin |].
      destruct Hin as [H | []]. discriminate.
  - destruct Hin as [H | []]. discriminate.
  - destruct Hin as [H | []]. discriminate.
  - destruct Hin as [H | []]. discriminate.
Qed.

Lemma error_notice_inj (a b : string) :
  (ENotice ("Error: " ++ a) : event) = ENotice ("Error: " ++ b) -> a = b.
Proof. cbn [String.append]. intros H. injection H as H. exact H. Qed.

Lemma app_two_last {A} (t : list A) (a b : A) :
  (t ++ [a; b] = (t ++ [a]) ++ [b])%list.
Proof. rewrite <- app_assoc. reflexivity. Qed.

(** X4. [generateMindmapFromSelection] returns normally unless a step
    inside its [try] block threw a value whose message cannot be read (as
    for [null] or [undefined]): the [catch] block then throws what reading
    the message threw, after logging the console error and without showing
    a notice. A run that returns normally ends by showing a notice. *)
Theorem generate_returns_or_rethrows (selection : SourceSelection) :
  let run := generateMindmapFromSelection env st selection in
  (forall e' : JsError,
      snd run = inl e' <->
      apiKey st <> "" /\
      exists e, thrown env st selection e /\ message e = inl e') /\
  (snd run = inr tt <->
   (apiKey st <> "" ->
    forall e, thrown env st selection e -> exists msg, message e = inr msg)) /\
  (snd run = inr tt -> exists t msg, trace run = (t ++ [ENotice msg])%list) /\
  (forall e' : JsError,
      snd run = inl e' ->
      exists t e,
        trace run = (t ++ [EConsoleError "Error generating mindmap:" e])%list /\
        thrown env st selection e /\ message e = inl e').
Proof.
  intros run. subst run.
  assert (Hthrows : forall e' : JsError,
             snd (generateMindmapFromSelection env st selection) = inl e' ->
             apiKey st <> "" /\
             exists e, thrown env st selection e /\ message e = inl e').
  { intros e' Hres.
    destruct (generate_result_cases selection)
      as [H | (Hkey & e & e0 & Hthrown & Hmsg & H)]; [congruence |].
    split; [assumption |]. exists e. split; [assumption |]. congruence. }
  assert (Hback : forall e e' : JsError,
             apiKey st <> "" -> thrown env st selection e ->
             message e = inl e' ->
             snd (generateMindmapFromSelection env st selection) = inl e').
  { intros e e' Hkey Hthrown Hmsg.
    rewrite (generate_result_thrown selection e Hkey Hthrown).
    unfold after_report. rewrite Hmsg. reflexivity. }
  split; [| split; [| split]].
  - intros e'. split; [apply Hthrows |].
    intros (Hkey & e & Hthrown & Hmsg). exact (Hback e e' Hkey Hthrown Hmsg).
  - split.
    + intros Hres Hkey e Hthrown.
      destruct (message e) as [e' | msg] eqn:Hmsg; [| exists msg; reflexivity].
      rewrite (Hback e e' Hkey Hthrown Hmsg) in Hres. discriminate.
    + intros Hread.
      destruct (generate_result_cases selection)
        as [H | (Hkey & e & e0 & Hthrown & Hmsg & _)]; [exact H |].
      destruct (Hread Hkey e Hthrown) as [msg Hmsg']. congruence.
  - intros Hres.
    destruct (string_dec (apiKey st) "") as [Hkey | Hkey].
    { unfold generateMindmapFromSelection. rewrite Hkey. simpl.
      eexists []; eexists; reflexivity. }
    destruct (generate_shape selection Hkey)
      as (body & ending & Htr & Hbody & Hend).
    rewrite Htr.
    destruct Hend as [(e & -> & Hthrown) | [[-> _] | [(pc & resp & -> & _)
                      | (n & -> & _)]]].
    + destruct (message e) as [e' | msg] eqn:Hmsg.
      * rewrite (Hback e e' Hkey Hthrown Hmsg) in Hres. discriminate.
      * rewrite (error_report_read e msg Hmsg), app_two_last.
        eexists _, _. reflexivity.
    + eexists _, _. reflexivity.
    + eexists _, _. reflexivity.
    + eexists _, _. reflexivity.
  - intros e' Hres. destruct (Hthrows e' Hres) as (Hkey & e & Hthrown & Hmsg).
    destruct (generate_trace_thrown selection e Hkey Hthrown) as (body & Htr & _).
    rewrite (error_report_unread e e' Hmsg) in Htr.
    exists body, e. auto.
Qed.

(** X5. Error handling of [generateMindmapFromSelection]. The run ends with
    the console error for [e] and the notice [Error: <message>] exactly when
    an API key is set, a step inside the [try] block threw [e] and the
    message of [e] can be read. It ends with the console error for [e]
    alone, and throws, exactly when such a step threw [e] and reading its
    message throws. A console error is logged for nothing but the value a
    step threw, and only as the start of that report. *)
Theorem generate_error_report (selection : SourceSelection) (e : JsError) :
  let run := generateMindmapFromSelection env st selection in
  let logged : event := EConsoleError "Error generating mindmap:" e in
  (forall msg : string,
      (exists t, trace run = (t ++ [logged; ENotice ("Error: " ++ msg)])%list) <->
      apiKey st <> "" /\ thrown env st selection e /\ message e = inr msg) /\
  (forall e' : JsError,
      (exists t, trace run = (t ++ [logged])%list) /\ snd run = inl e' <->
      apiKey st <> "" /\ thrown env st selection e /\ message e = inl e') /\
  (forall m e0,
      In (EConsoleError m e0) (trace run) ->
      m = "Error generating mindmap:" /\ apiKey st <> "" /\
      thrown env st selection e0 /\
      exists t, trace run = (t ++ error_report e0)%list /\
                forall m' e1, ~ In (EConsoleError m' e1) t).
Proof.
  intros run logged. subst run logged.
  assert (Hlast : forall t,
             trace (generateMindmapFromSelection env st selection) =
             (t ++ [EConsoleError "Error generating mindmap:" e])%list \/
             (exists msg,
                 trace (generateMindmapFromSelection env st selection) =
                 (t ++ [EConsoleError "Error generating mindmap:" e;
                        ENotice msg])%list) ->
             apiKey st <> "" /\ thrown env st selection e).
  { intros t Ht. apply (generate_console_error selection "Error generating mindmap:").
    destruct Ht as [-> | [msg ->]]; apply in_or_app; right; left; reflexivity. }
  split; [| split].
  - intros msg. split.
    + intros [t Ht].
      destruct (Hlast t (or_intror (ex_intro _ _ Ht))) as [Hkey Hthrown].
      split; [assumption |]. split; [assumption |].
      destruct (generate_trace_thrown selection e Hkey Hthrown)
        as (body & Htr & _).
      rewrite Htr in Ht.
      destruct (message e) as [e' | msg'] eqn:Hmsg.
      * rewrite (error_report_unread e e' Hmsg), app_two_last in Ht.
        apply app_inj_tail in Ht. destruct Ht as [_ Ht]. discriminate.
      * rewrite (error_report_read e msg' Hmsg) in Ht.
        apply app_inj_tail2 in Ht. destruct Ht as (_ & _ & Ht).
        apply error_notice_inj in Ht. congruence.
    + intros (Hkey & Hthrown & Hmsg).
      destruct (generate_trace_thrown selection e Hkey Hthrown)
        as (body & Htr & _).
      rewrite (error_report_read e msg Hmsg) in Htr. exists body. exact Htr.
  - intros e'. split.
    + intros [[t Ht] Hres].
      destruct (Hlast t (or_introl Ht)) as [Hkey Hthrown].
      split; [assumption |]. split; [assumption |].
      rewrite (generate_result_thrown selection e Hkey Hthrown) in Hres.
      unfold after_report in Hres.
      destruct (message e); [congruence | discriminate].
    + intros (Hkey & Hthrown & Hmsg).
      destruct (generate_trace_thrown selection e Hkey Hthrown)
        as (body & Htr & _).
      rewrite (error_report_unread e e' Hmsg) in Htr.
      split; [exists body; exact Htr |].
      rewrite (generate_result_thrown selection e Hkey Hthrown).
      unfold after_report. rewrite Hmsg. reflexivity.
  - intros m e0 Hin.
    destruct (generate_console_error selection m e0 Hin) as (Hm & Hkey & Hthrown).
    split; [assumption |]. split; [assumption |]. split; [assumption |].
    destruct (generate_trace_thrown selection e0 Hkey Hthrown)
      as (body & Htr & Hbody).
    exists body. split; [exact Htr |].
    intros m' e1 Hc. rewrite Forall_forall in Hbody.
    destruct (body_event_console _ _ (Hbody _ Hc)).
Qed.


Lemma ENotice_inj (a b : string) : (ENotice a : event) = ENotice b -> a = b.
Proof. intros H. injection H as H. exact H. Qed.

(** A run that shows the success notice for [n] has an API key, ends with
    that notice, and completed every step. *)
Lemma success_notice_shape (selection : SourceSelection) (n : nat) :
  In (ENotice (success_notice n))
     (trace (generateMindmapFromSelection env st selection)) ->
  apiKey st <> "" /\
  exists body,
    trace (generateMindmapFromSelection env st selection) =
    (body ++ [ENotice (success_notice n)])%list /\
    Forall body_event body /\ completed env st selection n.
Proof.
  destruct (success_notice_fresh n) as (F1 & F2 & F3 & F4 & F5 & F6).
  intros Hin.
  destruct (string_dec (apiKey st) "") as [Hkey | Hkey].
  { unfold generateMindmapFromSelection in Hin. rewrite Hkey in Hin.
    destruct Hin as [H | []]. congruence. }
  split; [assumption |].
  destruct (generate_shape selection Hkey)
    as (body & ending & Htr & Hbody & Hend).
  rewrite Htr in *. apply in_app_or in Hin. destruct Hin as [Hin | Hin].
  { rewrite Forall_forall in Hbody.
    destruct (body_event_notice _ (Hbody _ Hin)) as [H | (name & H)];
      [destruct (F2 H) | destruct (F6 _ H)]. }
  destruct Hend as [(e0 & -> & _) | [[-> _] | [(pc & resp & -> & _)
                    | (n' & -> & Hdone)]]].
  - unfold error_report in Hin. destruct Hin as [H | Hin]; [discriminate |].
    destruct (message e0); simpl in Hin; [destruct Hin |].
    destruct Hin as [H | []].
    apply ENotice_inj in H. symmetry in H. destruct (F5 _ H).
  - destruct Hin as [H | []]. apply ENotice_inj in H. symmetry in H.
    destruct (F3 H).
  - destruct Hin as [H | []]. apply ENotice_inj in H. symmetry in H.
    destruct (F4 _ H).
  - destruct Hin as [H | []]. apply ENotice_inj in H.
    apply success_notice_inj in H. subst n'.
    exists body. auto.
Qed.

(** X6. The closing notice [Mindmap generated successfully! (n sources
    processed)] is shown exactly when an API key is set and every step
    returned: a non-empty aggregation of [n] contents, a successful model
    response, a built structure and its display. It is then the last event
    of the run, and no console error was logged. *)
Theorem generate_success_notice (selection : SourceSelection) (n : nat) :
  let tr := trace (generateMindmapFromSelection env st selection) in
  (In (ENotice (success_notice n)) tr <->
   apiKey st <> "" /\ completed env st selection n) /\
  (In (ENotice (success_notice n)) tr ->
   (exists t, tr = (t ++ [ENotice (success_notice n)])%list) /\
   forall m e, ~ In (EConsoleError m e) tr).
Proof.
  intros tr. subst tr.
  pose proof (success_notice_shape selection n) as Hshape.
  split; [split |].
  - intros Hin. destruct (Hshape Hin) as (Hkey & body & _ & _ & Hdone). auto.
  - intros [Hkey Hdone].
    destruct (generate_shape selection Hkey)
      as (body & ending & Htr & Hbody & Hend).
    rewrite Htr. apply in_or_app. right.
    destruct Hend as [(e0 & -> & Hthrown) | [[-> Hnone]
                      | [(pc & resp & -> & Hpc & Hresp & Hok)
                      | (n' & -> & Hdone')]]].
    + destruct (thrown_not_completed _ _ _ Hthrown Hdone).
    + exfalso. destruct Hdone as (pc & resp & s & Hpc & Hne & _). congruence.
    + exfalso.
      destruct Hdone as (pc' & resp' & s & Hpc' & _ & _ & Hresp' & Hok' & _).
      assert (pc' = pc) by congruence. subst pc'. congruence.
    + destruct Hdone as (pc & resp & s & Hpc & _ & -> & _).
      destruct Hdone' as (pc' & resp' & s' & Hpc' & _ & -> & _).
      assert (pc' = pc) by congruence. subst pc'. left. reflexivity.
  - intros Hin. destruct (Hshape Hin) as (Hkey & body & Htr & Hbody & Hdone).
    split; [exists body; exact Htr |].
    intros m e Hc. rewrite Htr in Hc. apply in_app_or in Hc.
    destruct Hc as [Hc | [Hc | []]]; [| discriminate].
    rewrite Forall_forall in Hbody.
    destruct (body_event_console _ _ (Hbody _ Hc)).
Qed.


Lemma displayMindmap_actions (s : Structure) (sourceFiles : list string) :
  Forall (fun e : event =>
            match e with
            | EConvertToMarkdown s' => s' = s
            | ESetViewState s' files => s' = s /\ files = sourceFiles
            | EVaultCreate _ _ | ENotice _ | EGetLeaf | ERevealLeaf => True
            | _ => False
            end)
         (trace (displayMindmap env st s sourceFiles)).
Proof.
  unfold displayMindmap.
  pose proof (createMindmapNote_runs s) as Hrun. cbv zeta in Hrun.
  rewrite Hrun. clear Hrun. rewrite openVisualMindmapView_runs.
  destruct (outputFormat st);
    destruct (convertToMarkdown env s) as [? | md];
    try destruct (vaultCreate env _ md) as [? | []];
    try destruct (autoSave st);
    try destruct (getLeaf env) as [? | []];
    try destruct (setViewState env s sourceFiles) as [? | []];
    try destruct (revealLeaf env) as [? | []];
    cbn -[String.append];
    repeat (apply Forall_cons; [solve [auto] |]); apply Forall_nil.
Qed.

Lemma filter_none {A} (P : A -> Prop) (p : A -> bool) (l : list A) :
  Forall P l -> (forall x, P x -> p x = false) -> filter p l = [].
Proof.
  intros Hl Hp. induction Hl as [| x l Hx _ IH]; simpl; [reflexivity |].
  rewrite (Hp x Hx). exact IH.
Qed.

Lemma displayMindmap_no_stage_call (s : Structure) (sourceFiles : list string) :
  let td := trace (displayMindmap env st s sourceFiles) in
  filter is_aggregator_call td = [] /\
  filter is_model_call td = [] /\
  filter is_builder_call td = [].
Proof.
  intros td. subst td.
  pose proof (displayMindmap_actions s sourceFiles) as Hd.
  repeat split; apply (filter_none _ _ _ Hd); intros [] H;
    solve [reflexivity | destruct H].
Qed.

Ltac in_cases :=
  repeat match goal with
         | H : In _ (_ ++ _) |- _ => apply in_app_or in H
         | H : In _ (_ :: _) |- _ => destruct H as [H | H]
         | H : In _ [] |- _ => destruct H
         | H : _ \/ _ |- _ => destruct H as [H | H]
         | H : False |- _ => destruct H
         end.

(** X7. What [generateMindmapFromSelection] passes along: the aggregator is
    asked for the given selection; the model service receives the
    aggregated contents and the tags extracted from them; the builder
    receives the structure of the successful response, the same contents
    and the plugin settings; the view receives the paths of the contents in
    aggregation order. Each of the three services is called at most
    once. *)
Theorem generate_data_flow (selection : SourceSelection) :
  let tr := trace (generateMindmapFromSelection env st selection) in
  (forall sel, In (EProcessSelection sel) tr -> sel = selection) /\
  (forall pc allTags,
      In (EGenerateMindmapStructure pc allTags) tr ->
      processSelection env selection = inr pc /\ allTags = extractAllTags pc) /\
  (forall raw pc st',
      In (EBuildStructure raw pc st') tr ->
      st' = st /\ processSelection env selection = inr pc /\
      exists resp,
        generateMindmapStructure env pc (extractAllTags pc) = inr resp /\
        success resp = true /\ raw = structure resp) /\
  (forall s sourceFiles,
      In (ESetViewState s sourceFiles) tr ->
      exists pc, processSelection env selection = inr pc /\
                 sourceFiles = map filePath pc) /\
  List.length (filter is_aggregator_call tr) <= 1 /\
  List.length (filter is_model_call tr) <= 1 /\
  List.length (filter is_builder_call tr) <= 1.
Proof.
  intros tr. subst tr.
  destruct (string_dec (apiKey st) "") as [Hkey | Hkey].
  { unfold generateMindmapFromSelection. rewrite Hkey. simpl.
    repeat split; try lia; intros; in_cases; discriminate. }
  rewrite generate_runs by assumption. unfold trace, fst, error_report.
  destruct (processSelection env selection) as [e | [| c pc0]] eqn:Hpc.
  { destruct (message e); simpl.
    all: repeat split; try lia; intros; in_cases; congruence. }
  { simpl. repeat split; try lia; intros; in_cases; congruence. }
  set (pc := c :: pc0) in *.
  destruct (generateMindmapStructure env pc (extractAllTags pc))
    as [e | resp] eqn:Hresp.
  { destruct (message e); cbn -[extractAllTags String.append].
    all: repeat split; try lia; intros; in_cases; congruence. }
  destruct (success resp) eqn:Hok.
  2:{ cbn -[extractAllTags String.append].
      repeat split; try lia; intros; in_cases; congruence. }
  destruct (buildStructure env (structure resp) pc st) as [e | s] eqn:Hbuild.
  { destruct (message e); cbn -[extractAllTags String.append].
    all: repeat split; try lia; intros; in_cases; try congruence.
    all: exists resp; repeat split; congruence. }
  pose proof (displayMindmap_actions s (map filePath pc)) as Hd.
  destruct (displayMindmap_no_stage_call s (map filePath pc)) as (N1 & N2 & N3).
  destruct (displayMindmap env st s (map filePath pc)) as [td r].
  unfold trace, fst in Hd, N1, N2, N3. rewrite Forall_forall in Hd.
  assert (Hlen : forall p : event -> bool,
             filter p td = [] ->
             (forall m, p (ENotice m) = false) ->
             (forall m e, p (EConsoleError m e) = false) ->
             filter p (match r with
                       | inl e => td ++ error_report e
                       | inr _ => td ++ [ENotice (success_notice (List.length pc))]
                       end) = []).
  { intros p Hp H1 H2. unfold error_report.
    destruct r as [e | u]; rewrite filter_app, Hp;
      [destruct (message e) |]; simpl; rewrite ?H1, ?H2; reflexivity. }
  cbn -[extractAllTags String.append success_notice filter].
  repeat split; intros.
  all: try (cbn [filter is_aggregator_call is_model_call is_builder_call];
            rewrite Hlen; solve [auto]).
  all: try (exists pc; split; [reflexivity |]).
  all: destruct r as [e | u]; [destruct (message e) |]; in_cases;
    try match goal with
        | H : In _ _ |- _ => specialize (Hd _ H); cbn in Hd
        end;
    solve [ congruence | tauto | destruct Hd; congruence
          | exists resp; repeat split; congruence ].
Qed.


Lemma ends_with2 {A} (l t : list A) (x y : A) :
  (l = t ++ [x; y])%list -> exists r, rev l = y :: x :: r.
Proof. intros ->. rewrite rev_app_distr. simpl. eauto. Qed.

Lemma ends_with1 {A} (l t : list A) (x : A) :
  (l = t ++ [x])%list -> exists r, rev l = x :: r.
Proof. intros ->. rewrite rev_app_distr. simpl. eauto. Qed.

(** The run of [openMindmapCombiner], by what its collaborators do. *)
Lemma openMindmapCombiner_runs :
  openMindmapCombiner env =
  let opening : list event :=
    [EConsoleLog "Opening mindmap combiner modal..."; EGetAllMindmaps] in
  match getAllMindmaps env with
  | inl e => ((opening ++ combiner_error_report e)%list, after_report e)
  | inr saved =>
      let found : list event :=
        (opening ++
         [EConsoleLog ("Found " ++ nat_to_string (List.length saved)
                       ++ " saved mindmaps")])%list in
      if Nat.ltb (List.length saved) 2 then
        ((found ++
          [ENotice "You need at least 2 saved mindmaps to combine. Generate more mindmaps first!"])%list,
         inr tt)
      else
        match newCombinerModal env with
        | inl e =>
            ((found ++ ENewCombinerModal :: combiner_error_report e)%list,
             after_report e)
        | inr _ =>
            match modalOpen env with
            | inl e =>
                ((found ++ ENewCombinerModal :: EModalOpen ::
                  combiner_error_report e)%list, after_report e)
            | inr _ =>
                ((found ++
                  [ENewCombinerModal; EModalOpen;
                   EConsoleLog "Mindmap combiner modal opened successfully"])%list,
                 inr tt)
            end
        end
  end.
Proof.
  unfold openMindmapCombiner, combiner_error_report, after_report.
  destruct (getAllMindmaps env) as [e | saved];
    [destruct e as [[e' | msg]]; reflexivity |].
  cbn -[String.append nat_to_string Nat.ltb].
  destruct (Nat.ltb (List.length saved) 2); [reflexivity |].
  destruct (newCombinerModal env) as [e | []];
    [destruct e as [[e' | msg]]; reflexivity |].
  destruct (modalOpen env) as [e | []];
    [destruct e as [[e' | msg]]; reflexivity | reflexivity].
Qed.

Lemma combiner_failed_functional (e e' : JsError) :
  combiner_failed env e -> combiner_failed env e' -> e = e'.
Proof.
  unfold combiner_failed.
  intros [H | (saved & Hs & _ & [H | [Hn H]])]
         [H' | (saved' & Hs' & _ & [H' | [Hn' H']])]; congruence.
Qed.

(** The run of [openMindmapCombiner] is some quiet events followed by the
    report of the failure, or it has no failure, logs no console error and
    returns. *)
Lemma combiner_shape :
  (exists e pre,
      combiner_failed env e /\
      trace (openMindmapCombiner env) = (pre ++ combiner_error_report e)%list /\
      snd (openMindmapCombiner env) = after_report e /\
      Forall combiner_step pre) \/
  ((forall e, ~ combiner_failed env e) /\
   snd (openMindmapCombiner env) = inr tt /\
   exists pre last,
     trace (openMindmapCombiner env) = (pre ++ [last])%list /\
     Forall combiner_step pre /\
     (combiner_opened env /\ last = EConsoleLog "Mindmap combiner modal opened successfully" \/
      ~ combiner_opened env /\
      last = ENotice "You need at least 2 saved mindmaps to combine. Generate more mindmaps first!")).
Proof.
  rewrite openMindmapCombiner_runs. cbv zeta. unfold combiner_failed, combiner_opened.
  assert (Hopening : forall x : event,
             x = EConsoleLog "Opening mindmap combiner modal..." ->
             combiner_step x).
  { intros x ->. right. eexists. split; [reflexivity | discriminate]. }
  assert (Hfound : forall (n : nat) (x : event),
             x = EConsoleLog ("Found " ++ nat_to_string n ++ " saved mindmaps") ->
             combiner_step x).
  { intros n x ->. right. eexists. split; [reflexivity |].
    cbn [String.append]. discriminate. }
  destruct (getAllMindmaps env) as [e | saved] eqn:Hsaved.
  { left. exists e. eexists [_; _]. split; [left; reflexivity |].
    split; [reflexivity |]. split; [reflexivity |].
    cbn -[String.append nat_to_string];
      repeat (apply Forall_cons;
              [first [apply Hopening; reflexivity | eapply Hfound; reflexivity
                     | left; reflexivity] |]);
      apply Forall_nil. }
  destruct (Nat.ltb_spec (List.length saved) 2) as [Hlt | Hge].
  { right. split; [| split; [reflexivity |]].
    - intros e [H | (saved' & H & Hlen & _)]; [discriminate |].
      injection H as <-. lia.
    - eexists [_; _; _], _. split; [reflexivity |]. split.
      + cbn -[String.append nat_to_string];
      repeat (apply Forall_cons;
              [first [apply Hopening; reflexivity | eapply Hfound; reflexivity
                     | left; reflexivity] |]);
      apply Forall_nil.
      + right. split; [| reflexivity].
        intros (saved' & H & Hlen & _). injection H as <-. lia. }
  destruct (newCombinerModal env) as [e | []] eqn:Hnew.
  { left. exists e. eexists [_; _; _; _].
    split; [right; exists saved; auto |].
    split; [reflexivity |]. split; [reflexivity |].
    cbn -[String.append nat_to_string];
      repeat (apply Forall_cons;
              [first [apply Hopening; reflexivity | eapply Hfound; reflexivity
                     | left; reflexivity] |]);
      apply Forall_nil. }
  destruct (modalOpen env) as [e | []] eqn:Hopen.
  { left. exists e. eexists [_; _; _; _; _].
    split; [right; exists saved; auto |].
    split; [reflexivity |]. split; [reflexivity |].
    cbn -[String.append nat_to_string];
      repeat (apply Forall_cons;
              [first [apply Hopening; reflexivity | eapply Hfound; reflexivity
                     | left; reflexivity] |]);
      apply Forall_nil. }
  right. split; [| split; [reflexivity |]].
  - intros e [H | (saved' & _ & _ & [H | [_ H]])]; discriminate.
  - eexists [_; _; _; _; _], _.
    split; [reflexivity |]. split.
    + cbn -[String.append nat_to_string];
      repeat (apply Forall_cons;
              [first [apply Hopening; reflexivity | eapply Hfound; reflexivity
                     | left; reflexivity] |]);
      apply Forall_nil.
    + left. split; [exists saved; auto | reflexivity].
Qed.

(** X8. [openMindmapCombiner]: opening fails with [e] when the persistence
    query threw [e], or at least two mindmaps were found and constructing
    or opening the modal threw [e]. The run ends with the console error
    and the notice [Failed to open mindmap combiner: <message>] for [e]
    exactly when opening failed with [e] and the message of [e] can be
    read. It ends with the console error alone, and the method throws what
    reading the message threw, exactly when opening failed with a value
    whose message cannot be read; in no other case does the method throw.
    The closing log line is written exactly when at least two mindmaps
    were found and the modal was constructed and opened, and the method
    then returns normally. *)
Theorem openMindmapCombiner_outcomes :
  let run := openMindmapCombiner env in
  (forall e' : JsError,
      snd run = inl e' <->
      exists e, combiner_failed env e /\ message e = inl e') /\
  (forall (e : JsError) (msg : string),
      (exists t,
          trace run =
          (t ++ [EConsoleError "Failed to open mindmap combiner:" e;
                 ENotice ("Failed to open mindmap combiner: " ++ msg)])%list) <->
      combiner_failed env e /\ message e = inr msg) /\
  (forall e : JsError,
      (exists t,
          trace run =
          (t ++ [EConsoleError "Failed to open mindmap combiner:" e])%list) <->
      combiner_failed env e /\ exists e', message e = inl e') /\
  (In (EConsoleLog "Mindmap combiner modal opened successfully") (trace run) <->
   combiner_opened env) /\
  (In (EConsoleLog "Mindmap combiner modal opened successfully") (trace run) ->
   snd run = inr tt).
Proof.
  intros run. subst run.
  assert (Hquiet : forall (pre : list event) (x : event),
             Forall combiner_step pre ->
             In x pre ->
             x <> EConsoleLog "Mindmap combiner modal opened successfully" /\
             forall m e, x <> EConsoleError m e).
  { intros pre x Hpre Hin. rewrite Forall_forall in Hpre.
    destruct (Hpre x Hin) as [H | (m & -> & Hm)].
    - split; [intros -> | intros m e ->]; discriminate.
    - split; [congruence | discriminate]. }
  destruct combiner_shape
    as [(e0 & pre & Hfail & Htr & Hres & Hpre)
       | (Hnone & Hres & pre & last & Htr & Hpre & Hlast)];
    rewrite Htr, Hres; clear Htr Hres; unfold combiner_error_report, after_report.
  - (* opening failed with e0 *)
    assert (Hlog : ~ In (EConsoleLog "Mindmap combiner modal opened successfully"
                           : event) pre).
    { intros Hin. destruct (Hquiet pre _ Hpre Hin) as [H _]. congruence. }
    assert (Hnot : ~ combiner_opened env).
    { intros (saved & Hs & _ & Hn & Ho).
      destruct Hfail as [H | (saved' & Hs' & _ & [H | [_ H]])]; congruence. }
    destruct (message e0) as [e0' | msg0] eqn:Hmsg.
    + split; [| split; [| split; [| split]]].
      * intros e'. split.
        -- intros H. exists e0. split; [assumption | congruence].
        -- intros (e & He & Hm).
           rewrite (combiner_failed_functional _ _ He Hfail) in Hm. congruence.
      * intros e msg. split.
        -- intros [t Ht]. rewrite app_two_last in Ht.
           apply app_inj_tail in Ht. destruct Ht as [_ Ht]. discriminate.
        -- intros [He Hm].
           rewrite (combiner_failed_functional _ _ He Hfail) in Hm. congruence.
      * intros e. split.
        -- intros [t Ht]. apply app_inj_tail in Ht. destruct Ht as [_ Ht].
           injection Ht as <-. split; [assumption | eauto].
        -- intros [He _].
           rewrite (combiner_failed_functional _ _ He Hfail). exists pre.
           reflexivity.
      * split; [| intros H; destruct (Hnot H)].
        intros Hin. apply in_app_or in Hin.
        destruct Hin as [Hin | [Hin | []]]; [destruct (Hlog Hin) | discriminate].
      * intros Hin. apply in_app_or in Hin.
        destruct Hin as [Hin | [Hin | []]]; [destruct (Hlog Hin) | discriminate].
    + split; [| split; [| split; [| split]]].
      * intros e'. split; [discriminate |].
        intros (e & He & Hm).
        rewrite (combiner_failed_functional _ _ He Hfail) in Hm. congruence.
      * intros e msg. split.
        -- intros [t Ht]. apply app_inj_tail2 in Ht.
           destruct Ht as (_ & Hc & Hn). injection Hc as <-.
           split; [assumption |].
           cbn [String.append] in Hn. injection Hn as <-. assumption.
        -- intros [He Hm].
           rewrite (combiner_failed_functional _ _ He Hfail) in *.
           assert (msg = msg0) by congruence. subst msg. exists pre.
           reflexivity.
      * intros e. split.
        -- intros [t Ht].
           change (pre ++ [EConsoleError "Failed to open mindmap combiner:" e0;
                           ENotice ("Failed to open mindmap combiner: " ++ msg0)])%list
             with (pre ++ [EConsoleError "Failed to open mindmap combiner:" e0;
                           ENotice ("Failed to open mindmap combiner: " ++ msg0)
                           : event])%list in Ht.
           rewrite app_two_last in Ht. apply app_inj_tail in Ht.
           destruct Ht as [_ Ht]. discriminate.
        -- intros [He [e' Hm]].
           rewrite (combiner_failed_functional _ _ He Hfail) in Hm. congruence.
      * split; [| intros H; destruct (Hnot H)].
        intros Hin. apply in_app_or in Hin.
        destruct Hin as [Hin | [Hin | [Hin | []]]];
          [destruct (Hlog Hin) | discriminate | discriminate].
      * reflexivity.
  - (* no failure *)
    split; [| split; [| split; [| split]]].
    + intros e'. split; [discriminate |].
      intros (e & He & _). destruct (Hnone e He).
    + intros e msg. split; [| intros [He _]; destruct (Hnone e He)].
      intros [t Ht]. rewrite app_two_last in Ht. apply app_inj_tail in Ht.
      destruct Ht as [Ht _]. exfalso.
      assert (Hin : In (EConsoleError "Failed to open mindmap combiner:" e) pre)
        by (rewrite Ht; apply in_or_app; right; left; reflexivity).
      destruct (Hquiet pre _ Hpre Hin) as [_ H]. exact (H _ _ eq_refl).
    + intros e. split; [| intros [He _]; destruct (Hnone e He)].
      intros [t Ht]. apply app_inj_tail in Ht. destruct Ht as [_ Ht].
      destruct Hlast as [[_ ->] | [_ ->]]; discriminate.
    + destruct Hlast as [[Hopened ->] | [Hnot ->]].
      * split; [intros _; exact Hopened |].
        intros _. apply in_or_app. right. left. reflexivity.
      * split; [| intros H; destruct (Hnot H)].
        intros Hin. apply in_app_or in Hin.
        destruct Hin as [Hin | [Hin | []]]; [| discriminate].
        destruct (Hquiet pre _ Hpre Hin) as [H _]. congruence.
    + reflexivity.
Qed.


Lemma generate_asks_selection (selection sel : SourceSelection) :
  In (EProcessSelection sel)
     (trace (generateMindmapFromSelection env st selection)) ->
  sel = selection.
Proof.
  destruct (string_dec (apiKey st) "") as [Hkey | Hkey].
  { unfold generateMindmapFromSelection. rewrite Hkey. simpl.
    intros Hin. in_cases. discriminate. }
  intros Hin. rewrite generate_runs in Hin by assumption.
  unfold trace, fst, error_report in Hin.
  destruct Hin as [Hin | [Hin | Hin]]; [discriminate | congruence |].
  exfalso.
  destruct (processSelection env selection) as [e | [| c pc0]];
    [destruct (message e); in_cases; discriminate | in_cases; discriminate |].
  destruct Hin as [Hin | Hin]; [discriminate |].
  destruct (generateMindmapStructure env _ _) as [e | resp];
    [destruct (message e); in_cases; discriminate |].
  destruct (success resp); [| in_cases; discriminate].
  destruct Hin as [Hin | Hin]; [discriminate |].
  destruct (buildStructure env _ _ _) as [e | s];
    [destruct (message e); in_cases; discriminate |].
  pose proof (displayMindmap_actions s (map filePath (c :: pc0))) as Hd.
  destruct (displayMindmap _ _ _ _) as [td r].
  unfold trace, fst in Hd. rewrite Forall_forall in Hd.
  destruct r as [e | u]; [destruct (message e) |]; in_cases;
    try discriminate; exact (Hd _ Hin).
Qed.

(** What a run of [displayMindmap] leaves out and what a normal return
    produced, by output format. *)
Lemma displayMindmap_outputs (s : Structure) (sourceFiles : list string) :
  let run := displayMindmap env st s sourceFiles in
  (outputFormat st = view ->
   forallb (fun e => negb (note_action e)) (trace run) = true) /\
  (outputFormat st = note ->
   forallb (fun e => negb (view_action e)) (trace run) = true) /\
  (snd run = inr tt ->
   (outputFormat st <> view ->
    exists name md,
      In (EVaultCreate name md) (trace run) /\
      vaultCreate env name md = inr tt) /\
   (outputFormat st <> note ->
    In ERevealLeaf (trace run) /\ revealLeaf env = inr tt)).
Proof.
  intros run. subst run. unfold displayMindmap.
  pose proof (createMindmapNote_runs s) as Hrun. cbv zeta in Hrun.
  rewrite Hrun. clear Hrun. rewrite openVisualMindmapView_runs.
  destruct (outputFormat st).
  - (* note *)
    split; [discriminate |]. split.
    + intros _.
      destruct (convertToMarkdown env s) as [? | md]; [reflexivity |].
      destruct (vaultCreate env _ md) as [? | []]; [reflexivity |].
      destruct (autoSave st); reflexivity.
    + destruct (convertToMarkdown env s) as [? | md]; [discriminate |].
      destruct (vaultCreate env _ md) as [? | []] eqn:Hcreate; [discriminate |].
      intros _. split; [| intros Hf; destruct Hf; reflexivity].
      intros _. eexists _, md. split; [right; left; reflexivity | exact Hcreate].
  - (* view *)
    split; [| split; [discriminate |]].
    + intros _.
      destruct (getLeaf env) as [? | []]; [reflexivity |].
      destruct (setViewState env s sourceFiles) as [? | []]; reflexivity.
    + destruct (getLeaf env) as [? | []]; [discriminate |].
      destruct (setViewState env s sourceFiles) as [? | []]; [discriminate |].
      cbn. intros Hok. split; [intros Hf; destruct Hf; reflexivity |].
      intros _. split; [simpl; tauto | exact Hok].
  - (* both *)
    split; [discriminate |]. split; [discriminate |].
    destruct (convertToMarkdown env s) as [? | md]; [discriminate |].
    destruct (vaultCreate env _ md) as [? | []] eqn:Hcreate; [discriminate |].
    destruct (getLeaf env) as [? | []]; [discriminate |].
    destruct (setViewState env s sourceFiles) as [? | []]; [discriminate |].
    cbn -[String.append]. intros Hok. split; intros _.
    + eexists _, md. split; [right; left; reflexivity | exact Hcreate].
    + split; [| exact Hok]. right. right. apply in_or_app. right.
      simpl. tauto.
Qed.

Lemma forallb_cons_false {A} (p : A -> bool) (x : A) (l : list A) :
  p x = true -> forallb p l = true -> forallb p (x :: l) = true.
Proof. intros Hx Hl. simpl. rewrite Hx. exact Hl. Qed.

(** X18. A run of [generateMindmapFromSelection] respects the output
    format: with [view] nothing is converted to Markdown and no note is
    created, with [note] no workspace leaf is touched. And the success
    notice is truthful: when it is shown, a note was created by
    [vault.create] unless the format is [view], and a leaf was revealed
    unless the format is [note]. *)
Theorem generate_respects_output_format (selection : SourceSelection) :
  let tr := trace (generateMindmapFromSelection env st selection) in
  (outputFormat st = view ->
   forallb (fun e => negb (note_action e)) tr = true) /\
  (outputFormat st = note ->
   forallb (fun e => negb (view_action e)) tr = true) /\
  (forall n,
      In (ENotice (success_notice n)) tr ->
      (outputFormat st <> view ->
       exists name md,
         In (EVaultCreate name md) tr /\ vaultCreate env name md = inr tt) /\
      (outputFormat st <> note ->
       In ERevealLeaf tr /\ revealLeaf env = inr tt)).
Proof.
  intros tr. subst tr.
  assert (Hformat :
    forall p : event -> bool,
      (forall m, p (ENotice m) = true) ->
      (forall m e, p (EConsoleError m e) = true) ->
      (forall sel, p (EProcessSelection sel) = true) ->
      (forall pc tags, p (EGenerateMindmapStructure pc tags) = true) ->
      (forall raw pc st', p (EBuildStructure raw pc st') = true) ->
      (forall s files,
          forallb p (trace (displayMindmap env st s files)) = true) ->
      forallb p (trace (generateMindmapFromSelection env st selection)) = true).
  { intros p Hn Hc Hp Hg Hb Hd.
    destruct (string_dec (apiKey st) "") as [Hkey | Hkey].
    { unfold generateMindmapFromSelection. rewrite Hkey. simpl.
      rewrite Hn. reflexivity. }
    rewrite generate_runs by assumption. unfold trace, fst, error_report.
    apply forallb_cons_false; [apply Hn |].
    apply forallb_cons_false; [apply Hp |].
    destruct (processSelection env selection) as [e | [| c pc0]].
    - destruct (message e); simpl; rewrite ?Hn, Hc; reflexivity.
    - simpl. rewrite Hn. reflexivity.
    - apply forallb_cons_false; [apply Hg |].
      destruct (generateMindmapStructure env _ _) as [e | resp].
      { destruct (message e); simpl; rewrite ?Hn, Hc; reflexivity. }
      destruct (success resp); [| simpl; rewrite Hn; reflexivity].
      apply forallb_cons_false; [apply Hb |].
      destruct (buildStructure env _ _ _) as [e | s].
      { destruct (message e); simpl; rewrite ?Hn, Hc; reflexivity. }
      specialize (Hd s (map filePath (c :: pc0))).
      destruct (displayMindmap _ _ _ _) as [td [e | u]];
        unfold trace, fst in Hd; rewrite forallb_app, Hd;
        [destruct (message e) |]; simpl; rewrite ?Hn, ?Hc; reflexivity. }
  split; [| split].
  - intros Hview. apply Hformat; try reflexivity.
    intros s files. apply (displayMindmap_outputs s files), Hview.
  - intros Hnote. apply Hformat; try reflexivity.
    intros s files. apply (displayMindmap_outputs s files), Hnote.
  - intros n Hin.
    destruct (success_notice_shape selection n Hin)
      as (Hkey & _ & _ & _ & pc & resp & s & Hpc & Hne & _ & Hresp & Hok
          & Hbuild & Hdisp).
    destruct (displayMindmap_outputs s (map filePath pc)) as (_ & _ & Hout).
    specialize (Hout Hdisp).
    assert (Hsub : forall e : event,
               In e (trace (displayMindmap env st s (map filePath pc))) ->
               In e (trace (generateMindmapFromSelection env st selection))).
    { intros e He. rewrite generate_runs by assumption.
      unfold trace, fst. rewrite Hpc.
      destruct pc as [| c pc0]; [congruence |].
      rewrite Hresp, Hok, Hbuild.
      destruct (displayMindmap env st s (map filePath (c :: pc0))) as [td r].
      unfold trace, fst in He.
      do 4 right. destruct r; apply in_or_app; left; exact He. }
    destruct Hout as [Hfile Hleaf]. split.
    + intros Hf. destruct (Hfile Hf) as (name & md & Hcreated & Hreturned).
      exists name, md. auto.
    + intros Hf. destruct (Hleaf Hf) as [Hrevealed Hreturned]. auto.
Qed.

Lemma stages_cons (x : event) (l : list event) :
  stages (x :: l) =
  (match stage_of x with Some s => [s] | None => [] end ++ stages l)%list.
Proof. reflexivity. Qed.

Lemma stages_app (l1 l2 : list event) :
  stages (l1 ++ l2) = (stages l1 ++ stages l2)%list.
Proof. unfold stages. apply flat_map_app. Qed.

Lemma error_report_stages (e : JsError) :
  stages (error_report e : list event) = [].
Proof. unfold error_report. destruct (message e); reflexivity. Qed.

Lemma error_report_shows_nothing (e : JsError) :
  shows_nothing (error_report e : list event).
Proof.
  unfold shows_nothing, error_report. intros x s Hin Hs.
  destruct Hin as [<- | Hin]; [discriminate |].
  destruct (message e); simpl in Hin; [destruct Hin |].
  destruct Hin as [<- | []]. discriminate.
Qed.

(** [displayMindmap] always acts on a display/save collaborator: it starts
    by converting the structure unless the format is [view], and by
    asking for a workspace leaf when the format is [view]; with [both] the
    leaf is asked for once the note was created. The leaf that was
    obtained is given the structure and the source files. *)
Lemma displayMindmap_acts (s : Structure) (sourceFiles : list string) :
  let td := trace (displayMindmap env st s sourceFiles) in
  (exists k, stages td = repeat DisplaySave (S k)) /\
  (outputFormat st <> view ->
   exists rest, td = EConvertToMarkdown s :: rest) /\
  (outputFormat st = view \/
   outputFormat st = both /\ snd (createMindmapNote env st s) = inr tt ->
   In EGetLeaf td /\
   (getLeaf env = inr tt -> In (ESetViewState s sourceFiles) td)).
Proof.
  intros td. subst td. unfold displayMindmap.
  pose proof (createMindmapNote_runs s) as Hrun. cbv zeta in Hrun.
  rewrite Hrun. clear Hrun. rewrite openVisualMindmapView_runs.
  destruct (outputFormat st);
    destruct (convertToMarkdown env s) as [? | md];
    try destruct (vaultCreate env _ md) as [? | []];
    try destruct (autoSave st);
    try destruct (getLeaf env) as [? | []];
    try destruct (setViewState env s sourceFiles) as [? | []];
    try destruct (revealLeaf env) as [? | []];
    cbn -[String.append];
    (split; [match goal with
             | |- exists k, ?l = _ => exists (Nat.pred (List.length l)); reflexivity
             end |]);
    (split; [intros Hf; try (destruct Hf; reflexivity); eexists; reflexivity |]);
    intros [Hf | [Hf Hres]]; try discriminate;
    (split; [simpl; tauto | intros Hleaf; try discriminate; simpl; tauto]).
Qed.

(** How far a run of [generateMindmapFromSelection] with an API key gets,
    by what each step returned. *)
Lemma generate_cases (selection : SourceSelection) :
  apiKey st <> "" ->
  let tr := trace (generateMindmapFromSelection env st selection) in
  In (EProcessSelection selection) tr /\
  (((processSelection env selection = inr [] \/
     exists e, processSelection env selection = inl e) /\
    stages tr = [Aggregation] /\ shows_nothing tr) \/
   exists pc,
     processSelection env selection = inr pc /\ pc <> [] /\
     In (EGenerateMindmapStructure pc (extractAllTags pc)) tr /\
     ((((exists e, generateMindmapStructure env pc (extractAllTags pc) = inl e) \/
        exists resp,
          generateMindmapStructure env pc (extractAllTags pc) = inr resp /\
          success resp = false) /\
       stages tr = [Aggregation; ModelCall] /\ shows_nothing tr) \/
      exists resp,
        generateMindmapStructure env pc (extractAllTags pc) = inr resp /\
        success resp = true /\
        In (EBuildStructure (structure resp) pc st) tr /\
        (((exists e, buildStructure env (structure resp) pc st = inl e) /\
          stages tr = [Aggregation; ModelCall; Building] /\
          shows_nothing tr) \/
         exists s before after,
           buildStructure env (structure resp) pc st = inr s /\
           tr = (before ++ trace (displayMindmap env st s (map filePath pc))
                 ++ after)%list /\
           stages before = [Aggregation; ModelCall; Building] /\
           shows_nothing before /\
           stages after = [] /\ shows_nothing after))).
Proof.
  intros Hkey tr. subst tr. rewrite generate_runs by assumption.
  unfold trace at 1 2 3 4 5 6 7 8. unfold fst.
  split; [right; left; reflexivity |].
  assert (Hquiet : forall (pre : list event) (e : JsError),
             shows_nothing pre -> shows_nothing (pre ++ error_report e)).
  { intros pre e Hpre x s Hin Hs. apply in_app_or in Hin.
    destruct Hin as [Hin | Hin];
      [exact (Hpre x s Hin Hs) | exact (error_report_shows_nothing e x s Hin Hs)]. }
  assert (Hcalls : forall pre : list event,
             Forall (fun x => shown x = None) pre -> shows_nothing pre).
  { intros pre Hpre x s Hin Hs. rewrite Forall_forall in Hpre.
    rewrite (Hpre x Hin) in Hs. discriminate. }
  destruct (processSelection env selection) as [e | [| c pc0]] eqn:Hpc.
  { left. split; [right; exists e; reflexivity |]. split.
    - rewrite !stages_cons, error_report_stages. reflexivity.
    - apply (Hquiet [_; _]), Hcalls. repeat constructor. }
  { left. split; [left; reflexivity |]. split; [reflexivity |].
    apply Hcalls. repeat constructor. }
  right. set (pc := c :: pc0) in *. exists pc.
  assert (Hne : pc <> []) by discriminate.
  split; [reflexivity |]. split; [assumption |].
  split; [right; right; left; reflexivity |].
  destruct (generateMindmapStructure env pc (extractAllTags pc))
    as [e | resp] eqn:Hresp.
  { left. split; [left; exists e; reflexivity |]. split.
    - rewrite !stages_cons, error_report_stages. reflexivity.
    - apply (Hquiet [_; _; _]), Hcalls. repeat constructor. }
  destruct (success resp) eqn:Hok.
  2:{ left. split; [right; exists resp; auto |]. split; [reflexivity |].
      apply Hcalls. repeat constructor. }
  right. exists resp. split; [reflexivity |]. split; [assumption |].
  split; [right; right; right; left; reflexivity |].
  destruct (buildStructure env (structure resp) pc st) as [e | s] eqn:Hbuild.
  { left. split; [exists e; reflexivity |]. split.
    - rewrite !stages_cons, error_report_stages. reflexivity.
    - apply (Hquiet [_; _; _; _]), Hcalls. repeat constructor. }
  right. exists s.
  exists [ENotice "Analyzing content and generating mindmap...";
          EProcessSelection selection;
          EGenerateMindmapStructure pc (extractAllTags pc);
          EBuildStructure (structure resp) pc st].
  destruct (displayMindmap env st s (map filePath pc)) as [td [e | u]].
  - exists (error_report e). split; [reflexivity |]. split; [reflexivity |].
    split; [reflexivity |]. split; [apply Hcalls; repeat constructor |].
    split; [apply error_report_stages | apply error_report_shows_nothing].
  - exists [ENotice (success_notice (List.length pc))].
    split; [reflexivity |]. split; [reflexivity |].
    split; [reflexivity |]. split; [apply Hcalls; repeat constructor |].
    split; [reflexivity |]. apply Hcalls. repeat constructor.
Qed.

(** C5. The stages of one invocation run in the fixed order aggregation,
    model call, structure building, display/save, and each one runs as
    soon as the one before it returned what the next one needs: with an
    API key the aggregator is asked for the selection; a non-empty
    aggregation is handed to the model service with the tags extracted
    from it; the structure of a successful response is handed to the
    builder; and the structure the builder returned is displayed, the
    display/save actions being those of [displayMindmap], which converts
    the structure unless the format is [view], and asks for a workspace
    leaf and gives it the structure when the format is [view] or when it
    is [both] and the note was created. A stage that threw, an empty
    aggregation or an unsuccessful response ends the pipeline there: when
    aggregation returns no item the model is not called, and when the
    response is unsuccessful nothing is built and nothing is displayed or
    saved. A structure reaches the display/save collaborators only as the
    value returned by [buildStructure] after a successful response. *)
Theorem generate_pipeline_order (selection : SourceSelection) :
  let tr := trace (generateMindmapFromSelection env st selection) in
  (exists n m,
      stages tr =
      firstn n ([Aggregation; ModelCall; Building] ++ repeat DisplaySave m)) /\
  (apiKey st <> "" -> In (EProcessSelection selection) tr) /\
  (apiKey st <> "" ->
   processSelection env selection = inr [] \/
   (exists e, processSelection env selection = inl e) ->
   stages tr = [Aggregation]) /\
  (forall pc,
      apiKey st <> "" ->
      processSelection env selection = inr pc -> pc <> [] ->
      In (EGenerateMindmapStructure pc (extractAllTags pc)) tr /\
      ((exists e, generateMindmapStructure env pc (extractAllTags pc) = inl e) \/
       (exists resp,
           generateMindmapStructure env pc (extractAllTags pc) = inr resp /\
           success resp = false) ->
       stages tr = [Aggregation; ModelCall]) /\
      forall resp,
        generateMindmapStructure env pc (extractAllTags pc) = inr resp ->
        success resp = true ->
        In (EBuildStructure (structure resp) pc st) tr /\
        ((exists e, buildStructure env (structure resp) pc st = inl e) ->
         stages tr = [Aggregation; ModelCall; Building]) /\
        forall s,
          buildStructure env (structure resp) pc st = inr s ->
          let td := trace (displayMindmap env st s (map filePath pc)) in
          (exists before after,
              tr = (before ++ td ++ after)%list /\
              stages before = [Aggregation; ModelCall; Building] /\
              stages after = []) /\
          (exists k,
              stages tr =
              ([Aggregation; ModelCall; Building] ++ repeat DisplaySave (S k))%list) /\
          (outputFormat st <> view -> In (EConvertToMarkdown s) tr) /\
          (outputFormat st = view \/
           outputFormat st = both /\ snd (createMindmapNote env st s) = inr tt ->
           In EGetLeaf tr /\
           (getLeaf env = inr tt ->
            In (ESetViewState s (map filePath pc)) tr))) /\
  (processSelection env selection = inr [] ->
   ~ In ModelCall (stages tr) /\ ~ In Building (stages tr) /\
   ~ In DisplaySave (stages tr)) /\
  (forall pc resp,
      processSelection env selection = inr pc ->
      generateMindmapStructure env pc (extractAllTags pc) = inr resp ->
      success resp = false ->
      ~ In Building (stages tr) /\ ~ In DisplaySave (stages tr)) /\
  (forall e s,
      In e tr -> shown e = Some s ->
      exists pc resp,
        processSelection env selection = inr pc /\ pc <> [] /\
        generateMindmapStructure env pc (extractAllTags pc) = inr resp /\
        success resp = true /\
        buildStructure env (structure resp) pc st = inr s).
Proof.
  intros tr.
  destruct (string_dec (apiKey st) "") as [Hkey | Hkey].
  { assert (Htr : tr = [ENotice "Please configure your API key in settings first"]).
    { subst tr. unfold generateMindmapFromSelection. rewrite Hkey. reflexivity. }
    rewrite Htr. split; [exists 0, 0; reflexivity |].
    split; [intros H; destruct (H Hkey) |].
    split; [intros H; destruct (H Hkey) |].
    split; [intros pc H; destruct (H Hkey) |].
    split; [intros _; simpl; tauto |].
    split; [intros pc resp _ _ _; simpl; tauto |].
    intros e s [<- | []] Hs. discriminate. }
  pose proof (generate_cases selection Hkey) as Hcases.
  cbv zeta in Hcases. fold tr in Hcases.
  destruct Hcases as [Hasked Hcases].
  destruct Hcases
    as [(Hpc & Hs & Hn)
       | (pc & Hpc & Hne & Hmodel &
          [(Hresp & Hs & Hn)
          | (resp & Hresp & Hok & Hbuilder &
             [(Hbuild & Hs & Hn)
             | (s & before & after & Hbuild & Htr & Hb & Hnb & Ha & Hna)])])].
  - (* aggregation returned nothing or threw *)
    rewrite Hs. split; [exists 1, 0; reflexivity |].
    split; [intros _; exact Hasked |].
    split; [reflexivity |].
    split.
    { intros pc _ Hpc' Hne. exfalso.
      destruct Hpc as [Hpc | [e Hpc]]; congruence. }
    split; [intros _; simpl; intuition discriminate |].
    split; [intros pc resp _ _ _; simpl; intuition discriminate |].
    intros e s Hin Hsh. destruct (Hn e s Hin Hsh).
  - (* the model call threw or was unsuccessful *)
    rewrite Hs. split; [exists 2, 0; reflexivity |].
    split; [intros _; exact Hasked |].
    split.
    { intros _ [H | [e H]]; congruence. }
    split.
    { intros pc' _ Hpc' _. assert (pc' = pc) by congruence. subst pc'.
      split; [exact Hmodel |]. split; [reflexivity |].
      intros resp Hresp' Hok. exfalso.
      destruct Hresp as [[e Hresp] | (resp0 & Hresp & Hbad)]; congruence. }
    split; [intros Hempty; congruence |].
    split; [intros pc0 resp0 _ _ _; simpl; intuition discriminate |].
    intros e s Hin Hsh. destruct (Hn e s Hin Hsh).
  - (* building threw *)
    rewrite Hs. split; [exists 3, 0; reflexivity |].
    split; [intros _; exact Hasked |].
    split.
    { intros _ [H | [e H]]; congruence. }
    split.
    { intros pc' _ Hpc' _. assert (pc' = pc) by congruence. subst pc'.
      split; [exact Hmodel |]. split.
      { intros [[e H] | (resp0 & H & Hbad)]; congruence. }
      intros resp' Hresp' _. assert (resp' = resp) by congruence. subst resp'.
      split; [exact Hbuilder |]. split; [reflexivity |].
      intros s Hs'. exfalso. destruct Hbuild as [e Hbuild]. congruence. }
    split; [intros Hempty; congruence |].
    split; [intros pc0 resp0 H1 H2 H3; congruence |].
    intros e s Hin Hsh. destruct (Hn e s Hin Hsh).
  - (* the structure was built and displayed *)
    destruct (displayMindmap_acts s (map filePath pc))
      as ([k Hk] & Hconvert & Hleaf).
    cbv zeta in Hk, Hconvert, Hleaf.
    destruct (displayMindmap_trace env st s (map filePath pc)) as [_ Hshown].
    assert (Hin : forall x : event,
               In x (trace (displayMindmap env st s (map filePath pc))) ->
               In x tr).
    { intros x Hx. rewrite Htr. apply in_or_app. right.
      apply in_or_app. left. exact Hx. }
    assert (Hstages : stages tr =
              ([Aggregation; ModelCall; Building] ++
               repeat DisplaySave (S k))%list).
    { rewrite Htr, !stages_app, Hb, Ha, Hk, app_nil_r. reflexivity. }
    split.
    { exists (3 + S k), (S k). rewrite Hstages. symmetry.
      apply firstn_pipeline. }
    split; [intros _; exact Hasked |].
    split.
    { intros _ [H | [e H]]; congruence. }
    split.
    { intros pc' _ Hpc' _. assert (pc' = pc) by congruence. subst pc'.
      split; [exact Hmodel |]. split.
      { intros [[e H] | (resp0 & H & Hbad)]; congruence. }
      intros resp' Hresp' _. assert (resp' = resp) by congruence. subst resp'.
      split; [exact Hbuilder |]. split.
      { intros [e H]. congruence. }
      intros s' Hs'. assert (s' = s) by congruence. subst s'.
      cbv zeta. split; [exists before, after; auto |].
      split; [exists k; exact Hstages |]. split.
      - intros Hf. destruct (Hconvert Hf) as [rest Hrest].
        apply Hin. rewrite Hrest. left. reflexivity.
      - intros Hf. destruct (Hleaf Hf) as [Hasks Hgiven].
        split; [apply Hin, Hasks |].
        intros Hgot. apply Hin, Hgiven, Hgot. }
    split; [intros Hempty; congruence |].
    split; [intros pc0 resp0 H1 H2 H3; congruence |].
    intros e s' Hine Hsh. exists pc, resp.
    repeat (split; [assumption |]).
    rewrite Htr in Hine. apply in_app_or in Hine.
    destruct Hine as [Hine | Hine]; [destruct (Hnb e s' Hine Hsh) |].
    apply in_app_or in Hine.
    destruct Hine as [Hine | Hine]; [| destruct (Hna e s' Hine Hsh)].
    rewrite (Hshown e s' Hine Hsh). exact Hbuild.
Qed.


End OutcomeProperties.

(** * Current note, settings and lifecycle *)

Section CurrentNoteProperties.

Import Plugin Outcomes Lifecycle.

Context {RawOutline Structure SavedMindmap : Type}.
Variable env : Collaborators RawOutline Structure SavedMindmap.
Variable st : PluginSettings.

(** X9. [generateFromCurrentNote]. Without a view, or with a view that has
    no file, it shows the corresponding notice, does nothing else and
    returns, whatever the settings are. Otherwise the aggregator is asked
    for exactly one file, the path of the current note, with no folders
    and no tags, and the method ends as [generateMindmapFromSelection]
    does for that selection: it throws only when an API key is set and a
    step of the generation threw a value whose message cannot be read. *)
Theorem generateFromCurrentNote_outcomes (view : option MarkdownView) :
  let run := generateFromCurrentNote env st view in
  let current (f : TFile) : SourceSelection :=
    {| files := [path f];
       folders := [];
       sel_tags := [];
       includeSubfolders := false;
       contentPreview := "" |} in
  (forall e' : JsError,
      snd run = inl e' <->
      exists v f,
        view = Some v /\ file v = Some f /\ apiKey st <> "" /\
        exists e, thrown env st (current f) e /\ message e = inl e') /\
  (forall v f, view = Some v -> file v = Some f ->
               run = generateMindmapFromSelection env st (current f)) /\
  (view = None -> run = ([ENotice "No active note found"], inr tt)) /\
  (forall v, view = Some v -> file v = None ->
             run = ([ENotice "Current view has no associated file"], inr tt)) /\
  (forall sel,
      In (EProcessSelection sel) (trace run) ->
      exists v f,
        view = Some v /\ file v = Some f /\ sel = current f).
Proof.
  intros run current. subst run. unfold generateFromCurrentNote.
  destruct view as [v |]; [destruct (file v) as [f |] eqn:Hfile |].
  - fold (current f). split; [| split; [| split; [| split]]].
    + intros e'. rewrite generate_throws_iff. split.
      * intros [Hkey Hthrown]. exists v, f. auto.
      * intros (v' & f' & Hv & Hf & Hkey & Hthrown).
        assert (v' = v) by congruence. subst v'.
        assert (f' = f) by congruence. subst f'. auto.
    + intros v' f' Hv Hf. assert (v' = v) by congruence. subst v'.
      assert (f' = f) by congruence. subst f'. reflexivity.
    + discriminate.
    + intros v' Hv; congruence.
    + intros sel Hin. exists v, f. repeat split; try assumption.
      apply (generate_asks_selection _ _ _ _ Hin).
  - split; [| split; [| split; [| split]]].
    + intros e'. split; [discriminate |].
      intros (v' & f' & Hv & Hf & _). congruence.
    + intros v' f' Hv Hf. congruence.
    + discriminate.
    + reflexivity.
    + intros sel Hin. simpl in Hin. destruct Hin as [H | []]. discriminate.
  - split; [| split; [| split; [| split]]].
    + intros e'. split; [discriminate |].
      intros (v' & f' & Hv & _). discriminate.
    + discriminate.
    + reflexivity.
    + discriminate.
    + intros sel Hin. simpl in Hin. destruct Hin as [H | []]. discriminate.
Qed.

End CurrentNoteProperties.

Section SettingsProperties.

Import Plugin Lifecycle.

Variable parseInt : string -> JsInt.
Variable trim : string -> string.
Variable host : Host.

Lemma assign_stored_of (s : PluginSettings) :
  assign DEFAULT_SETTINGS (Some (stored_of s)) = s.
Proof. destruct s as [? ? ? ? ? ? ? ? ? ? ? ? [url |]]; reflexivity. Qed.

(** X10. Settings survive a save and a load: when the data file holds what
    [saveSettings] handed to [saveData], [loadSettings] restores exactly
    those settings. With no data file the settings are the defaults, and
    when [loadData] throws the settings are left as they were. *)
Theorem loadSettings_round_trip (s0 : PluginSettings) :
  (forall s d,
      In (HSaveData d) (task_trace (saveSettings host s)) ->
      loadData host = inr (Some (stored_of d)) ->
      loadSettings host s0 = ([HLoadData], s, inr tt)) /\
  (loadData host = inr None ->
   loadSettings host s0 = ([HLoadData], DEFAULT_SETTINGS, inr tt)) /\
  (forall e, loadData host = inl e ->
             loadSettings host s0 = ([HLoadData], s0, inl e)).
Proof.
  unfold loadSettings, saveSettings, task_bind, task_call, set_settings,
    get_settings, task_trace.
  split; [| split].
  - intros s d Hin Hload. rewrite Hload. cbn -[assign].
    assert (d = s).
    { destruct (saveData host s) as [e | []]; simpl in Hin.
      - destruct Hin as [H | []]. congruence.
      - destruct (updateSettings host s); simpl in Hin;
          destruct Hin as [H | [H | []]]; congruence. }
    subst d. rewrite assign_stored_of. reflexivity.
  - intros ->. reflexivity.
  - intros e ->. reflexivity.
Qed.

Lemma saveSettings_runs (s : PluginSettings) :
  saveSettings host s =
  match saveData host s with
  | inl err => ([HSaveData s], s, inl err)
  | inr _ =>
      ([HSaveData s; HUpdateSettings s], s, updateSettings host s)
  end.
Proof.
  unfold saveSettings, task_bind, task_call, get_settings. simpl.
  destruct (saveData host s) as [err | []]; reflexivity.
Qed.

(** The run of a handler that assigns a field and saves. *)
Lemma modify_then_save (f : PluginSettings -> PluginSettings)
    (s : PluginSettings) :
  task_bind (modify_settings f) (fun _ => saveSettings host) s =
  match saveData host (f s) with
  | inl err => ([HSaveData (f s)], f s, inl err)
  | inr _ =>
      ([HSaveData (f s); HUpdateSettings (f s)], f s, updateSettings host (f s))
  end.
Proof.
  unfold task_bind, modify_settings. rewrite saveSettings_runs.
  destruct (saveData host (f s)) as [err | []]; [reflexivity |].
  destruct (updateSettings host (f s)); reflexivity.
Qed.

(** X11. An edit in the settings tab is either rejected (a numeric entry
    that parses to NaN or to a number that is not above zero: nothing is
    assigned and nothing is saved), or the settings in memory after the
    handler are exactly what [saveData] received. The service is updated
    only after [saveData] returned, with the same settings; when
    [saveData] throws the handler throws, the service is not updated and
    the assignment stays. *)
Theorem onChange_persists (e : Edit) (s : PluginSettings) :
  let run := onChange parseInt trim host e s in
  let s' := task_settings run in
  (rejected parseInt e = true -> run = ([], s, inr tt)) /\
  (rejected parseInt e = false ->
   run =
   match saveData host s' with
   | inl err => ([HSaveData s'], s', inl err)
   | inr _ =>
       match updateSettings host s' with
       | inl err => ([HSaveData s'; HUpdateSettings s'], s', inl err)
       | inr _ => (HSaveData s' :: HUpdateSettings s' :: refresh e, s', inr tt)
       end
   end).
Proof.
  intros run s'. subst s' run.
  assert (Hplain : forall f : PluginSettings -> PluginSettings,
    let run := task_bind (modify_settings f) (fun _ => saveSettings host) s in
    run =
    match saveData host (task_settings run) with
    | inl err => ([HSaveData (task_settings run)], task_settings run, inl err)
    | inr _ =>
        match updateSettings host (task_settings run) with
        | inl err =>
            ([HSaveData (task_settings run); HUpdateSettings (task_settings run)],
             task_settings run, inl err)
        | inr _ =>
            ([HSaveData (task_settings run); HUpdateSettings (task_settings run)],
             task_settings run, inr tt)
        end
    end).
  { intros f run. subst run. rewrite modify_then_save.
    destruct (saveData host (f s)) as [err | []] eqn:Hsave; unfold task_settings;
      simpl; rewrite Hsave; [reflexivity |].
    destruct (updateSettings host (f s)) as [err | []]; reflexivity. }
  assert (Hnumber : forall (set : nat -> PluginSettings -> PluginSettings) value,
    let run := onChange_number parseInt host set value s in
    (isNaN (parseInt value) || negb (above_zero (parseInt value)) = true ->
     run = ([], s, inr tt)) /\
    (isNaN (parseInt value) || negb (above_zero (parseInt value)) = false ->
     run =
     match saveData host (task_settings run) with
     | inl err => ([HSaveData (task_settings run)], task_settings run, inl err)
     | inr _ =>
         match updateSettings host (task_settings run) with
         | inl err =>
             ([HSaveData (task_settings run);
               HUpdateSettings (task_settings run)],
              task_settings run, inl err)
         | inr _ =>
             ([HSaveData (task_settings run);
               HUpdateSettings (task_settings run)],
              task_settings run, inr tt)
         end
     end)).
  { intros set value run. subst run. unfold onChange_number.
    destruct (isNaN (parseInt value)); simpl.
    - split; [reflexivity | discriminate].
    - destruct (above_zero (parseInt value)); simpl.
      + split; [discriminate |]. intros _. apply Hplain.
      + split; [reflexivity | discriminate]. }
  destruct e; cbn [onChange rejected refresh];
    try (split; [discriminate |]; intros _; apply Hplain);
    try apply Hnumber.
  split; [discriminate |]. intros _.
  unfold task_bind, modify_settings, task_emit, task_settings.
  rewrite saveSettings_runs.
  destruct (saveData host (with_llmProvider value s)) as [err | []] eqn:Hsave;
    simpl; rewrite ?Hsave; [reflexivity |].
  destruct (updateSettings host (with_llmProvider value s)) as [err | []] eqn:Hup;
    simpl; rewrite ?Hsave, ?Hup; reflexivity.
Qed.


Lemma modify_then_save_settings (f : PluginSettings -> PluginSettings)
    (s : PluginSettings) :
  task_settings (task_bind (modify_settings f) (fun _ => saveSettings host) s) =
  f s.
Proof.
  rewrite modify_then_save.
  destruct (saveData host (f s)) as [err | []]; reflexivity.
Qed.

Lemma onChange_number_settings
    (set : nat -> PluginSettings -> PluginSettings) (value : string)
    (s : PluginSettings) :
  task_settings (onChange_number parseInt host set value s) = s \/
  exists n, 0 < n /\
            task_settings (onChange_number parseInt host set value s) = set n s.
Proof.
  unfold onChange_number.
  destruct (parseInt value) as [| negative n]; simpl; [left; reflexivity |].
  destruct negative; simpl; [left; reflexivity |].
  destruct (Nat.ltb_spec 0 n) as [Hpos | Hle]; [| left; reflexivity].
  right. exists n. split; [exact Hpos |]. apply modify_then_save_settings.
Qed.

Lemma onChange_keeps_valid (e : Edit) (s : PluginSettings) :
  valid_settings s ->
  valid_settings (task_settings (onChange parseInt trim host e s)).
Proof.
  intros (Htokens & Hfiles & Hfolder). unfold valid_settings.
  destruct e; cbn [onChange].
  3-4, 6-9, 12: rewrite modify_then_save_settings; simpl; auto.
  - unfold task_bind, modify_settings, task_emit. rewrite saveSettings_runs.
    destruct (saveData host _) as [err | []]; simpl; auto.
    destruct (updateSettings host _) as [err | []]; simpl; auto.
  - rewrite modify_then_save_settings; simpl; auto.
  - destruct (onChange_number_settings with_maxTokens value s)
      as [-> | (n & Hn & ->)]; simpl; auto.
  - destruct (onChange_number_settings with_maxSourceFiles value s)
      as [-> | (n & Hn & ->)]; simpl; auto.
  - rewrite modify_then_save_settings; simpl.
    repeat split; try assumption.
    destruct (String.eqb_spec (trim value) "") as [Heq | Hne];
      [discriminate | exact Hne].
Qed.

End SettingsProperties.

(** X12. However many edits are made in the settings tab, and whether or not
    saving them works, settings with above_zero [maxTokens] and
    [maxSourceFiles] and a non-empty [mindmapsFolder] keep these three
    properties. *)
Theorem edits_keep_settings_valid (parseInt : string -> Lifecycle.JsInt)
    (trim : string -> string)
    (edits : list (Lifecycle.Host * Lifecycle.Edit))
    (s : Plugin.PluginSettings) :
  Lifecycle.valid_settings s ->
  Lifecycle.valid_settings (Lifecycle.edit_all parseInt trim edits s).
Proof.
  revert s. induction edits as [| [host e] edits IH]; intros s Hs; simpl.
  - exact Hs.
  - apply IH, onChange_keeps_valid, Hs.
Qed.

Section HostProperties.

Import Plugin Lifecycle.

Variables VIEW_TYPE_MINDMAP VIEW_TYPE_VISUAL_MINDMAP : string.
Variable host : Host.

(** X13. The Test Connection button. The handler leaves the settings alone
    and sets the button text to [Testing...] before it asks for the test.
    When the test returns, or throws a value whose message can be read,
    exactly one notice is shown between the two changes of the button text
    and the handler returns with the text set back to [Test Connection].
    When the test throws a value whose message cannot be read (as for
    [null] or [undefined]), the handler throws what reading the message
    threw, shows no notice and leaves the text at [Testing...]. So the
    text is set back exactly when the handler returns normally. The
    success notice is shown exactly when the test returned a result whose
    [success] is true. *)
Theorem testConnection_restores_button (s : PluginSettings) :
  let run := onClick_testConnection host s in
  task_settings run = s /\
  (forall r, testConnection host = inr r ->
     run =
     ([HSetButtonText "Testing..."; HTestConnection;
       HNotice (if test_success r then "✅ API connection successful!"
                else "❌ Connection failed: " ++ test_error r);
       HSetButtonText "Test Connection"], s, inr tt)) /\
  (forall err msg, testConnection host = inl err -> message err = inr msg ->
     run =
     ([HSetButtonText "Testing..."; HTestConnection;
       HNotice ("❌ Connection error: " ++ msg);
       HSetButtonText "Test Connection"], s, inr tt)) /\
  (forall err e', testConnection host = inl err -> message err = inl e' ->
     run = ([HSetButtonText "Testing..."; HTestConnection], s, inl e')) /\
  (forall e' : JsError,
      task_result run = inl e' <->
      exists err, testConnection host = inl err /\ message err = inl e') /\
  (In (HSetButtonText "Test Connection") (task_trace run) <->
   task_result run = inr tt) /\
  (In (HNotice "✅ API connection successful!") (task_trace run) <->
   exists r, testConnection host = inr r /\ test_success r = true).
Proof.
  intros run. subst run.
  unfold onClick_testConnection, task_bind, task_try, task_call, task_emit,
    task_evaluate, task_result, task_settings, task_trace.
  destruct (testConnection host) as [err | r] eqn:Htest.
  - destruct (message err) as [e0 | msg0] eqn:Hmsg; cbn -[String.append].
    + split; [reflexivity |]. split; [discriminate |].
      split; [intros err' msg H Hm; injection H as <-; rewrite Hmsg in Hm;
              discriminate |].
      split; [intros err' e' H Hm; injection H as <-; rewrite Hmsg in Hm;
              injection Hm as <-; reflexivity |].
      split; [| split].
      * intros e'. split.
        -- intros H. injection H as <-. exists err. auto.
        -- intros (err' & H & Hm). injection H as <-. rewrite Hmsg in Hm.
           injection Hm as <-. reflexivity.
      * split; [| discriminate].
        intros [H | [H | []]]; discriminate.
      * split.
        -- intros [H | [H | []]]; discriminate.
        -- intros (r & H & _). discriminate.
    + split; [reflexivity |]. split; [discriminate |].
      split; [intros err' msg H Hm; injection H as <-; rewrite Hmsg in Hm;
              injection Hm as <-; reflexivity |].
      split; [intros err' e' H Hm; injection H as <-; rewrite Hmsg in Hm;
              discriminate |].
      split; [| split].
      * intros e'. split; [discriminate |].
        intros (err' & H & Hm). injection H as <-. rewrite Hmsg in Hm.
        discriminate.
      * split; [reflexivity |]. intros _. simpl. tauto.
      * split.
        -- cbn [String.append]. intros [H | [H | [H | [H | []]]]]; discriminate.
        -- intros (r & H & _). discriminate.
  - destruct (test_success r) eqn:Hok; cbn -[String.append].
    + split; [reflexivity |].
      split; [intros r' H; injection H as <-; rewrite Hok; reflexivity |].
      split; [discriminate |]. split; [discriminate |].
      split; [| split].
      * intros e'. split; [discriminate |]. intros (err & H & _). discriminate.
      * split; [reflexivity |]. intros _. simpl. tauto.
      * split; [intros _; exists r; auto |]. intros _. simpl. tauto.
    + split; [reflexivity |].
      split; [intros r' H; injection H as <-; rewrite Hok; reflexivity |].
      split; [discriminate |]. split; [discriminate |].
      split; [| split].
      * intros e'. split; [discriminate |]. intros (err & H & _). discriminate.
      * split; [reflexivity |]. intros _. simpl. tauto.
      * split.
        -- cbn [String.append]. intros [H | [H | [H | [H | []]]]]; discriminate.
        -- intros (r' & H & Hr'). congruence.
Qed.

(** X14. [activateVisualMindmapView] opens a new leaf only when the
    workspace has no leaf of the visual mindmap type. With such a leaf the
    first one is revealed and nothing else is done. At most one leaf is
    revealed, and a revealed leaf is either the first existing one or the
    new leaf after its view state was set. The settings are untouched. *)
Theorem activateVisualMindmapView_reuses (s : PluginSettings) :
  let run := activateVisualMindmapView VIEW_TYPE_VISUAL_MINDMAP host s in
  task_settings run = s /\
  (forall first rest,
      getLeavesOfType host VIEW_TYPE_VISUAL_MINDMAP = inr (first :: rest) ->
      run = ([HGetLeavesOfType VIEW_TYPE_VISUAL_MINDMAP; HRevealLeaf first], s,
             workspaceRevealLeaf host first)) /\
  (In HGetLeaf (task_trace run) ->
   getLeavesOfType host VIEW_TYPE_VISUAL_MINDMAP = inr []) /\
  (forall leaf,
      In (HRevealLeaf leaf) (task_trace run) ->
      (exists rest,
          getLeavesOfType host VIEW_TYPE_VISUAL_MINDMAP = inr (leaf :: rest)) \/
      (getLeavesOfType host VIEW_TYPE_VISUAL_MINDMAP = inr [] /\
       workspaceGetLeaf host = inr leaf /\
       leafSetViewState host leaf VIEW_TYPE_VISUAL_MINDMAP = inr tt)) /\
  List.length (filter is_reveal (task_trace run)) <= 1.
Proof.
  intros run. subst run.
  unfold activateVisualMindmapView, task_bind, task_call, task_settings,
    task_trace.
  destruct (getLeavesOfType host VIEW_TYPE_VISUAL_MINDMAP)
    as [err | [| first rest]] eqn:Hleaves.
  - simpl. repeat split; try lia; try discriminate.
    + intros [H | []]. discriminate.
    + intros leaf [H | []]. discriminate.
  - destruct (workspaceGetLeaf host) as [err | leaf] eqn:Hleaf.
    { simpl. repeat split; try lia; try discriminate.
      intros leaf [H | [H | []]]; discriminate. }
    destruct (leafSetViewState host leaf VIEW_TYPE_VISUAL_MINDMAP)
      as [err | []] eqn:Hstate.
    { simpl. repeat split; try lia; try discriminate.
      intros leaf' [H | [H | [H | []]]]; discriminate. }
    destruct (workspaceRevealLeaf host leaf) as [err | []].
    all: simpl; repeat split; try lia; try discriminate.
    all: intros leaf' [H | [H | [H | [H | []]]]]; try discriminate.
    all: injection H as <-; right; auto.
  - destruct (workspaceRevealLeaf host first) as [err | []] eqn:Hreveal.
    all: simpl; repeat split; try lia.
    all: try (intros first' rest' H; injection H as <- <-; rewrite Hreveal;
              reflexivity).
    all: try (intros [H | [H | []]]; discriminate).
    all: intros leaf [H | [H | []]]; try discriminate.
    all: injection H as <-; left; eauto.
Qed.


Ltac onload_case :=
  repeat split; intros;
  repeat match goal with
         | H : In _ (_ :: _) |- _ => destruct H as [H | H]
         | H : In _ [] |- _ => destruct H
         | H : _ \/ _ |- _ => destruct H as [H | H]
         | H : False |- _ => destruct H
         end;
  try discriminate;
  try solve [ eauto | congruence | eexists; split; [reflexivity | congruence]
            | repeat constructor; simpl; intuition discriminate ].

(** X15. [onload]: the services are constructed from the stored settings
    merged over the defaults, which are then the plugin's settings. No
    view, ribbon icon, command or settings tab is registered unless the
    settings were loaded and the persistence service was initialised. The
    ids of the registered commands are pairwise distinct, and a normal
    return means that the five commands, two views, two ribbon icons and
    the settings tab have all been registered. *)
Theorem onload_outcomes (s0 : PluginSettings) :
  let run := onload VIEW_TYPE_MINDMAP VIEW_TYPE_VISUAL_MINDMAP host s0 in
  let tr := task_trace run in
  (forall st, In (HNewLLMService st) tr ->
              exists data,
                loadData host = inr data /\ st = assign DEFAULT_SETTINGS data) /\
  (forall data, loadData host = inr data ->
                task_settings run = assign DEFAULT_SETTINGS data) /\
  (existsb is_registration tr = true ->
   (exists data, loadData host = inr data) /\
   persistenceInitialize host = inr tt) /\
  NoDup (command_ids tr) /\
  (task_result run = inr tt ->
   command_ids tr =
   ["generate-mindmap-from-selection"; "generate-mindmap-from-current";
    "generate-mindmap-from-tag"; "open-visual-mindmap"; "combine-mindmaps"] /\
   List.length (filter is_registration tr) = 10).
Proof.
  intros run tr. subst tr run.
  unfold onload, loadSettings, task_bind, task_call, task_emit, set_settings,
    get_settings, task_trace, task_settings, task_result.
  destruct (loadData host) as [e | data] eqn:Hload; cbn -[assign];
    [onload_case |].
  destruct (newContentAggregator host) as [e | []]; cbn -[assign];
    [onload_case |].
  destruct (newLLMService host _) as [e | []]; cbn -[assign];
    [onload_case |].
  destruct (newMindmapGenerator host) as [e | []]; cbn -[assign];
    [onload_case |].
  destruct (newPersistenceService host) as [e | []]; cbn -[assign];
    [onload_case |].
  destruct (persistenceInitialize host) as [e | []]; cbn -[assign];
    [onload_case |].
  destruct (registerView host VIEW_TYPE_MINDMAP) as [e | []]; cbn -[assign];
    [onload_case |].
  destruct (registerView host VIEW_TYPE_VISUAL_MINDMAP) as [e | []];
    cbn -[assign]; [onload_case |].
  destruct (addRibbonIcon host "brain-circuit" _) as [e | []]; cbn -[assign];
    [onload_case |].
  destruct (addRibbonIcon host "link" _) as [e | []]; cbn -[assign];
    [onload_case |].
  destruct (addCommand host "generate-mindmap-from-selection" _) as [e | []];
    cbn -[assign]; [onload_case |].
  destruct (addCommand host "generate-mindmap-from-current" _) as [e | []];
    cbn -[assign]; [onload_case |].
  destruct (addCommand host "generate-mindmap-from-tag" _) as [e | []];
    cbn -[assign]; [onload_case |].
  destruct (addCommand host "open-visual-mindmap" _) as [e | []];
    cbn -[assign]; [onload_case |].
  destruct (addCommand host "combine-mindmaps" _) as [e | []];
    cbn -[assign]; [onload_case |].
  destruct (addSettingTab host) as [e | []]; cbn -[assign]; onload_case.
Qed.

End HostProperties.

Section KeyProperties.

Import Plugin Lifecycle.

Context {RawOutline Structure SavedMindmap : Type}.
Variable env : Collaborators RawOutline Structure SavedMindmap.
Variable parseInt : string -> JsInt.
Variable trim : string -> string.
Variable host : Host.

(** X16. The API key in memory gates generation. After a load with no data
    file the key is empty and [generateMindmapFromSelection] only asks for
    it. After the key field of the settings tab was edited, generation is
    refused exactly when the entry was empty, and otherwise goes on to the
    aggregator, whether or not saving the settings worked. *)
Theorem apiKey_gates_generation (s0 : PluginSettings)
    (selection : SourceSelection) :
  let refusal : Eff RawOutline Structure unit :=
    ([ENotice "Please configure your API key in settings first"], inr tt) in
  (loadData host = inr None ->
   generateMindmapFromSelection env
     (task_settings (loadSettings host s0)) selection = refusal) /\
  (forall value,
      let s := task_settings (onChange parseInt trim host (ChangeApiKey value) s0) in
      (value = "" -> generateMindmapFromSelection env s selection = refusal) /\
      (value <> "" ->
       In (EProcessSelection selection)
          (trace (generateMindmapFromSelection env s selection)))).
Proof.
  intros refusal. subst refusal. split.
  - intros Hload. unfold loadSettings, task_bind, task_call, set_settings,
      task_settings. rewrite Hload. reflexivity.
  - intros value s. subst s. cbn [onChange].
    rewrite (modify_then_save_settings host). split.
    + intros ->. reflexivity.
    + intros Hne. rewrite generate_runs by exact Hne. simpl. auto.
Qed.

End KeyProperties.

(** A thrown [null] in the three [catch] blocks that read [error.message]:
    the console error is logged where there is one, no notice is shown, and
    the TypeError of the read leaves the method. *)
Example generate_rethrows_null :
  Plugin.generateMindmapFromSelection Plugin.failing_env
    (Plugin.with_apiKey "sk-test" Plugin.DEFAULT_SETTINGS)
    (Plugin.sample_selection ["notes/ml.md"]) =
  ([Plugin.ENotice "Analyzing content and generating mindmap...";
    Plugin.EProcessSelection (Plugin.sample_selection ["notes/ml.md"]);
    Plugin.EConsoleError "Error generating mindmap:" Plugin.thrown_null],
   inl (Plugin.error_with "Cannot read properties of null (reading 'message')")).
Proof. reflexivity. Qed.

Example openMindmapCombiner_rethrows_null :
  Plugin.openMindmapCombiner Plugin.failing_env =
  ([Plugin.EConsoleLog "Opening mindmap combiner modal...";
    Plugin.EGetAllMindmaps;
    Plugin.EConsoleError "Failed to open mindmap combiner:" Plugin.thrown_null],
   inl (Plugin.error_with "Cannot read properties of null (reading 'message')")).
Proof. reflexivity. Qed.

Example testConnection_rethrows_null :
  Lifecycle.onClick_testConnection Lifecycle.read_only_host
    Plugin.DEFAULT_SETTINGS =
  ([Lifecycle.HSetButtonText "Testing..."; Lifecycle.HTestConnection],
   Plugin.DEFAULT_SETTINGS,
   inl (Plugin.error_with "Cannot read properties of null (reading 'message')")).
Proof. reflexivity. Qed.

(** Witness for C5: an empty selection, a selection of one note (the sample
    model service declines fewer than two sources) and a full run. *)
Lemma generate_pipeline_order_witness :
  let st := Plugin.with_apiKey "sk-test" Plugin.DEFAULT_SETTINGS in
  let run := fun paths =>
    Plugin.trace (Plugin.generateMindmapFromSelection (Plugin.sample_env []) st
                    (Plugin.sample_selection paths)) in
  ~ In Plugin.ModelCall (Plugin.stages (run [])) /\
  ~ In Plugin.Building (Plugin.stages (run ["notes/ml.md"])) /\
  In (Plugin.EProcessSelection
        (Plugin.sample_selection ["notes/quantum.md"; "notes/ml.md"]))
     (run ["notes/quantum.md"; "notes/ml.md"]) /\
  exists pc resp,
    Plugin.processSelection (Plugin.sample_env [])
      (Plugin.sample_selection ["notes/quantum.md"; "notes/ml.md"]) = inr pc /\
    pc <> [] /\
    Plugin.generateMindmapStructure (Plugin.sample_env []) pc
      (Plugin.extractAllTags pc) = inr resp /\
    Plugin.success resp = true /\
    Plugin.buildStructure (Plugin.sample_env []) (Plugin.structure resp) pc st =
    inr "Quantum Computing,AI Research".
Proof.
  intros st run. split; [| split; [| split]].
  - apply (proj1 (proj2 (proj2 (proj2 (proj2
      (generate_pipeline_order (Plugin.sample_env []) st
         (Plugin.sample_selection []))))))).
    reflexivity.
  - eapply (proj1 (proj2 (proj2 (proj2 (proj2 (proj2
      (generate_pipeline_order (Plugin.sample_env []) st
         (Plugin.sample_selection ["notes/ml.md"])))))))); reflexivity.
  - apply (proj1 (proj2
      (generate_pipeline_order (Plugin.sample_env []) st
         (Plugin.sample_selection ["notes/quantum.md"; "notes/ml.md"])))).
    discriminate.
  - apply (proj2 (proj2 (proj2 (proj2 (proj2 (proj2
      (generate_pipeline_order (Plugin.sample_env []) st
         (Plugin.sample_selection ["notes/quantum.md"; "notes/ml.md"])))))))
      (Plugin.EConvertToMarkdown "Quantum Computing,AI Research")).
    + simpl. auto 10.
    + reflexivity.
Defined.

(** Witness for X1: the sample clock gives a name with dashes for the
    colons of the time. *)
Lemma createMindmapNote_fileName_witness :
  "AI Mindmap - 2025-01-01T10-00-00.md" =
  "AI Mindmap - " ++
  Plugin.replace_colons (substring 0 19 (Plugin.nowISO (Plugin.sample_env []))) ++
  ".md" /\
  String.length
    (Plugin.replace_colons (substring 0 19 (Plugin.nowISO (Plugin.sample_env [])))) =
  Nat.min 19 (String.length (Plugin.nowISO (Plugin.sample_env []))) /\
  (forall i, i < 19 ->
     String.get i
       (Plugin.replace_colons
          (substring 0 19 (Plugin.nowISO (Plugin.sample_env [])))) =
     match String.get i (Plugin.nowISO (Plugin.sample_env [])) with
     | Some c => Some (if Ascii.eqb c ":" then "-"%char else c)
     | None => None
     end) /\
  Outcomes.includes_char ":" "AI Mindmap - 2025-01-01T10-00-00.md" = false /\
  String.length "AI Mindmap - 2025-01-01T10-00-00.md" =
  16 + Nat.min 19 (String.length (Plugin.nowISO (Plugin.sample_env []))) /\
  Plugin.convertToMarkdown (Plugin.sample_env []) "Quantum Computing" =
  inr "# Quantum Computing".
Proof.
  apply (createMindmapNote_fileName (Plugin.sample_env [])
           Plugin.DEFAULT_SETTINGS "Quantum Computing"
           "AI Mindmap - 2025-01-01T10-00-00.md" "# Quantum Computing").
  simpl. auto.
Defined.

(** Witness for X12: a zero limit is refused, a blank folder name falls
    back to the default although the data file cannot be written, and a
    above_zero limit is taken. *)
Lemma edits_keep_settings_valid_witness :
  Lifecycle.valid_settings
    (Lifecycle.edit_all Lifecycle.sample_parseInt Lifecycle.sample_trim
       [(Lifecycle.sample_host None [], Lifecycle.ChangeMaxTokens "0");
        (Lifecycle.read_only_host, Lifecycle.ChangeMindmapsFolder "   ");
        (Lifecycle.sample_host None [], Lifecycle.ChangeMaxSourceFiles "25")]
       Plugin.DEFAULT_SETTINGS).
Proof.
  apply (edits_keep_settings_valid Lifecycle.sample_parseInt
           Lifecycle.sample_trim).
  unfold Lifecycle.valid_settings. simpl.
  split; [lia |]. split; [lia | discriminate].
Defined.

(** * Properties of the mindmap core *)

Section ResolverProperties.

Import Plugin Core.

(** C6. Under weighting [high] a depth-1 node whose tag suggestion
    conflicts with the model's suggestion gets the tag suggestion as its
    category. In particular, when the schema has an entry matching
    [deeptech], a node tagged [deeptech/quantum-ai] with model suggestion
    [General] is filed under that entry, which is not [General]. *)
Theorem high_weighting_tag_wins (schema : list string)
    (sources : list SourceContent) :
  (forall (r : RawNode) (ttl t m : string),
      raw_title r = Some ttl ->
      tag_suggestion schema (raw_tags r) = Some t ->
      option_map (normalize_hint schema) (raw_category r) = Some m ->
      t <> m ->
      resolveCategory high schema sources (Some t) (Some m) = Some t /\
      map category (build_node high schema sources 1 r) = [Some t]) /\
  (forall (entry ttl : string) (kids : list RawNode),
      find (eq_ci "deeptech") schema = Some entry ->
      let r := mkRaw (Some ttl) (Some "General") ["deeptech/quantum-ai"] kids in
      tag_suggestion schema (raw_tags r) = Some entry /\
      map category (build_node high schema sources 1 r) = [Some entry] /\
      eq_ci "deeptech" entry = true /\
      entry <> "General").
Proof.
  split.
  - intros r ttl t m Httl Ht Hm Hconflict. split; [reflexivity |].
    destruct r as [rt rc rtags rch]. simpl in *. subst rt. simpl.
    unfold category_of. simpl. rewrite Ht, Hm. reflexivity.
  - intros entry ttl kids Hfind r.
    assert (Hsug : tag_suggestion schema (raw_tags r) = Some entry).
    { unfold tag_suggestion, resolveTags. simpl. rewrite Hfind. reflexivity. }
    assert (Hci : eq_ci "deeptech" entry = true).
    { apply find_some in Hfind. apply Hfind. }
    split; [exact Hsug |]. split; [| split; [exact Hci |]].
    + subst r. simpl. unfold category_of. simpl raw_tags. simpl raw_category.
      unfold tag_suggestion, resolveTags in *. simpl in *. rewrite Hfind. simpl.
      destruct (find (eq_ci "General") schema); reflexivity.
    + intros ->. discriminate.
Qed.

End ResolverProperties.

(** Witness for C6: a schema with the entries [General] and [DeepTech]. *)
Lemma high_weighting_tag_wins_witness :
  let schema := ["General"; "DeepTech"] in
  let r := Core.mkRaw (Some "Quantum AI") (Some "General")
             ["deeptech/quantum-ai"] [] in
  map Core.category (Core.build_node Plugin.high schema [] 1 r) = [Some "DeepTech"] /\
  Core.tag_suggestion schema (Core.raw_tags r) = Some "DeepTech" /\
  "DeepTech" <> "General".
Proof.
  intros schema r.
  destruct (high_weighting_tag_wins schema []) as [Hgeneral Hscenario].
  split.
  - apply (Hgeneral r "Quantum AI" "DeepTech" "General");
      [reflexivity | reflexivity | reflexivity | discriminate].
  - destruct (Hscenario "DeepTech" "Quantum AI" [] eq_refl) as (Hs & _ & _ & Hne).
    split; [exact Hs | exact Hne].
Defined.

Section SerializerProperties.

Import Plugin Core.

Lemma leading_spaces_indent (n : nat) (s : string) :
  (forall r, s <> String " "%char r) ->
  leading_spaces (spaces n ++ s) = (n, s).
Proof.
  intros Hs. induction n as [| n IH]; simpl.
  - destruct s as [| c r]; [reflexivity |]. simpl.
    destruct (Ascii.eqb_spec c " "%char) as [-> | Hc]; [| reflexivity].
    destruct (Hs r eq_refl).
  - rewrite IH. reflexivity.
Qed.

Lemma line_style_indent_marker (n : nat) (m : Marker) (text : string) :
  line_style (spaces n ++ marker_text m ++ text) = Some (n, m, text).
Proof.
  unfold line_style. rewrite leading_spaces_indent.
  - destruct m; reflexivity.
  - destruct m; discriminate.
Qed.

Lemma line_style_render_line (r n : MindmapNode) :
  line_style (render_line r n) =
  Some (INDENT_UNIT * depth n, marker_of_depth (depth n),
        write_fields n ++ title n
        ++ String.concat "" (map (annotation r) (secondaryParents n))).
Proof. apply line_style_indent_marker. Qed.

(** C4. Every line of a rendered outline carries the marker of its node's
    depth, at the indentation of that depth; hence two lines of one
    document at the same indentation (depth) have the same marker style,
    whatever their nodes contain. *)
Theorem render_marker_by_depth (m : Mindmap) :
  (forall line,
      In line (render_lines (root m)) ->
      exists n text,
        In n (flat_map preorder (children (root m))) /\
        line_style line =
        Some (INDENT_UNIT * depth n, marker_of_depth (depth n), text)) /\
  (forall l1 l2 i1 i2 m1 m2 t1 t2,
      In l1 (render_lines (root m)) -> In l2 (render_lines (root m)) ->
      line_style l1 = Some (i1, m1, t1) ->
      line_style l2 = Some (i2, m2, t2) ->
      i1 = i2 -> m1 = m2).
Proof.
  assert (Hline : forall line,
             In line (render_lines (root m)) ->
             exists n text,
               In n (flat_map preorder (children (root m))) /\
               line_style line =
               Some (INDENT_UNIT * depth n, marker_of_depth (depth n), text)).
  { intros line Hin. unfold render_lines in Hin. apply in_map_iff in Hin.
    destruct Hin as (n & <- & Hn). exists n. eexists. split; [exact Hn |].
    apply line_style_render_line. }
  split; [exact Hline |].
  intros l1 l2 i1 i2 m1 m2 t1 t2 H1 H2 Hs1 Hs2 Hi.
  destruct (Hline l1 H1) as (n1 & x1 & _ & E1).
  destruct (Hline l2 H2) as (n2 & x2 & _ & E2).
  rewrite E1 in Hs1. rewrite E2 in Hs2.
  injection Hs1 as <- <- _. injection Hs2 as <- <- _.
  unfold INDENT_UNIT in Hi.
  replace (depth n2) with (depth n1) by lia. reflexivity.
Qed.

(** *** Reassembling the tree from its lines *)

Lemma head_le_S (d : nat) (acc : list MindmapNode) :
  head_le d acc -> head_le (S d) acc.
Proof. destruct acc; simpl; [tauto | lia]. Qed.

Lemma span_deeper (d : nat) (kids acc : list MindmapNode) :
  Forall (fun n => depth n = S d) kids ->
  head_le d acc ->
  span (fun n => Nat.ltb d (depth n)) (kids ++ acc) = (kids, acc).
Proof.
  intros Hkids Hacc. induction Hkids as [| k kids Hk _ IH]; simpl.
  - destruct acc as [| x acc]; [reflexivity |]. simpl in *.
    destruct (Nat.ltb_spec d (depth x)); [lia | reflexivity].
  - rewrite IH. destruct (Nat.ltb_spec d (depth k)); [reflexivity | lia].
Qed.

Lemma depth_shape_depth (d : nat) (n : MindmapNode) :
  depth_shape d n -> depth n = d.
Proof. intros H. inversion H. assumption. Qed.

Lemma rebuilt_unfold (numbered : list (nat * ParsedLine)) (r n : MindmapNode) :
  rebuilt numbered r n =
  {| id := id n; title := title n; category := category n; depth := depth n;
     tags := tags n; sourceRefs := sourceRefs n;
     children := map (rebuilt numbered r) (children n);
     secondaryParents := resolve_annotations numbered (snd (line_in r n)) |}.
Proof. destruct n. reflexivity. Qed.

Lemma rebuilt_depths (numbered : list (nat * ParsedLine)) (r : MindmapNode)
    (d : nat) (l : list MindmapNode) :
  Forall (depth_shape d) l ->
  Forall (fun n => depth n = d) (map (rebuilt numbered r) l).
Proof.
  intros H. apply Forall_map. eapply Forall_impl; [| exact H].
  intros n Hn. rewrite rebuilt_unfold. simpl. apply depth_shape_depth, Hn.
Qed.

Lemma rebuilt_all_depth (numbered : list (nat * ParsedLine)) (r : MindmapNode)
    (d : nat) (l : list MindmapNode) :
  Forall (depth_shape d) l ->
  forallb (fun n => Nat.eqb (depth n) d) (map (rebuilt numbered r) l) = true.
Proof.
  intros H. apply forallb_forall. intros x Hx.
  pose proof (rebuilt_depths numbered r d l H) as Hall.
  rewrite Forall_forall in Hall. apply Nat.eqb_eq, Hall, Hx.
Qed.

(** Attaching the lines of a subtree, last line first, puts the rebuilt
    subtree in front of what was pending. *)
Lemma assemble_subtrees (numbered : list (nat * ParsedLine))
    (r n : MindmapNode) :
  forall d acc,
    depth_shape d n -> head_le d acc ->
    fold_right (attach numbered) (Some acc) (map (line_in r) (preorder n)) =
    Some (rebuilt numbered r n :: acc).
Proof.
  induction n as [i t c dn tg sr ch sp IH] using MindmapNode_ind.
  intros d acc Hshape Hacc. inversion Hshape as [d' n' Hd Hch]; subst d' n'.
  simpl in Hd, Hch. subst dn.
  assert (Hforest : forall acc',
             head_le (S d) acc' ->
             fold_right (attach numbered) (Some acc')
               (map (line_in r) (flat_map preorder ch)) =
             Some (map (rebuilt numbered r) ch ++ acc')%list).
  { clear Hshape. induction ch as [| k ch IHch]; intros acc' Hacc'.
    - reflexivity.
    - simpl. rewrite map_app, fold_right_app.
      inversion IH as [| ? ? Hk IHrest]; subst.
      inversion Hch as [| ? ? Hks Hchrest]; subst.
      rewrite (IHch IHrest Hchrest acc' Hacc').
      apply (Hk (S d)); [exact Hks |].
      destruct ch as [| k' ch']; simpl; [exact Hacc' |].
      inversion Hchrest as [| ? ? Hk' _]; subst.
      rewrite rebuilt_unfold. simpl.
      apply depth_shape_depth in Hk'. lia. }
  rewrite rebuilt_unfold.
  change (preorder (mkNode i t c d tg sr ch sp))
    with (mkNode i t c d tg sr ch sp :: flat_map preorder ch).
  cbn [map fold_right].
  rewrite (Hforest acc (head_le_S d acc Hacc)).
  unfold attach.
  cbn [line_in fst snd pl_depth pl_title pl_category pl_tags pl_sourceRefs
       depth id title category tags sourceRefs children].
  rewrite (span_deeper d (map (rebuilt numbered r) ch) acc
             (rebuilt_depths numbered r (S d) ch Hch) Hacc).
  rewrite (rebuilt_all_depth numbered r (S d) ch Hch). reflexivity.
Qed.

Lemma assemble_forest (numbered : list (nat * ParsedLine)) (r : MindmapNode)
    (f : list MindmapNode) (d : nat) (acc : list MindmapNode) :
  Forall (depth_shape d) f -> head_le d acc ->
  fold_right (attach numbered) (Some acc)
    (map (line_in r) (flat_map preorder f)) =
  Some (map (rebuilt numbered r) f ++ acc)%list.
Proof.
  intros Hf Hacc. induction Hf as [| k f Hk Hf IH]; [reflexivity |].
  simpl. rewrite map_app, fold_right_app, IH.
  apply assemble_subtrees with (d := d); [exact Hk |].
  destruct Hf as [| k' f' Hk' _]; simpl; [exact Hacc |].
  rewrite rebuilt_unfold. simpl. apply depth_shape_depth in Hk'. lia.
Qed.

(** *** Trees without secondary parents *)

Lemma built_shape_depth_shape (n : MindmapNode) :
  forall d, built_shape d n -> depth_shape d n.
Proof.
  induction n as [i t c dn tg sr ch sp IH] using MindmapNode_ind.
  intros d Hshape. inversion Hshape as [d' n' Hd Hsp Hch]; subst d' n'.
  constructor; [exact Hd |]. simpl in *. rewrite Forall_forall in *. auto.
Qed.

(** A subtree without secondary parents is rebuilt as it is. *)
Lemma rebuilt_built (numbered : list (nat * ParsedLine)) (r n : MindmapNode) :
  forall d, built_shape d n -> rebuilt numbered r n = n.
Proof.
  induction n as [i t c dn tg sr ch sp IH] using MindmapNode_ind.
  intros d Hshape. inversion Hshape as [d' n' Hd Hsp Hch]; subst d' n'.
  simpl in Hsp, Hch. subst sp. rewrite rebuilt_unfold. simpl. f_equal.
  transitivity (map (fun x => x) ch); [| apply map_id].
  apply map_ext_Forall. rewrite Forall_forall in *. eauto.
Qed.

Lemma line_in_built (r x : MindmapNode) :
  secondaryParents x = [] -> line_in r x = line_of x.
Proof.
  intros Hsp. unfold line_in, line_of, annotation_titles. rewrite Hsp.
  reflexivity.
Qed.

(** *** Lines and characters *)

Lemma all_chars_app (p : ascii -> bool) (a b : string) :
  all_chars p (a ++ b) = all_chars p a && all_chars p b.
Proof.
  induction a as [| c a IH]; simpl; [reflexivity |].
  rewrite IH. apply andb_assoc.
Qed.

Lemma occurs_newline (s : string) :
  occurs NEWLINE s = false -> all_chars not_newline s = true.
Proof.
  induction s as [| c r IH]; simpl; [reflexivity |].
  intros H. apply orb_false_elim in H. destruct H as [Hp Hr].
  rewrite (IH Hr), andb_true_r. unfold not_newline.
  destruct (ascii_dec "010"%char c) as [<- | Hc].
  - destruct r; discriminate.
  - apply negb_true_iff, Ascii.eqb_neq. congruence.
Qed.

Lemma split_on_plain (s : string) :
  all_chars not_newline s = true -> split_on "010"%char s = [s].
Proof.
  induction s as [| c r IH]; simpl; [reflexivity |].
  intros H. apply andb_prop in H. destruct H as [Hc Hr].
  unfold not_newline in Hc. apply negb_true_iff in Hc. rewrite Hc, (IH Hr).
  reflexivity.
Qed.

Lemma split_on_line (a b : string) :
  all_chars not_newline a = true ->
  split_on "010"%char (a ++ String "010"%char b) = a :: split_on "010"%char b.
Proof.
  induction a as [| c r IH]; simpl; [reflexivity |].
  intros H. apply andb_prop in H. destruct H as [Hc Hr].
  unfold not_newline in Hc. apply negb_true_iff in Hc. rewrite Hc, (IH Hr).
  reflexivity.
Qed.

Lemma split_on_concat (lines : list string) :
  lines <> [] ->
  Forall (fun l => all_chars not_newline l = true) lines ->
  split_on "010"%char (String.concat NEWLINE lines) = lines.
Proof.
  intros Hne Hall. induction Hall as [| l lines Hl Hall IH]; [congruence |].
  destruct lines as [| l' lines'].
  - simpl. apply split_on_plain, Hl.
  - change (String.concat NEWLINE (l :: l' :: lines'))
      with (l ++ String "010"%char (String.concat NEWLINE (l' :: lines'))).
    rewrite split_on_line by exact Hl. rewrite IH by discriminate. reflexivity.
Qed.

Lemma occurs_cons (delim : string) (c : ascii) (r : string) :
  occurs delim (String c r) =
  String.prefix delim (String c r) || occurs delim r.
Proof. reflexivity. Qed.

Lemma split_str_no_occurrence (delim s : string) :
  occurs delim s = false -> split_str delim 0 s = [s].
Proof.
  induction s as [| c r IH]; [reflexivity |].
  intros H. rewrite occurs_cons in H.
  apply orb_false_elim in H. destruct H as [Hp Hr].
  change (split_str delim 0 (String c r))
    with (if String.prefix delim (String c r)
          then EmptyString :: split_str delim (String.length delim - 1) r
          else match split_str delim 0 r with
               | h :: t => String c h :: t
               | [] => [String c EmptyString]
               end).
  rewrite Hp, (IH Hr). reflexivity.
Qed.

(** *** The fields of a line *)

Lemma string_app_nil_r (s : string) : s ++ "" = s.
Proof. induction s as [| c s IH]; simpl; [| rewrite IH]; reflexivity. Qed.

Lemma string_app_assoc (a b c : string) : (a ++ b) ++ c = a ++ b ++ c.
Proof. induction a as [| x a IH]; simpl; [| rewrite IH]; reflexivity. Qed.

Lemma unescape_escaped (c : ascii) (s : string) :
  read_list (escape_char c ++ s) = push_char c (read_list s).
Proof.
  unfold escape_char.
  destruct (Ascii.eqb_spec c "010"%char) as [-> | Hnl]; [reflexivity |].
  destruct (Ascii.eqb_spec c ESCAPE) as [-> | Hesc]; [reflexivity |].
  destruct (Ascii.eqb_spec c ITEM) as [-> | Hitem]; [reflexivity |].
  destruct (Ascii.eqb_spec c FIELD_END) as [-> | Hend]; [reflexivity |].
  cbn [orb append read_list].
  apply Ascii.eqb_neq in Hesc, Hitem, Hend. rewrite Hesc, Hitem, Hend.
  reflexivity.
Qed.

(** An escaped text is read back in front of what follows it. *)
Lemma read_escape (t h : string) (items : list string) (s rest : string) :
  read_list s = Some (h :: items, rest) ->
  read_list (escape t ++ s) = Some ((t ++ h) :: items, rest).
Proof.
  intros Hs. induction t as [| c t IH]; [exact Hs |].
  cbn [escape]. rewrite string_app_assoc, unescape_escaped, IH. reflexivity.
Qed.

Lemma read_write_list (l : list string) (rest : string) :
  read_list (write_list l ++ rest) = Some (EmptyString :: l, rest).
Proof.
  induction l as [| t l IH]; [reflexivity |].
  change (write_list (t :: l) ++ rest)
    with (String ITEM ((escape t ++ write_list l) ++ rest)).
  cbn [read_list]. change (Ascii.eqb ITEM FIELD_END) with false.
  change (Ascii.eqb ITEM ITEM) with true. cbn iota.
  rewrite string_app_assoc, (read_escape t "" l _ rest IH), string_app_nil_r.
  reflexivity.
Qed.

(** The fields of a node are read back in front of the rest of its line. *)
Lemma read_write_fields (n : MindmapNode) (rest : string) :
  read_fields (write_fields n ++ rest) =
  Some (category n, tags n, sourceRefs n, rest).
Proof.
  unfold read_fields, write_fields.
  change (strip_prefix FIELDS_OPEN
            ((FIELDS_OPEN ++ write_list (category_items (category n))
              ++ write_list (tags n) ++ write_list (sourceRefs n)
              ++ FIELDS_CLOSE) ++ rest))
    with (Some ((write_list (category_items (category n))
                 ++ write_list (tags n) ++ write_list (sourceRefs n)
                 ++ FIELDS_CLOSE) ++ rest)).
  rewrite !string_app_assoc, !read_write_list.
  destruct (category n); reflexivity.
Qed.

Lemma escape_not_newline (t : string) :
  all_chars not_newline (escape t) = true.
Proof.
  induction t as [| c t IH]; [reflexivity |].
  cbn [escape]. rewrite all_chars_app, IH, andb_true_r. unfold escape_char.
  destruct (Ascii.eqb_spec c "010"%char) as [-> | Hnl]; [reflexivity |].
  assert (Hc : not_newline c = true).
  { unfold not_newline. apply negb_true_iff, Ascii.eqb_neq, Hnl. }
  destruct (Ascii.eqb c ESCAPE || Ascii.eqb c ITEM || Ascii.eqb c FIELD_END);
    simpl; rewrite Hc; reflexivity.
Qed.

Lemma write_list_not_newline (l : list string) :
  all_chars not_newline (write_list l) = true.
Proof.
  induction l as [| t l IH]; [reflexivity |].
  change (write_list (t :: l)) with (String ITEM (escape t ++ write_list l)).
  cbn [all_chars]. rewrite all_chars_app, escape_not_newline, IH. reflexivity.
Qed.

Lemma write_fields_not_newline (n : MindmapNode) :
  all_chars not_newline (write_fields n) = true.
Proof.
  unfold write_fields. rewrite !all_chars_app, !write_list_not_newline.
  reflexivity.
Qed.

Lemma spaces_not_newline (n : nat) : all_chars not_newline (spaces n) = true.
Proof. induction n as [| n IH]; simpl; [reflexivity | exact IH]. Qed.

Lemma render_line_plain (r n : MindmapNode) :
  secondaryParents n = [] ->
  render_line r n =
  spaces (INDENT_UNIT * depth n) ++ marker_text (marker_of_depth (depth n))
  ++ write_fields n ++ title n.
Proof.
  intros Hsp. unfold render_line. rewrite Hsp. simpl.
  rewrite string_app_nil_r. reflexivity.
Qed.

Lemma render_line_not_newline (r n : MindmapNode) :
  plain n -> all_chars not_newline (render_line r n) = true.
Proof.
  intros (_ & Hsp & Hclean). rewrite render_line_plain by exact Hsp.
  rewrite !all_chars_app, spaces_not_newline, write_fields_not_newline.
  unfold clean_title in Hclean. apply andb_prop in Hclean.
  destruct Hclean as [Hnl _]. apply negb_true_iff in Hnl.
  rewrite (occurs_newline _ Hnl).
  destruct (marker_of_depth (depth n)); reflexivity.
Qed.

Lemma render_line_not_blank (r n : MindmapNode) :
  is_blank (render_line r n) = false.
Proof.
  unfold is_blank, render_line. rewrite !all_chars_app.
  destruct (marker_of_depth (depth n)); simpl;
    rewrite andb_false_r; reflexivity.
Qed.

Lemma parse_line_render_line (r n : MindmapNode) :
  plain n -> parse_line (render_line r n) = Some (snd (line_of n)).
Proof.
  intros (Hd & Hsp & Hclean). unfold parse_line.
  rewrite render_line_plain by exact Hsp.
  rewrite line_style_indent_marker. unfold INDENT_UNIT.
  rewrite (Nat.mul_comm 2), Nat.Div0.mod_mul, Nat.div_mul by discriminate.
  apply Nat.leb_le in Hd. rewrite Hd.
  replace (marker_eqb (marker_of_depth (depth n)) (marker_of_depth (depth n)))
    with true by (destruct (marker_of_depth (depth n)); reflexivity).
  unfold clean_title in Hclean. apply andb_prop in Hclean.
  destruct Hclean as [_ Hopen]. apply negb_true_iff in Hopen.
  cbn [Nat.eqb andb]. rewrite read_write_fields.
  rewrite (split_str_no_occurrence _ _ Hopen). reflexivity.
Qed.

Lemma parse_lines_render_lines (r : MindmapNode) (nodes : list MindmapNode) :
  Forall (fun n => parse_line (render_line r n) = Some (snd (line_in r n)))
         nodes ->
  parse_lines (map (render_line r) nodes) =
  inr (map (fun n => snd (line_in r n)) nodes).
Proof.
  intros Hall. induction Hall as [| n nodes Hn _ IH]; [reflexivity |].
  simpl. rewrite render_line_not_blank, Hn, IH. reflexivity.
Qed.

Lemma combine_map {A B C} (f : A -> B) (g : A -> C) (l : list A) :
  List.combine (map f l) (map g l) = map (fun x => (f x, g x)) l.
Proof. induction l as [| x l IH]; simpl; [| rewrite IH]; reflexivity. Qed.

Lemma number_lines_of_nodes (r : MindmapNode) (nodes : list MindmapNode) :
  ids_of nodes = seq 1 (List.length nodes) ->
  number_lines (map (fun n => snd (line_in r n)) nodes) = map (line_in r) nodes.
Proof.
  intros Hids. unfold number_lines. rewrite length_map, <- Hids.
  unfold ids_of. rewrite combine_map. reflexivity.
Qed.

(** *** Ids in depth-first order *)

Lemma assign_ids_unfold (k : nat) (n : MindmapNode) :
  assign_ids k n =
  {| id := k; title := title n; category := category n; depth := depth n;
     tags := tags n; sourceRefs := sourceRefs n;
     children := assign_ids_forest (S k) (children n);
     secondaryParents := secondaryParents n |}.
Proof. destruct n. reflexivity. Qed.

Lemma assign_ids_preorder (n : MindmapNode) :
  forall k, ids_of (preorder (assign_ids k n)) = seq k (size n).
Proof.
  induction n as [i t c d tg sr ch sp IH] using MindmapNode_ind.
  intros k. rewrite assign_ids_unfold. unfold size. simpl.
  f_equal. generalize (S k). clear k.
  induction IH as [| x ch Hx _ IHch]; intros k; [reflexivity |].
  simpl. unfold ids_of in *. rewrite map_app, length_app, seq_app.
  rewrite Hx, IHch. reflexivity.
Qed.

Lemma assign_ids_forest_preorder (f : list MindmapNode) (k : nat) :
  ids_of (flat_map preorder (assign_ids_forest k f)) =
  seq k (List.length (flat_map preorder f)).
Proof.
  revert k. induction f as [| x f IH]; intros k; [reflexivity |].
  simpl. unfold ids_of in *. rewrite map_app, length_app, seq_app.
  rewrite IH. f_equal. apply assign_ids_preorder.
Qed.


Lemma assign_ids_shape (n : MindmapNode) :
  forall d k, built_shape d n -> built_shape d (assign_ids k n).
Proof.
  induction n as [i t c dn tg sr ch sp IH] using MindmapNode_ind.
  intros d k Hshape. rewrite assign_ids_unfold.
  inversion Hshape as [d' n' Hd Hsp Hch]; subst d' n'.
  constructor; simpl in *; try assumption.
  generalize (S k). clear k Hshape.
  induction ch as [| x ch IHch]; intros k; [constructor |].
  inversion IH; subst. inversion Hch; subst. simpl. constructor; auto.
Qed.

Lemma assign_ids_forest_shape (f : list MindmapNode) (d k : nat) :
  Forall (built_shape d) f -> Forall (built_shape d) (assign_ids_forest k f).
Proof.
  intros Hf. revert k. induction Hf as [| x f Hx _ IH]; intros k; simpl;
    constructor; auto using assign_ids_shape.
Qed.

Lemma ids_seq_length (l : list MindmapNode) (k n : nat) :
  ids_of l = seq k n -> ids_of l = seq k (List.length l).
Proof.
  intros H. rewrite H. f_equal.
  rewrite <- (length_seq n k), <- H. unfold ids_of. apply length_map.
Qed.

(** *** The trees StructureBuilder builds *)

Lemma build_node_shape (mode : TagWeighting) (schema : list string)
    (sources : list SourceContent) (r : RawNode) :
  forall d, Forall (built_shape d) (build_node mode schema sources d r).
Proof.
  induction r as [t c tg ch IH] using RawNode_ind. intros d.
  destruct t as [ttl |]; simpl; [| constructor].
  constructor; [| constructor]. constructor; simpl; try reflexivity.
  induction IH as [| x ch Hx _ IHch]; simpl; [constructor |].
  apply Forall_app. split; [apply Hx | exact IHch].
Qed.

Lemma build_forest_shape (mode : TagWeighting) (schema : list string)
    (sources : list SourceContent) (d : nat) (rs : list RawNode) :
  Forall (built_shape d) (build_forest mode schema sources d rs).
Proof.
  unfold build_forest. induction rs as [| r rs IH]; simpl; [constructor |].
  apply Forall_app. split; [apply build_node_shape | exact IH].
Qed.

Lemma built_shape_preorder (n : MindmapNode) :
  forall d x,
    built_shape d n -> In x (preorder n) ->
    d <= depth x /\ secondaryParents x = [].
Proof.
  induction n as [i t c dn tg sr ch sp IH] using MindmapNode_ind.
  intros d x Hshape Hin. inversion Hshape as [d' n' Hd Hsp Hch]; subst d' n'.
  simpl in *. destruct Hin as [<- | Hin]; [simpl; split; [lia | assumption] |].
  apply in_flat_map in Hin. destruct Hin as (k & Hk & Hx).
  rewrite Forall_forall in IH, Hch.
  destruct (IH k Hk (S d) x (Hch k Hk) Hx) as [Hle Hnil]. split; [lia | exact Hnil].
Qed.

(** What parsing the rendered outline yields, once every line is known to
    be read back as the line of its node. *)
Lemma parse_render_lines (m : Mindmap) :
  let r := root m in
  let nodes := flat_map preorder (children r) in
  let numbered := map (line_in r) nodes in
  children r <> [] ->
  Forall (depth_shape 1) (children r) ->
  ids_of nodes = seq 1 (List.length nodes) ->
  Forall (fun n => parse_line (render_line r n) = Some (snd (line_in r n)) /\
                   all_chars not_newline (render_line r n) = true) nodes ->
  parse (render m) =
  inr ({| id := 0; title := ""; category := None; depth := 0; tags := [];
          sourceRefs := []; children := map (rebuilt numbered r) (children r);
          secondaryParents := [] |},
       flat_map (dropped_annotations numbered)
                (map (fun n => snd (line_in r n)) nodes)).
Proof.
  intros r nodes numbered Hne Hshape Hids Hlines.
  assert (Hnodes : nodes <> []).
  { unfold nodes. destruct (children r) as [| k f']; [congruence |].
    destruct k. simpl. discriminate. }
  subst numbered nodes. unfold parse, render, render_lines. fold r.
  rewrite split_on_concat.
  - rewrite (parse_lines_render_lines r (flat_map preorder (children r))).
    + rewrite (number_lines_of_nodes r _ Hids).
      unfold assemble.
      rewrite (assemble_forest _ r (children r) 1 [] Hshape I), app_nil_r.
      rewrite (rebuilt_all_depth _ r 1 (children r) Hshape).
      reflexivity.
    + eapply Forall_impl; [| exact Hlines]. intros x Hx. apply Hx.
  - destruct (flat_map preorder (children r)); [congruence | discriminate].
  - apply Forall_map. eapply Forall_impl; [| exact Hlines].
    intros x Hx. apply Hx.
Qed.

Lemma no_dropped_annotations (numbered : list (nat * ParsedLine))
    (l : list MindmapNode) :
  flat_map (dropped_annotations numbered)
    (map (fun n => snd (line_of n)) l) = [].
Proof. induction l as [| x l IH]; [reflexivity | exact IH]. Qed.

(** Round trip of the outline text for a built tree with clean titles. *)
Lemma parse_render_built (f : list MindmapNode) (m : Mindmap) :
  root m = {| id := 0; title := ""; category := None; depth := 0; tags := [];
              sourceRefs := []; children := f; secondaryParents := [] |} ->
  f <> [] ->
  Forall (built_shape 1) f ->
  ids_of (flat_map preorder f) = seq 1 (List.length (flat_map preorder f)) ->
  (forall n, In n (flat_map preorder f) -> clean_title (title n) = true) ->
  parse (render m) = inr (root m, []).
Proof.
  intros Hroot Hne Hshape Hids Hclean.
  assert (Hkids : children (root m) = f) by (rewrite Hroot; reflexivity).
  assert (Hplain : Forall plain (flat_map preorder f)).
  { apply Forall_forall. intros x Hx.
    pose proof Hx as Hx'. apply in_flat_map in Hx'. destruct Hx' as (k & Hk & Hxk).
    rewrite Forall_forall in Hshape.
    destruct (built_shape_preorder k 1 x (Hshape k Hk) Hxk) as [Hd Hsp].
    repeat split; auto. }
  pose proof (parse_render_lines m) as Hparse. cbv zeta in Hparse.
  rewrite Hkids in Hparse. rewrite Hparse; clear Hparse.
  - f_equal. f_equal.
    + assert (Hsame : forall numbered r, map (rebuilt numbered r) f = f).
      { intros numbered r. transitivity (map (fun x => x) f); [| apply map_id].
        apply map_ext_Forall. eapply Forall_impl; [| exact Hshape].
        intros x Hx. apply (rebuilt_built _ _ x 1 Hx). }
      rewrite Hsame. symmetry. exact Hroot.
    + rewrite <- (no_dropped_annotations
                    (map (line_in (root m)) (flat_map preorder f))
                    (flat_map preorder f)).
      f_equal. apply map_ext_Forall. eapply Forall_impl; [| exact Hplain].
      intros x (_ & Hsp & _). rewrite (line_in_built _ x Hsp). reflexivity.
  - exact Hne.
  - eapply Forall_impl; [| exact Hshape]. intros x. apply built_shape_depth_shape.
  - exact Hids.
  - eapply Forall_impl; [| exact Hplain]. intros x Hx. split.
    + rewrite (line_in_built _ x (proj1 (proj2 Hx))).
      apply parse_line_render_line, Hx.
    + apply render_line_not_newline, Hx.
Qed.

(** Parsing the rendered outline of a built tree with clean titles gives
    the tree back. *)
Lemma roundtrip_built (mode : TagWeighting) (schema : list string)
    (sources : list SourceContent) (now : string) (outline : list RawNode)
    (m : Mindmap) (w : list Warning) :
  build mode schema sources now outline = inr (m, w) ->
  (forall n, In n (preorder (root m)) -> clean_title (title n) = true) ->
  parse (render m) = inr (root m, []).
Proof.
  intros Hbuild Hclean. unfold build in Hbuild.
  pose proof (build_forest_shape mode schema sources 1 outline) as Hshape.
  destruct (build_forest mode schema sources 1 outline) as [| x top] eqn:Htop;
    [discriminate |].
  injection Hbuild as Hm _.
  set (f := assign_ids_forest 1 (x :: top)).
  assert (Hroot : root m =
                  {| id := 0; title := ""; category := None; depth := 0;
                     tags := []; sourceRefs := []; children := f;
                     secondaryParents := [] |}) by (subst m; reflexivity).
  pose proof (assign_ids_forest_shape (x :: top) 1 1 Hshape) as Hf. fold f in Hf.
  apply (parse_render_built f m Hroot).
  - discriminate.
  - exact Hf.
  - apply ids_seq_length with (n := List.length (flat_map preorder (x :: top))).
    apply assign_ids_forest_preorder.
  - intros n Hn. apply Hclean. rewrite Hroot. right. exact Hn.
Qed.

Lemma struct_eq_inv (a b : MindmapNode) :
  struct_eq a b ->
  title a = title b /\ Forall2 struct_eq (children a) (children b).
Proof. intros H. inversion H. auto. Qed.

Lemma struct_eq_links (a b : MindmapNode) :
  struct_eq a b ->
  forall p, In p (secondaryParents a) <-> In p (secondaryParents b).
Proof. intros H. inversion H. assumption. Qed.


(** A line break in a title is the other way to lose the round trip: the
    text after the break is a line without marker. *)
Lemma roundtrip_line_break :
  exists m w,
    build high [] [] "2025-01-01" broken_outline = inr (m, w) /\
    parse (render m) = inl (ParseError_unreadable_line "Research").
Proof.
  do 2 eexists. split; vm_compute; reflexivity.
Qed.

End SerializerProperties.

Section LinkerProperties.

Import Plugin Core.

Variable title_overlap : string -> string -> bool.

Lemma mem_nat_In (x : nat) (l : list nat) : mem_nat x l = true <-> In x l.
Proof.
  unfold mem_nat. rewrite existsb_exists. split.
  - intros (y & Hy & Heq). apply Nat.eqb_eq in Heq. subst y. exact Hy.
  - intros Hx. exists x. split; [exact Hx | apply Nat.eqb_refl].
Qed.

Lemma add_nat_In (s : list nat) (x y : nat) :
  In y (add_nat s x) <-> In y s \/ y = x.
Proof.
  unfold add_nat. destruct (mem_nat x s) eqn:Hmem.
  - apply mem_nat_In in Hmem. split; [auto | intros [H | ->]; assumption].
  - rewrite in_app_iff. simpl. intuition congruence.
Qed.

Lemma fold_add_nat_In (ts s : list nat) (y : nat) :
  In y (fold_left add_nat ts s) <-> In y s \/ In y ts.
Proof.
  revert s. induction ts as [| t ts IH]; intros s; simpl.
  - tauto.
  - rewrite IH, add_nat_In. intuition congruence.
Qed.

Lemma targets_of_In (pairs : list (nat * nat)) (i p : nat) :
  In p (targets_of pairs i) -> In (i, p) pairs.
Proof.
  unfold targets_of. intros H. apply in_map_iff in H.
  destruct H as ([a b] & Hb & Hin). apply filter_In in Hin.
  destruct Hin as [Hin Ha]. simpl in *. apply Nat.eqb_eq in Ha. subst. exact Hin.
Qed.

Lemma link_pairs_In (infos : list NodeInfo) (x y : nat) :
  In (x, y) (link_pairs title_overlap infos) ->
  exists a b,
    In a infos /\ In b infos /\ id (ni_node a) = x /\ id (ni_node b) = y /\
    candidate title_overlap a b = true.
Proof.
  induction infos as [| a rest IH]; simpl; [tauto |].
  intros H. apply in_app_or in H. destruct H as [H | H].
  - apply in_map_iff in H. destruct H as (b & Heq & Hb).
    apply filter_In in Hb. destruct Hb as [Hb Hc].
    injection Heq as <- <-. exists a, b. auto.
  - destruct (IH H) as (a' & b' & Ha & Hb & Hx & Hy & Hc).
    exists a', b'. auto.
Qed.

(** *** Linking changes nothing but the secondary parents *)

Lemma link_node_unfold (pairs : list (nat * nat)) (n : MindmapNode) :
  link_node pairs n =
  {| id := id n; title := title n; category := category n; depth := depth n;
     tags := tags n; sourceRefs := sourceRefs n;
     children := map (link_node pairs) (children n);
     secondaryParents :=
       fold_left add_nat (targets_of pairs (id n)) (secondaryParents n) |}.
Proof. destruct n. reflexivity. Qed.

Lemma link_node_ids (pairs : list (nat * nat)) (n : MindmapNode) :
  ids_of (preorder (link_node pairs n)) = ids_of (preorder n).
Proof.
  induction n as [i t c d tg sr ch sp IH] using MindmapNode_ind.
  rewrite link_node_unfold. simpl. f_equal.
  induction IH as [| x ch Hx _ IHch]; [reflexivity |].
  simpl. unfold ids_of in *. rewrite !map_app, Hx, IHch. reflexivity.
Qed.

Lemma link_node_descendants (pairs : list (nat * nat)) (n : MindmapNode) :
  descendants (link_node pairs n) = descendants n.
Proof.
  pose proof (link_node_ids pairs n) as H.
  destruct n. rewrite link_node_unfold in *. simpl in H.
  injection H as H. exact H.
Qed.

Lemma link_node_infos (pairs : list (nat * nat)) (n : MindmapNode) :
  forall anc,
    node_infos anc (link_node pairs n) =
    map (fun i => {| ni_node := link_node pairs (ni_node i);
                     ni_ancestors := ni_ancestors i |})
        (node_infos anc n).
Proof.
  induction n as [i t c d tg sr ch sp IH] using MindmapNode_ind.
  intros anc. rewrite link_node_unfold at 1. simpl. f_equal.
  generalize (anc ++ [i])%list. intros anc'.
  induction IH as [| x ch Hx _ IHch]; [reflexivity |].
  simpl. rewrite map_app, Hx, IHch. reflexivity.
Qed.

(** *** Unique ids *)

Lemma node_infos_ids (n : MindmapNode) :
  forall anc,
    map (fun i => id (ni_node i)) (node_infos anc n) = ids_of (preorder n).
Proof.
  induction n as [i t c d tg sr ch sp IH] using MindmapNode_ind.
  intros anc. simpl. f_equal. generalize (anc ++ [i])%list. intros anc'.
  induction IH as [| x ch Hx _ IHch]; [reflexivity |].
  simpl. unfold ids_of in *. rewrite !map_app, Hx, IHch. reflexivity.
Qed.

Lemma NoDup_map_injective {A B} (f : A -> B) (l : list A) (x y : A) :
  NoDup (map f l) -> In x l -> In y l -> f x = f y -> x = y.
Proof.
  induction l as [| a l IH]; simpl; [tauto |].
  intros Hnd Hx Hy Heq. inversion Hnd as [| ? ? Hnotin Hnd']; subst.
  destruct Hx as [-> | Hx], Hy as [-> | Hy]; auto.
  - exfalso. apply Hnotin. rewrite Heq. apply in_map, Hy.
  - exfalso. apply Hnotin. rewrite <- Heq. apply in_map, Hx.
Qed.

Lemma acyclic_from (n : MindmapNode) :
  forall anc,
    NoDup (ids_of (preorder n)) ->
    (forall q, In q anc -> ~ In q (ids_of (preorder n))) ->
    forall i, In i (node_infos anc n) -> ~ In (id (ni_node i)) (ni_ancestors i).
Proof.
  induction n as [i0 t c d tg sr ch sp IH] using MindmapNode_ind.
  intros anc Hnd Hanc i Hin. simpl in Hin, Hnd, Hanc.
  destruct Hin as [<- | Hin].
  - simpl. intros Hq. apply (Hanc _ Hq). left. reflexivity.
  - inversion Hnd as [| ? ? Hself Hrest]; subst.
    apply in_flat_map in Hin. destruct Hin as (k & Hk & Hik).
    rewrite Forall_forall in IH.
    assert (Hsub : forall q, In q (ids_of (preorder k)) ->
                             In q (ids_of (flat_map preorder ch))).
    { intros q Hq. unfold ids_of in *. apply in_map_iff in Hq.
      destruct Hq as (y & <- & Hy). apply in_map, in_flat_map. eauto. }
    apply (IH k Hk (anc ++ [i0])%list); [| | exact Hik].
    + clear - Hrest Hk. induction ch as [| x ch IHch]; [destruct Hk |].
      simpl in Hrest. unfold ids_of in Hrest. rewrite map_app in Hrest.
      apply NoDup_app_remove_l in Hrest as Hr.
      apply NoDup_app_remove_r in Hrest as Hl.
      destruct Hk as [-> | Hk]; [exact Hl | apply IHch; assumption].
    + intros q Hq Hqk. apply in_app_or in Hq. destruct Hq as [Hq | [<- | []]].
      * apply (Hanc q Hq). right. apply Hsub, Hqk.
      * apply Hself, Hsub, Hqk.
Qed.

Lemma acyclic_of_NoDup (r : MindmapNode) :
  NoDup (ids_of (preorder r)) -> acyclic r.
Proof.
  intros Hnd i Hin. apply (acyclic_from r [] Hnd); [| exact Hin].
  intros q [].
Qed.

(** C3. When MultiParentLinker runs on a mindmap that satisfies the data
    model's invariants (ids unique within the tree, recorded secondary
    parents respecting the exclusion), the result has no node that is its
    own ancestor in the owning-parent chain, and no secondary parent of a
    node is the node itself, one of its ancestors or one of its
    descendants. The linker is a total function: a pair that would break
    the exclusion is not among the links it records. *)
Theorem link_keeps_exclusion (enable : bool) (m : Mindmap) :
  NoDup (ids_of (preorder (root m))) ->
  exclusion_ok (root m) ->
  acyclic (root (link title_overlap enable m)) /\
  exclusion_ok (root (link title_overlap enable m)) /\
  (forall a b,
      In a (node_infos [] (root m)) -> In b (node_infos [] (root m)) ->
      violates_exclusion a b = true ->
      ~ In (id (ni_node a), id (ni_node b))
           (link_pairs title_overlap (node_infos [] (root m)))).
Proof.
  intros Hnd Hex.
  assert (Hsame : forall a a',
             In a (node_infos [] (root m)) -> In a' (node_infos [] (root m)) ->
             id (ni_node a') = id (ni_node a) -> a' = a).
  { intros a a' Ha Ha' Hid.
    apply (NoDup_map_injective (fun i => id (ni_node i))
             (node_infos [] (root m))); auto.
    rewrite node_infos_ids. exact Hnd. }
  assert (Hskip : forall a b,
             In a (node_infos [] (root m)) -> In b (node_infos [] (root m)) ->
             In (id (ni_node a), id (ni_node b))
                (link_pairs title_overlap (node_infos [] (root m))) ->
             violates_exclusion a b = false).
  { intros a b Ha Hb Hin. apply link_pairs_In in Hin.
    destruct Hin as (a' & b' & Ha' & Hb' & Hida & Hidb & Hc).
    rewrite (Hsame a a' Ha Ha' Hida), (Hsame b b' Hb Hb' Hidb) in Hc.
    unfold candidate in Hc. apply andb_prop in Hc. destruct Hc as [_ Hv].
    apply negb_true_iff in Hv. exact Hv. }
  split; [| split].
  - destruct enable; simpl; apply acyclic_of_NoDup;
      [rewrite link_node_ids |]; exact Hnd.
  - destruct enable; simpl; [| exact Hex].
    set (pairs := link_pairs title_overlap (node_infos [] (root m))).
    intros i' p Hin Hp. rewrite link_node_infos in Hin.
    apply in_map_iff in Hin. destruct Hin as (i & <- & Hi). simpl in *.
    rewrite link_node_descendants.
    replace (id (link_node pairs (ni_node i))) with (id (ni_node i))
      by (rewrite link_node_unfold; reflexivity).
    rewrite link_node_unfold in Hp. simpl in Hp.
    apply fold_add_nat_In in Hp. destruct Hp as [Hold | Hnew].
    + apply (Hex i p Hi Hold).
    + apply targets_of_In in Hnew. pose proof Hnew as Hpair.
      apply link_pairs_In in Hpair.
      destruct Hpair as (a & b & Ha & Hb & Hida & Hidb & _).
      rewrite <- Hidb in Hnew.
      pose proof (Hskip i b Hi Hb Hnew) as Hv.
      unfold violates_exclusion in Hv. rewrite Hidb in Hv.
      apply orb_false_elim in Hv. destruct Hv as [Hv Hdesc].
      apply orb_false_elim in Hv. destruct Hv as [Hself Hanc].
      apply Nat.eqb_neq in Hself.
      split; [exact Hself |]. split.
      * intros Hq. apply mem_nat_In in Hq. congruence.
      * intros Hq. apply mem_nat_In in Hq. congruence.
  - intros a b Ha Hb Hv Hin. rewrite (Hskip a b Ha Hb Hin) in Hv. discriminate.
Qed.

End LinkerProperties.

Section AnnotatedLines.

Import Plugin Core.

Lemma concat_empty_separator (l : list string) :
  String.concat "" l = fold_right append "" l.
Proof.
  induction l as [| x l IH]; [reflexivity |].
  destruct l as [| y l].
  - simpl. symmetry. apply string_app_nil_r.
  - change (String.concat "" (x :: y :: l))
      with (x ++ "" ++ String.concat "" (y :: l)).
    rewrite IH. reflexivity.
Qed.

Lemma prefix_cons (a b : ascii) (p s : string) :
  String.prefix (String a p) (String b s) =
  if ascii_dec a b then String.prefix p s else false.
Proof. simpl. destruct (ascii_dec a b); reflexivity. Qed.

Lemma prefix_open_false (c : ascii) (rest : string) :
  (forall r', rest <> String "["%char r') ->
  String.prefix ANNOTATION_OPEN (String c rest) = false.
Proof.
  intros Hrest. unfold ANNOTATION_OPEN. rewrite prefix_cons.
  destruct (ascii_dec " "%char c); [| reflexivity].
  destruct rest as [| a rest']; [reflexivity |].
  rewrite prefix_cons.
  destruct (ascii_dec "["%char a) as [<- | Ha]; [| reflexivity].
  destruct (Hrest rest' eq_refl).
Qed.

Lemma not_bracket_head (c : ascii) (s r' : string) :
  all_chars not_bracket (String c s) = true -> String c s <> String "["%char r'.
Proof.
  simpl. intros H Heq. injection Heq as -> _. discriminate.
Qed.

Lemma occurs_open_bracket_free (s : string) :
  all_chars not_bracket s = true -> occurs ANNOTATION_OPEN s = false.
Proof.
  induction s as [| c s IH]; [reflexivity |].
  intros H. rewrite occurs_cons. simpl in H. apply andb_prop in H.
  destruct H as [Hc Hs]. rewrite (IH Hs), orb_false_r.
  apply prefix_open_false. intros r' Heq. subst s. simpl in Hs. discriminate.
Qed.

Lemma split_before_open (s x : string) :
  all_chars not_bracket s = true ->
  split_str ANNOTATION_OPEN 0 (s ++ ANNOTATION_OPEN ++ x) =
  s :: split_str ANNOTATION_OPEN 0 x.
Proof.
  induction s as [| c s IH]; intros H.
  - destruct x; reflexivity.
  - simpl in H. apply andb_prop in H. destruct H as [Hc Hs].
    change (split_str ANNOTATION_OPEN 0 (String c s ++ ANNOTATION_OPEN ++ x))
      with (if String.prefix ANNOTATION_OPEN
                 (String c (s ++ ANNOTATION_OPEN ++ x))
            then EmptyString
                 :: split_str ANNOTATION_OPEN
                      (String.length ANNOTATION_OPEN - 1)
                      (s ++ ANNOTATION_OPEN ++ x)
            else match split_str ANNOTATION_OPEN 0 (s ++ ANNOTATION_OPEN ++ x) with
                 | h :: t => String c h :: t
                 | [] => [String c EmptyString]
                 end).
    rewrite prefix_open_false, (IH Hs); [reflexivity |].
    intros r' Heq. destruct s as [| c2 s2].
    + discriminate.
    + simpl in Heq, Hs. injection Heq as -> _. discriminate.
Qed.

Lemma split_annotations (ts : list string) :
  forall s,
    all_chars not_bracket s = true ->
    Forall (fun t => all_chars not_bracket t = true) ts ->
    split_str ANNOTATION_OPEN 0 (s ++ annotations_text ts) =
    s :: map (fun t => t ++ String ANNOTATION_CLOSE "") ts.
Proof.
  induction ts as [| t ts IH]; intros s Hs Hts.
  - unfold annotations_text. simpl. rewrite string_app_nil_r.
    apply split_str_no_occurrence, occurs_open_bracket_free, Hs.
  - inversion Hts as [| ? ? Ht Hts']; subst.
    change (annotations_text (t :: ts))
      with ((ANNOTATION_OPEN ++ t ++ String ANNOTATION_CLOSE "")
            ++ annotations_text ts).
    rewrite !string_app_assoc, split_before_open by exact Hs.
    rewrite <- string_app_assoc, IH; [reflexivity | | exact Hts'].
    rewrite all_chars_app, Ht. reflexivity.
Qed.

Lemma close_annotation_closed (t : string) :
  close_annotation (t ++ String ANNOTATION_CLOSE "") = [t].
Proof.
  induction t as [| c t IH]; [reflexivity |].
  change (String c t ++ String ANNOTATION_CLOSE "")
    with (String c (t ++ String ANNOTATION_CLOSE "")).
  destruct (t ++ String ANNOTATION_CLOSE "") as [| c2 r2] eqn:E.
  - destruct t; discriminate.
  - change (close_annotation (String c (String c2 r2)))
      with (map (String c) (close_annotation (String c2 r2))).
    rewrite IH. reflexivity.
Qed.

Lemma close_annotations (ts : list string) :
  flat_map close_annotation (map (fun t => t ++ String ANNOTATION_CLOSE "") ts)
  = ts.
Proof.
  induction ts as [| t ts IH]; [reflexivity |].
  simpl. rewrite close_annotation_closed, IH. reflexivity.
Qed.

Lemma annotations_of_node (r n : MindmapNode) :
  String.concat "" (map (annotation r) (secondaryParents n)) =
  annotations_text (annotation_titles r n).
Proof.
  rewrite concat_empty_separator. unfold annotation_titles, annotations_text.
  induction (secondaryParents n) as [| p sps IH]; [reflexivity |].
  simpl. unfold annotation at 1. destruct (find_node r p) as [x |]; simpl.
  - rewrite IH. reflexivity.
  - exact IH.
Qed.

Lemma annotations_text_not_newline (ts : list string) :
  Forall (fun t => all_chars not_newline t = true) ts ->
  all_chars not_newline (annotations_text ts) = true.
Proof.
  intros H. induction H as [| t ts Ht _ IH]; [reflexivity |].
  change (annotations_text (t :: ts))
    with ((ANNOTATION_OPEN ++ t ++ String ANNOTATION_CLOSE "")
          ++ annotations_text ts).
  rewrite !all_chars_app, Ht, IH. reflexivity.
Qed.

(** A line with annotations is read back as the line of its node when the
    title and the titles it names have no line break and no opening
    bracket. *)
Lemma parse_line_annotated (r n : MindmapNode) :
  1 <= depth n ->
  bracket_free (title n) = true ->
  Forall (fun t => bracket_free t = true) (annotation_titles r n) ->
  parse_line (render_line r n) = Some (snd (line_in r n)) /\
  all_chars not_newline (render_line r n) = true.
Proof.
  intros Hd Ht Hts. unfold bracket_free in Ht. apply andb_prop in Ht.
  destruct Ht as [Hnl Hbr].
  assert (Hts_nl : Forall (fun t => all_chars not_newline t = true)
                          (annotation_titles r n)).
  { eapply Forall_impl; [| exact Hts]. intros t H.
    unfold bracket_free in H. apply andb_prop in H. apply H. }
  assert (Hts_br : Forall (fun t => all_chars not_bracket t = true)
                          (annotation_titles r n)).
  { eapply Forall_impl; [| exact Hts]. intros t H.
    unfold bracket_free in H. apply andb_prop in H. apply H. }
  split.
  - unfold parse_line. rewrite line_style_render_line. unfold INDENT_UNIT.
    rewrite (Nat.mul_comm 2), Nat.Div0.mod_mul, Nat.div_mul by discriminate.
    apply Nat.leb_le in Hd. rewrite Hd.
    replace (marker_eqb (marker_of_depth (depth n)) (marker_of_depth (depth n)))
      with true by (destruct (marker_of_depth (depth n)); reflexivity).
    cbn [Nat.eqb andb]. rewrite read_write_fields, annotations_of_node.
    rewrite (split_annotations _ _ Hbr Hts_br), close_annotations. reflexivity.
  - unfold render_line. rewrite annotations_of_node, !all_chars_app.
    rewrite spaces_not_newline, write_fields_not_newline, Hnl,
      (annotations_text_not_newline _ Hts_nl).
    destruct (marker_of_depth (depth n)); reflexivity.
Qed.

(** *** Resolving annotations by title *)

Lemma depth_shape_preorder (n : MindmapNode) :
  forall d x, depth_shape d n -> In x (preorder n) -> d <= depth x.
Proof.
  induction n as [i t c dn tg sr ch sp IH] using MindmapNode_ind.
  intros d x Hshape Hin. inversion Hshape as [d' n' Hd Hch]; subst d' n'.
  simpl in *. destruct Hin as [<- | Hin]; [simpl; lia |].
  apply in_flat_map in Hin. destruct Hin as (k & Hk & Hx).
  rewrite Forall_forall in IH, Hch.
  pose proof (IH k Hk (S d) x (Hch k Hk) Hx). lia.
Qed.

Lemma find_line_by_title (r : MindmapNode) (nodes : list MindmapNode)
    (x : MindmapNode) :
  NoDup (map title nodes) -> In x nodes ->
  find (fun e => String.eqb (pl_title (snd e)) (title x))
       (map (line_in r) nodes) = Some (line_in r x).
Proof.
  induction nodes as [| y nodes IH]; intros Hnd Hx; [destruct Hx |].
  simpl in Hnd. inversion Hnd as [| ? ? Hy Hnd']; subst.
  simpl. destruct (String.eqb_spec (title y) (title x)) as [Heq | Hne].
  - destruct Hx as [-> | Hx]; [reflexivity |].
    exfalso. apply Hy. rewrite Heq. apply in_map, Hx.
  - destruct Hx as [-> | Hx]; [congruence | apply IH; assumption].
Qed.

Section ReadyTree.

Variable r : MindmapNode.
Hypothesis Hready : outline_ready r.

Let nodes := flat_map preorder (children r).
Let numbered := map (line_in r) nodes.

Lemma ready_find_node (p : nat) :
  In p (ids_of nodes) ->
  exists x, find_node r p = Some x /\ In x nodes /\ id x = p.
Proof.
  destruct Hready as (Hid & _ & _ & _ & _ & _ & _ & Hids & _).
  fold nodes in Hids. intros Hp.
  assert (Hpos : 1 <= p) by (rewrite Hids in Hp; apply in_seq in Hp; lia).
  unfold find_node.
  replace (preorder r) with (r :: nodes) by (destruct r; reflexivity).
  cbn [find]. rewrite Hid.
  replace (Nat.eqb 0 p) with false by (symmetry; apply Nat.eqb_neq; lia).
  destruct (find (fun n => Nat.eqb (id n) p) nodes) as [x |] eqn:Hfind.
  - apply find_some in Hfind. destruct Hfind as [Hx Heq].
    apply Nat.eqb_eq in Heq. eauto.
  - exfalso. unfold ids_of in Hp. apply in_map_iff in Hp.
    destruct Hp as (y & Hy & Hin).
    pose proof (find_none _ _ Hfind y Hin) as Hnone. simpl in Hnone.
    rewrite Hy, Nat.eqb_refl in Hnone. discriminate.
Qed.

Lemma ready_resolve (x : MindmapNode) :
  In x nodes -> resolve_annotation numbered (title x) = Some (id x).
Proof.
  destruct Hready as (_ & _ & _ & _ & _ & _ & _ & _ & Hnd & _).
  intros Hx. unfold resolve_annotation, numbered.
  rewrite (find_line_by_title r nodes x Hnd Hx). reflexivity.
Qed.

Lemma ready_annotations (n : MindmapNode) :
  In n nodes ->
  Forall (fun t => bracket_free t = true) (annotation_titles r n) /\
  flat_map (fun a => match resolve_annotation numbered a with
                     | Some i => [i]
                     | None => []
                     end)
           (annotation_titles r n) = secondaryParents n /\
  dropped_annotations numbered (snd (line_in r n)) = [].
Proof.
  intros Hn.
  destruct Hready as (_ & _ & _ & _ & _ & _ & _ & _ & _ & Hnodes).
  destruct (Hnodes n Hn) as [_ Hsp].
  unfold dropped_annotations. cbn [line_in snd pl_annotations pl_title].
  unfold annotation_titles.
  induction (secondaryParents n) as [| p sps IH]; [repeat split; constructor |].
  destruct (ready_find_node p (Hsp p (or_introl eq_refl)))
    as (x & Hfind & Hx & Hidx).
  destruct IH as (IH1 & IH2 & IH3); [intros q Hq; apply Hsp; right; exact Hq |].
  cbn [flat_map]. rewrite Hfind. cbn [app flat_map].
  rewrite (ready_resolve x Hx), Hidx. cbn [app].
  split; [| split].
  - constructor; [apply (Hnodes x Hx) | exact IH1].
  - rewrite IH2. reflexivity.
  - exact IH3.
Qed.

Lemma ready_struct_eq (n : MindmapNode) :
  (forall x, In x (preorder n) -> In x nodes) ->
  struct_eq n (rebuilt numbered r n).
Proof.
  induction n as [i t c dn tg sr ch sp IH] using MindmapNode_ind.
  intros Hsub. rewrite rebuilt_unfold.
  constructor;
    cbn [id title category depth tags sourceRefs children secondaryParents];
    try reflexivity.
  - intros p. unfold resolve_annotations. rewrite nodup_In.
    cbn [line_in snd pl_annotations].
    destruct (ready_annotations (mkNode i t c dn tg sr ch sp)) as (_ & Heq & _);
      [apply Hsub; left; reflexivity |].
    rewrite Heq. reflexivity.
  - rewrite Forall_forall in IH.
    assert (Hkids : forall k, In k ch -> struct_eq k (rebuilt numbered r k)).
    { intros k Hk. apply (IH k Hk). intros x Hx. apply Hsub.
      right. apply in_flat_map. eauto. }
    clear IH Hsub. induction ch as [| k ch IHch]; simpl; constructor.
    + apply Hkids. left. reflexivity.
    + apply IHch. intros k' Hk'. apply Hkids. right. exact Hk'.
Qed.

Lemma ready_struct_eq_forest (l : list MindmapNode) :
  (forall k, In k l -> forall x, In x (preorder k) -> In x nodes) ->
  Forall2 struct_eq l (map (rebuilt numbered r) l).
Proof.
  induction l as [| k l IH]; intros Hsub; simpl; constructor.
  - apply ready_struct_eq. apply Hsub. left. reflexivity.
  - apply IH. intros k' Hk'. apply Hsub. right. exact Hk'.
Qed.

End ReadyTree.

Lemma ready_no_warnings (r : MindmapNode) (l : list MindmapNode) :
  outline_ready r ->
  (forall x, In x l -> In x (flat_map preorder (children r))) ->
  flat_map (dropped_annotations
              (map (line_in r) (flat_map preorder (children r))))
           (map (fun n => snd (line_in r n)) l) = [].
Proof.
  intros Hready. induction l as [| x l IH]; intros Hsub; [reflexivity |].
  cbn [map flat_map].
  destruct (ready_annotations r Hready x) as (_ & _ & ->);
    [apply Hsub; left; reflexivity |].
  apply IH. intros y Hy. apply Hsub. right. exact Hy.
Qed.

(** Round trip of the outline text for a tree with annotations. *)
Lemma roundtrip_ready (m : Mindmap) :
  outline_ready (root m) ->
  exists r', parse (render m) = inr (r', []) /\ struct_eq (root m) r'.
Proof.
  intros Hready. pose proof Hready as Hr.
  destruct Hr as (Hid & Htitle & Hdepth & Hbare & Hsp & Hne & Hshape & Hids & Hnd & Hnodes).
  pose proof (parse_render_lines m) as Hparse. cbv zeta in Hparse.
  rewrite Hparse; clear Hparse; try assumption.
  - rewrite (ready_no_warnings (root m) _ Hready (fun x H => H)).
    eexists. split; [reflexivity |].
    constructor;
      cbn [id title category depth tags sourceRefs children secondaryParents].
    + exact Hid.
    + exact Htitle.
    + apply Hbare.
    + exact Hdepth.
    + apply Hbare.
    + apply Hbare.
    + intros p. rewrite Hsp. tauto.
    + apply (ready_struct_eq_forest (root m) Hready).
      intros k Hk x Hx. apply in_flat_map. eauto.
  - apply Forall_forall. intros x Hx.
    destruct (Hnodes x Hx) as [Hfree _].
    apply parse_line_annotated; [| exact Hfree |].
    + apply in_flat_map in Hx. destruct Hx as (k & Hk & Hxk).
      rewrite Forall_forall in Hshape.
      apply (depth_shape_preorder k 1 x (Hshape k Hk) Hxk).
    + apply (ready_annotations (root m) Hready x Hx).
Qed.

(** *** Linked trees are ready *)

Lemma preorder_link_node (pairs : list (nat * nat)) (n : MindmapNode) :
  preorder (link_node pairs n) = map (link_node pairs) (preorder n).
Proof.
  induction n as [i t c d tg sr ch sp IH] using MindmapNode_ind.
  rewrite link_node_unfold at 1.
  change (preorder (mkNode i t c d tg sr ch sp))
    with (mkNode i t c d tg sr ch sp :: flat_map preorder ch).
  cbn [preorder map children]. rewrite <- link_node_unfold. f_equal.
  induction IH as [| x ch Hx _ IHch]; [reflexivity |].
  simpl. rewrite map_app, Hx, IHch. reflexivity.
Qed.

Lemma preorder_link_forest (pairs : list (nat * nat)) (f : list MindmapNode) :
  flat_map preorder (map (link_node pairs) f) =
  map (link_node pairs) (flat_map preorder f).
Proof.
  induction f as [| x f IH]; [reflexivity |].
  simpl. rewrite map_app, preorder_link_node, IH. reflexivity.
Qed.

Lemma link_node_depth_shape (pairs : list (nat * nat)) (n : MindmapNode) :
  forall d, depth_shape d n -> depth_shape d (link_node pairs n).
Proof.
  induction n as [i t c dn tg sr ch sp IH] using MindmapNode_ind.
  intros d Hshape. inversion Hshape as [d' n' Hd Hch]; subst d' n'.
  rewrite link_node_unfold. constructor; [exact Hd |].
  cbn [children] in *. apply Forall_map. rewrite Forall_forall in *. auto.
Qed.

Lemma node_infos_nodes (n : MindmapNode) :
  forall anc, map ni_node (node_infos anc n) = preorder n.
Proof.
  induction n as [i t c d tg sr ch sp IH] using MindmapNode_ind.
  intros anc. simpl. f_equal. generalize (anc ++ [i])%list. intros anc'.
  induction IH as [| x ch Hx _ IHch]; [reflexivity |].
  simpl. rewrite map_app, Hx, IHch. reflexivity.
Qed.

Lemma branch_below_root (r : MindmapNode) (b : NodeInfo) (k : nat) :
  In b (node_infos [] r) -> branch_of b = Some k ->
  In (ni_node b) (flat_map preorder (children r)).
Proof.
  intros Hb Hk. destruct r as [i t c d tg sr ch sp]. simpl in Hb.
  destruct Hb as [<- | Hb]; [discriminate |].
  apply in_flat_map in Hb. destruct Hb as (x & Hx & Hbx).
  apply in_flat_map. exists x. split; [exact Hx |].
  rewrite <- (node_infos_nodes x [i]). apply in_map, Hbx.
Qed.

Lemma link_pairs_below_root (title_overlap : string -> string -> bool)
    (r : MindmapNode) (x y : nat) :
  In (x, y) (link_pairs title_overlap (node_infos [] r)) ->
  In x (ids_of (flat_map preorder (children r))) /\
  In y (ids_of (flat_map preorder (children r))).
Proof.
  intros H. apply link_pairs_In in H.
  destruct H as (a & b & Ha & Hb & <- & <- & Hc).
  unfold candidate in Hc. apply andb_prop in Hc. destruct Hc as [Hc _].
  apply andb_prop in Hc. destruct Hc as [Hbr _].
  unfold different_branches in Hbr.
  destruct (branch_of a) as [ka |] eqn:Hka; [| discriminate].
  destruct (branch_of b) as [kb |] eqn:Hkb; [| discriminate].
  split; apply in_map; eapply branch_below_root; eassumption.
Qed.

(** Linking keeps a tree ready for the round trip. *)
Lemma link_keeps_ready (title_overlap : string -> string -> bool)
    (enable : bool) (m : Mindmap) :
  outline_ready (root m) -> outline_ready (root (link title_overlap enable m)).
Proof.
  intros Hready. destruct enable; [| exact Hready]. cbn [link root].
  set (pairs := link_pairs title_overlap (node_infos [] (root m))).
  destruct Hready as (Hid & Htitle & Hdepth & Hbare & Hsp & Hne & Hshape & Hids & Hnd & Hnodes).
  assert (Hnodes' : flat_map preorder (children (link_node pairs (root m))) =
                    map (link_node pairs)
                        (flat_map preorder (children (root m)))).
  { rewrite link_node_unfold. cbn [children]. apply preorder_link_forest. }
  assert (Hsame_ids : ids_of (flat_map preorder
                                (children (link_node pairs (root m)))) =
                      ids_of (flat_map preorder (children (root m)))).
  { rewrite Hnodes'. unfold ids_of. rewrite map_map. apply map_ext.
    intros x. rewrite link_node_unfold. reflexivity. }
  unfold outline_ready. cbv zeta. rewrite Hsame_ids, Hnodes', length_map.
  repeat split.
  - rewrite link_node_unfold. exact Hid.
  - rewrite link_node_unfold. exact Htitle.
  - rewrite link_node_unfold. exact Hdepth.
  - rewrite link_node_unfold. apply Hbare.
  - rewrite link_node_unfold. apply Hbare.
  - rewrite link_node_unfold. apply Hbare.
  - rewrite link_node_unfold. cbn [secondaryParents]. rewrite Hsp, Hid.
    destruct (targets_of pairs 0) as [| p ps] eqn:Ht; [reflexivity |].
    exfalso. assert (Hp : In p (targets_of pairs 0)) by (rewrite Ht; left; reflexivity).
    apply targets_of_In, link_pairs_below_root in Hp. destruct Hp as [H0 _].
    rewrite Hids in H0. apply in_seq in H0. lia.
  - rewrite link_node_unfold. cbn [children].
    destruct (children (root m)); [congruence | discriminate].
  - rewrite link_node_unfold. cbn [children]. apply Forall_map.
    eapply Forall_impl; [| exact Hshape].
    intros x. apply link_node_depth_shape.
  - exact Hids.
  - rewrite map_map.
    replace (map (fun x => title (link_node pairs x))
                 (flat_map preorder (children (root m))))
      with (map title (flat_map preorder (children (root m)))); [exact Hnd |].
    apply map_ext. intros x. rewrite link_node_unfold. reflexivity.
  - apply in_map_iff in H. destruct H as (x & <- & Hx).
    rewrite link_node_unfold. apply (Hnodes x Hx).
  - intros p Hp. apply in_map_iff in H. destruct H as (x & <- & Hx).
    rewrite link_node_unfold in Hp. cbn [secondaryParents] in Hp.
    apply fold_add_nat_In in Hp. destruct Hp as [Hp | Hp].
    + apply (Hnodes x Hx), Hp.
    + apply targets_of_In, link_pairs_below_root in Hp. apply Hp.
Qed.

(** A built tree is ready when its titles are pairwise distinct and free of
    line breaks and opening brackets. *)
Lemma build_ready (mode : TagWeighting) (schema : list string)
    (sources : list SourceContent) (now : string) (outline : list RawNode)
    (m : Mindmap) (w : list Warning) :
  build mode schema sources now outline = inr (m, w) ->
  NoDup (map title (flat_map preorder (children (root m)))) ->
  (forall n, In n (flat_map preorder (children (root m))) ->
             bracket_free (title n) = true) ->
  outline_ready (root m).
Proof.
  intros Hbuild Hnd Hfree. unfold build in Hbuild.
  pose proof (build_forest_shape mode schema sources 1 outline) as Hshape.
  destruct (build_forest mode schema sources 1 outline) as [| x top] eqn:Htop;
    [discriminate |].
  injection Hbuild as Hm _.
  set (f := assign_ids_forest 1 (x :: top)).
  assert (Hroot : root m =
                  {| id := 0; title := ""; category := None; depth := 0;
                     tags := []; sourceRefs := []; children := f;
                     secondaryParents := [] |}) by (subst m; reflexivity).
  pose proof (assign_ids_forest_shape (x :: top) 1 1 Hshape) as Hf. fold f in Hf.
  rewrite Hroot in Hnd, Hfree |- *. cbn [children] in Hnd, Hfree.
  unfold outline_ready. cbn [id title depth secondaryParents children].
  repeat split; try assumption.
  - discriminate.
  - eapply Forall_impl; [| exact Hf]. intros y. apply built_shape_depth_shape.
  - apply ids_seq_length with (n := List.length (flat_map preorder (x :: top))).
    apply assign_ids_forest_preorder.
  - apply Hfree, H.
  - intros p Hp. apply in_flat_map in H. destruct H as (k & Hk & Hn).
    rewrite Forall_forall in Hf.
    destruct (built_shape_preorder k 1 n (Hf k Hk) Hn) as [_ Hnil].
    rewrite Hnil in Hp. destruct Hp.
Qed.

(** The round trip also holds after MultiParentLinker has run, provided
    the titles are pairwise distinct (annotations are resolved by title) and
    contain no line break and no opening bracket. *)
Lemma roundtrip_linked (title_overlap : string -> string -> bool)
    (enable : bool) (mode : TagWeighting) (schema : list string)
    (sources : list SourceContent) (now : string) (outline : list RawNode)
    (m : Mindmap) (w : list Warning) :
  build mode schema sources now outline = inr (m, w) ->
  NoDup (map title (flat_map preorder (children (root m)))) ->
  (forall n, In n (flat_map preorder (children (root m))) ->
             bracket_free (title n) = true) ->
  exists r',
    parse (render (link title_overlap enable m)) = inr (r', []) /\
    struct_eq (root (link title_overlap enable m)) r'.
Proof.
  intros Hbuild Hnd Hfree. apply roundtrip_ready, link_keeps_ready.
  eapply build_ready; eassumption.
Qed.

(** Distinct titles are needed: with two nodes named alike, the annotation
    of the first one is resolved to the first line of that title, the node
    itself, instead of its twin in the other branch. *)
Lemma roundtrip_twin_titles :
  exists m w r' ws,
    build high [] [] "2025-01-01" twin_outline = inr (m, w) /\
    parse (render (link (never string) true m)) = inr (r', ws) /\
    ~ struct_eq (root (link (never string) true m)) r'.
Proof.
  do 4 eexists. split; [vm_compute; reflexivity |].
  split; [vm_compute; reflexivity |].
  intros H. apply struct_eq_inv in H. destruct H as [_ Hch]. simpl in Hch.
  inversion Hch as [| ? ? ? ? Hfront _]; subst.
  apply struct_eq_inv in Hfront. destruct Hfront as [_ Hkids]. simpl in Hkids.
  inversion Hkids as [| ? ? ? ? Hnode _]; subst.
  pose proof (proj1 (struct_eq_links _ _ Hnode 4)) as Hp. simpl in Hp.
  destruct Hp as [Hp | []]; [auto | discriminate Hp].
Qed.


End AnnotatedLines.

Section CombinerProperties.

Import Plugin Core.

Variable title_overlap : string -> string -> bool.
Variable tags_overlap : list string -> list string -> bool.

Local Abbreviation absorb := (Core.absorb tags_overlap).
Local Abbreviation merged_category := (Core.merged_category tags_overlap).
Local Abbreviation combined_categories := (Core.combined_categories tags_overlap).
Local Abbreviation graft_category := (Core.graft_category tags_overlap).
Local Abbreviation graft_under := (Core.graft_under tags_overlap).
Local Abbreviation graft_tree := (Core.graft_tree tags_overlap).
Local Abbreviation merge_into := (Core.merge_into tags_overlap).
Local Abbreviation insert_with := (Core.insert_with tags_overlap).
Local Abbreviation graft_whole := (Core.graft_whole tags_overlap).
Local Abbreviation carries := (Core.carries tags_overlap).
Local Abbreviation holds := (Core.holds tags_overlap).
Local Abbreviation stems_from := (Core.stems_from tags_overlap).

Local Opaque UNCATEGORIZED.

Lemma merge_into_unfold (b a : MindmapNode) :
  merge_into b a =
  {| id := id a; title := title a; category := category a; depth := depth a;
     tags := union (tags a) (tags b);
     sourceRefs := union (sourceRefs a) (sourceRefs b);
     children :=
       fold_left (fun cs b' => insert_with (merge_into b') b' cs)
                 (children b) (children a);
     secondaryParents := secondaryParents a |}.
Proof. destruct b. reflexivity. Qed.

(** *** Ids and links are the only things reassigned after grafting *)

Lemma content_of_unfold (n : MindmapNode) :
  content_of n =
  {| id := 0; title := title n; category := category n; depth := depth n;
     tags := tags n; sourceRefs := sourceRefs n;
     children := map content_of (children n); secondaryParents := [] |}.
Proof. destruct n. reflexivity. Qed.

Lemma clear_links_unfold (n : MindmapNode) :
  clear_links n =
  {| id := id n; title := title n; category := category n; depth := depth n;
     tags := tags n; sourceRefs := sourceRefs n;
     children := map clear_links (children n); secondaryParents := [] |}.
Proof. destruct n. reflexivity. Qed.

Lemma content_of_link_node (pairs : list (nat * nat)) (n : MindmapNode) :
  content_of (link_node pairs n) = content_of n.
Proof.
  induction n as [i t c d tg sr ch sp IH] using MindmapNode_ind.
  rewrite link_node_unfold, !content_of_unfold. simpl. f_equal.
  rewrite map_map. apply map_ext_Forall. exact IH.
Qed.

Lemma content_of_clear_links (n : MindmapNode) :
  content_of (clear_links n) = content_of n.
Proof.
  induction n as [i t c d tg sr ch sp IH] using MindmapNode_ind.
  rewrite clear_links_unfold, !content_of_unfold. simpl. f_equal.
  rewrite map_map. apply map_ext_Forall. exact IH.
Qed.

Lemma content_of_assign_ids (n : MindmapNode) :
  forall k, content_of (assign_ids k n) = content_of n.
Proof.
  induction n as [i t c d tg sr ch sp IH] using MindmapNode_ind.
  intros k. rewrite assign_ids_unfold, !content_of_unfold. simpl. f_equal.
  generalize (S k). clear k.
  induction IH as [| x ch Hx _ IHch]; intros k; [reflexivity |].
  simpl. rewrite Hx, IHch. reflexivity.
Qed.

Lemma content_of_assign_ids_forest (l : list MindmapNode) :
  forall k, map content_of (assign_ids_forest k l) = map content_of l.
Proof.
  induction l as [| x l IH]; intros k; [reflexivity |].
  simpl. rewrite content_of_assign_ids, IH. reflexivity.
Qed.

(** *** Merging loses nothing *)

Lemma eq_ci_refl (a : string) : eq_ci a a = true.
Proof. unfold eq_ci. apply String.eqb_refl. Qed.

Lemma union_In (a b : list string) (x : string) :
  In x (union a b) <-> In x a \/ In x b.
Proof. apply fold_set_add_In. Qed.

Lemma carries_inv (a b : MindmapNode) :
  carries a b ->
  (exists tc,
      incl tc (tags a) /\
      eq_ci (title a) (title b) || tags_overlap tc (tags b) = true) /\
  incl (tags b) (tags a) /\ incl (sourceRefs b) (sourceRefs a) /\
  Forall (fun c => Exists (fun c' => carries c' c) (children a)) (children b).
Proof. intros H. inversion H. auto. Qed.

Lemma carries_refl (a : MindmapNode) : carries a a.
Proof.
  induction a as [i t c d tg sr ch sp IH] using MindmapNode_ind.
  constructor; simpl; try apply incl_refl.
  - exists tg. split; [apply incl_refl |]. rewrite eq_ci_refl. reflexivity.
  - apply Forall_forall. intros x Hx. apply Exists_exists. exists x.
    rewrite Forall_forall in IH. auto.
Qed.

Lemma deepen_unfold (n : MindmapNode) :
  deepen n =
  {| id := id n; title := title n; category := category n;
     depth := S (depth n); tags := tags n; sourceRefs := sourceRefs n;
     children := map deepen (children n);
     secondaryParents := secondaryParents n |}.
Proof. destruct n. reflexivity. Qed.

(** Moving a subtree one level down changes nothing of what is carried. *)
Lemma carries_deepen (b : MindmapNode) :
  forall a, carries a (deepen b) -> carries a b.
Proof.
  induction b as [i t c d tg sr ch sp IH] using MindmapNode_ind.
  intros a H. apply carries_inv in H. rewrite deepen_unfold in H.
  destruct H as (Ht & Htg & Hsr & Hch). simpl in *.
  constructor; simpl; try assumption.
  rewrite Forall_forall in *. intros x Hx.
  specialize (Hch (deepen x) (in_map deepen _ _ Hx)).
  apply Exists_exists in Hch. destruct Hch as (y & Hy & Hyx).
  apply Exists_exists. exists y. split; [exact Hy | apply (IH x Hx), Hyx].
Qed.

Lemma content_of_fields (n : MindmapNode) :
  category (content_of n) = category n /\ title (content_of n) = title n /\
  tags (content_of n) = tags n /\ sourceRefs (content_of n) = sourceRefs n /\
  children (content_of n) = map content_of (children n).
Proof. rewrite content_of_unfold. simpl. auto. Qed.

Lemma same_content_In (l1 l2 : list MindmapNode) (x : MindmapNode) :
  map content_of l1 = map content_of l2 -> In x l2 ->
  exists y, In y l1 /\ content_of y = content_of x.
Proof.
  intros Heq Hx. apply (in_map content_of) in Hx. rewrite <- Heq in Hx.
  apply in_map_iff in Hx. destruct Hx as (y & Hy & Hin). eauto.
Qed.

Lemma same_content_fields (a a' : MindmapNode) :
  content_of a' = content_of a ->
  title a' = title a /\ category a' = category a /\ tags a' = tags a /\
  sourceRefs a' = sourceRefs a /\
  map content_of (children a') = map content_of (children a).
Proof.
  intros Heq.
  destruct (content_of_fields a) as (Hc & Ht & Htg & Hsr & Hch).
  destruct (content_of_fields a') as (Hc' & Ht' & Htg' & Hsr' & Hch').
  rewrite <- Ht, <- Ht', <- Hc, <- Hc', <- Htg, <- Htg', <- Hsr, <- Hsr',
    <- Hch, <- Hch', Heq.
  auto.
Qed.

(** What is carried depends on the content of the carrying node only, not
    on its ids and links. *)
Lemma carries_same_content (b : MindmapNode) :
  forall a a', content_of a' = content_of a -> carries a b -> carries a' b.
Proof.
  induction b as [i t c d tg sr ch sp IH] using MindmapNode_ind.
  intros a a' Heq H. apply carries_inv in H.
  destruct H as (Ht & Htg & Hsr & Hch).
  destruct (same_content_fields a a' Heq) as (Et & _ & Etg & Esr & Ech).
  constructor; rewrite ?Et, ?Etg, ?Esr; try assumption.
  simpl in *. rewrite Forall_forall in *. intros x Hx.
  specialize (Hch x Hx). apply Exists_exists in Hch.
  destruct Hch as (y & Hy & Hyx).
  destruct (same_content_In _ _ y Ech Hy) as (y' & Hy' & Hsame).
  apply Exists_exists. exists y'. split; [exact Hy' |].
  apply (IH x Hx y y' Hsame Hyx).
Qed.

(** The same for the carried node. *)
Lemma carries_content_of (b : MindmapNode) :
  forall a b', content_of b' = content_of b -> carries a b' -> carries a b.
Proof.
  induction b as [i t c d tg sr ch sp IH] using MindmapNode_ind.
  intros a b' Heq H. apply carries_inv in H.
  destruct H as (Ht & Htg & Hsr & Hch).
  destruct (same_content_fields _ b' Heq) as (Et & _ & Etg & Esr & Ech).
  rewrite Et, Etg in Ht. rewrite Etg in Htg. rewrite Esr in Hsr.
  constructor; try assumption.
  cbn [children] in *. rewrite Forall_forall in *. intros x Hx.
  destruct (same_content_In _ _ x Ech Hx) as (x' & Hx' & Hsame).
  specialize (Hch x' Hx'). apply Exists_exists in Hch.
  destruct Hch as (y & Hy & Hyx).
  apply Exists_exists. exists y. split; [exact Hy |].
  apply (IH x Hx y x' Hsame Hyx).
Qed.

(** The members of a list of siblings after [b] was added. *)
Lemma insert_with_In (m : MindmapNode -> MindmapNode) (b : MindmapNode)
    (cs : list MindmapNode) (x : MindmapNode) :
  In x (insert_with m b cs) ->
  x = b \/ In x cs \/
  exists c0, In c0 cs /\ is_duplicate tags_overlap c0 b = true /\ x = m c0.
Proof.
  induction cs as [| c0 cs IH]; simpl.
  - intros [<- | []]. auto.
  - destruct (is_duplicate tags_overlap c0 b) eqn:Hdup.
    + intros [<- | Hx]; [| auto]. right. right. exists c0. auto.
    + intros [<- | Hx]; [auto |].
      destruct (IH Hx) as [H | [H | (c1 & Hc1 & Hd & Heq)]]; auto.
      right. right. exists c1. auto.
Qed.

Lemma insert_with_keeps (m : MindmapNode -> MindmapNode) (b s : MindmapNode)
    (cs : list MindmapNode) :
  (forall c0, carries c0 s -> carries (m c0) s) ->
  Exists (fun x => carries x s) cs ->
  Exists (fun x => carries x s) (insert_with m b cs).
Proof.
  intros Hm Hex. induction Hex as [c0 cs Hc0 | c0 cs Hcs IH]; simpl.
  - destruct (is_duplicate tags_overlap c0 b); left; auto.
  - destruct (is_duplicate tags_overlap c0 b); right; [exact Hcs | exact IH].
Qed.

Lemma insert_with_takes (m : MindmapNode -> MindmapNode) (b : MindmapNode)
    (cs : list MindmapNode) :
  (forall c0, is_duplicate tags_overlap c0 b = true -> carries (m c0) b) ->
  Exists (fun x => carries x b) (insert_with m b cs).
Proof.
  intros Hm. induction cs as [| c0 cs IH]; simpl.
  - left. apply carries_refl.
  - destruct (is_duplicate tags_overlap c0 b) eqn:Hdup.
    + left. apply Hm, Hdup.
    + right. exact IH.
Qed.

Lemma fold_insert_keeps (s : MindmapNode) (bs : list MindmapNode) :
  (forall c0 b, carries c0 s -> carries (merge_into b c0) s) ->
  forall cs,
    Exists (fun x => carries x s) cs ->
    Exists (fun x => carries x s)
           (fold_left (fun cs b' => insert_with (merge_into b') b' cs) bs cs).
Proof.
  intros Hm. induction bs as [| b bs IH]; intros cs Hex; simpl; [exact Hex |].
  apply IH, insert_with_keeps; [intros c0; apply Hm | exact Hex].
Qed.

(** Merging something into [a] keeps what [a] carries. *)
Lemma merge_into_keeps (s : MindmapNode) :
  forall a b, carries a s -> carries (merge_into b a) s.
Proof.
  induction s as [i t c d tg sr ch sp IH] using MindmapNode_ind.
  intros a b H. apply carries_inv in H.
  destruct H as ((tc & Htc & Hj) & Htg & Hsr & Hch).
  rewrite merge_into_unfold. constructor; simpl in *.
  - exists tc. split; [| exact Hj]. intros x Hx. apply union_In. auto.
  - intros x Hx. apply union_In. auto.
  - intros x Hx. apply union_In. auto.
  - rewrite Forall_forall in *. intros x Hx.
    apply fold_insert_keeps; [intros c0 b'; apply (IH x Hx) | apply Hch, Hx].
Qed.

Lemma fold_insert_takes (bs : list MindmapNode) :
  Forall (fun k => forall a, is_duplicate tags_overlap a k = true ->
                             carries (merge_into k a) k) bs ->
  forall cs k,
    In k bs ->
    Exists (fun x => carries x k)
           (fold_left (fun cs b' => insert_with (merge_into b') b' cs) bs cs).
Proof.
  intros Hbs. induction Hbs as [| b bs Hb _ IH]; intros cs k Hk; [destruct Hk |].
  simpl. destruct Hk as [<- | Hk]; [| apply IH, Hk].
  apply fold_insert_keeps; [intros c0 b'; apply merge_into_keeps |].
  apply insert_with_takes, Hb.
Qed.

(** Merging a duplicate [b] into [a] gives a node that carries [b]. *)
Lemma merge_into_takes (b : MindmapNode) :
  forall a, is_duplicate tags_overlap a b = true -> carries (merge_into b a) b.
Proof.
  induction b as [i t c d tg sr ch sp IH] using MindmapNode_ind.
  intros a Hdup. rewrite merge_into_unfold. constructor; simpl.
  - exists (tags a). split; [| exact Hdup]. intros x Hx. apply union_In. auto.
  - intros x Hx. apply union_In. auto.
  - intros x Hx. apply union_In. auto.
  - apply Forall_forall. intros k Hk. apply fold_insert_takes; assumption.
Qed.

(** The members of a list of siblings after a series of additions: what a
    former member became, or what carries one of the added nodes. *)
Lemma fold_insert_In (bs : list MindmapNode) :
  forall cs x,
    In x (fold_left (fun cs b' => insert_with (merge_into b') b' cs) bs cs) ->
    (exists c0, In c0 cs /\ forall k, carries c0 k -> carries x k) \/
    (exists b, In b bs /\ carries x b).
Proof.
  induction bs as [| b bs IH]; intros cs x Hx; simpl in Hx.
  - left. exists x. auto.
  - destruct (IH _ x Hx) as [(c1 & Hc1 & Hkeep) | (b' & Hb' & Hcar)].
    + destruct (insert_with_In _ _ _ _ Hc1) as [-> | [Hin | (c0 & Hc0 & _ & ->)]].
      * right. exists b. split; [left; reflexivity |].
        apply Hkeep, carries_refl.
      * left. exists c1. auto.
      * left. exists c0. split; [exact Hc0 |].
        intros k Hk. apply Hkeep, merge_into_keeps, Hk.
    + right. exists b'. split; [right; exact Hb' | exact Hcar].
Qed.

(** *** Taking a depth-1 node into the node of its category *)

Lemma absorb_fields (u n : MindmapNode) :
  category (absorb u n) = category u /\ title (absorb u n) = title u.
Proof.
  unfold Core.absorb. destruct (String.eqb (title n) (title u)).
  - rewrite merge_into_unfold. auto.
  - auto.
Qed.

Lemma absorb_category (u n : MindmapNode) : category (absorb u n) = category u.
Proof. apply absorb_fields. Qed.

Lemma absorb_title (u n : MindmapNode) : title (absorb u n) = title u.
Proof. apply absorb_fields. Qed.

Lemma absorb_keeps_children (u n s : MindmapNode) :
  Exists (fun x => carries x s) (children u) ->
  Exists (fun x => carries x s) (children (absorb u n)).
Proof.
  intros Hex. unfold Core.absorb. destruct (String.eqb (title n) (title u)).
  - rewrite merge_into_unfold. cbn [children].
    apply fold_insert_keeps; [intros c0 b; apply merge_into_keeps | exact Hex].
  - cbn [graft_whole children].
    apply insert_with_keeps; [intros c0; apply merge_into_keeps | exact Hex].
Qed.

Lemma absorb_keeps (u n s : MindmapNode) :
  carries u s -> carries (absorb u n) s.
Proof.
  intros H. unfold Core.absorb. destruct (String.eqb (title n) (title u)).
  - apply merge_into_keeps, H.
  - apply carries_inv in H. destruct H as (Ht & Htg & Hsr & Hch).
    constructor; cbn [graft_whole title tags sourceRefs children];
      try assumption.
    rewrite Forall_forall in *. intros x Hx.
    apply insert_with_keeps; [intros c0; apply merge_into_keeps | apply Hch, Hx].
Qed.

(** The node that took [n] in holds it. *)
Lemma absorb_holds (u n : MindmapNode) : holds (absorb u n) n.
Proof.
  unfold holds. rewrite absorb_title. unfold Core.absorb.
  destruct (String.eqb_spec (title n) (title u)) as [Heq | Hne].
  - apply merge_into_takes. unfold is_duplicate.
    rewrite Heq, eq_ci_refl. reflexivity.
  - cbn [graft_whole children].
    assert (Hex : Exists (fun x => carries x (deepen n))
                    (insert_with (merge_into (deepen n)) (deepen n)
                                 (children u))).
    { apply insert_with_takes. intros c0. apply merge_into_takes. }
    apply Exists_exists in Hex. destruct Hex as (x & Hx & Hcar).
    apply Exists_exists. exists x. split; [exact Hx | apply carries_deepen, Hcar].
Qed.

Lemma holds_kept (u n n' : MindmapNode) :
  holds u n -> holds (absorb u n') n.
Proof.
  unfold holds. rewrite absorb_title.
  destruct (String.eqb (title n) (title u)).
  - apply absorb_keeps.
  - apply absorb_keeps_children.
Qed.

Lemma fold_absorb_title (l : list MindmapNode) :
  forall u, title (fold_left absorb l u) = title u /\
            category (fold_left absorb l u) = category u.
Proof.
  induction l as [| n l IH]; intros u; simpl; [auto |].
  destruct (IH (absorb u n)) as [Ht Hc].
  rewrite Ht, Hc, absorb_title, absorb_category. auto.
Qed.

(** Every depth-1 node that was taken in is held, whatever is taken in
    afterwards. *)
Lemma fold_absorb_holds (l : list MindmapNode) :
  forall u n, In n l -> holds (fold_left absorb l u) n.
Proof.
  assert (Hkeep : forall l u n, holds u n -> holds (fold_left absorb l u) n).
  { clear l. induction l as [| n' l IH]; intros u n H; simpl; [exact H |].
    apply IH, holds_kept, H. }
  induction l as [| n0 l IH]; intros u n Hn; [destruct Hn |].
  simpl. destruct Hn as [-> | Hn]; [| apply IH, Hn].
  apply Hkeep, absorb_holds.
Qed.

(** The children of the node that took [n] in: what a former child
    became, or a subtree that stems from [n]. *)
Lemma absorb_children (u n x : MindmapNode) :
  In x (children (absorb u n)) ->
  (exists c0, In c0 (children u) /\ forall k, carries c0 k -> carries x k) \/
  stems_from u x n.
Proof.
  unfold Core.absorb, stems_from.
  destruct (String.eqb (title n) (title u)).
  - rewrite merge_into_unfold. cbn [children]. intros Hx.
    destruct (fold_insert_In _ _ _ Hx) as [H | (b & Hb & Hcar)]; [left; exact H |].
    right. apply Exists_exists. eauto.
  - cbn [graft_whole children]. intros Hx.
    destruct (insert_with_In _ _ _ _ Hx) as [-> | [Hin | (c0 & Hc0 & _ & ->)]].
    + right. apply carries_deepen, carries_refl.
    + left. exists x. auto.
    + left. exists c0. split; [exact Hc0 |].
      intros k Hk. apply merge_into_keeps, Hk.
Qed.

Lemma stems_from_kept (u s x n : MindmapNode) :
  (forall k, carries s k -> carries x k) ->
  stems_from u s n -> stems_from u x n.
Proof.
  unfold stems_from. intros Hkeep.
  destruct (String.eqb (title n) (title u)); [| apply Hkeep].
  intros H. apply Exists_exists in H. destruct H as (k & Hk & Hcar).
  apply Exists_exists. exists k. split; [exact Hk | apply Hkeep, Hcar].
Qed.

(** Every child of a category node stems from a depth-1 node that the
    category node took in. *)
Lemma fold_absorb_children (l : list MindmapNode) :
  forall u x,
    In x (children (fold_left absorb l u)) ->
    (exists c0, In c0 (children u) /\ forall k, carries c0 k -> carries x k) \/
    (exists n, In n l /\ stems_from u x n).
Proof.
  induction l as [| n l IH]; intros u x Hx; simpl in Hx.
  - left. exists x. auto.
  - destruct (IH _ x Hx) as [(c1 & Hc1 & Hkeep) | (n' & Hn' & Hstem)].
    + destruct (absorb_children u n c1 Hc1) as [(c0 & Hc0 & Hkeep0) | Hstem].
      * left. exists c0. split; [exact Hc0 | auto].
      * right. exists n. split; [left; reflexivity |].
        apply (stems_from_kept u c1 x n Hkeep Hstem).
    + right. exists n'. split; [right; exact Hn' |].
      unfold stems_from in *. rewrite absorb_title in Hstem. exact Hstem.
Qed.

(** *** Grafting, category by category *)

Lemma merged_category_category (c : string) (l : list MindmapNode) :
  category (merged_category c l) = Some c /\ title (merged_category c l) = c.
Proof.
  unfold Core.merged_category.
  assert (H : forall u, category (fold_left absorb l u) = category u /\
                        title (fold_left absorb l u) = title u).
  { induction l as [| n l IH]; intros u; simpl; [auto |].
    destruct (IH (absorb u n)) as [Hc Ht].
    rewrite Hc, Ht, absorb_category, absorb_title. auto. }
  apply (H (category_node c)).
Qed.

Lemma has_category_merged (c0 c : string) (l : list MindmapNode) :
  has_category c0 (merged_category c l) = String.eqb c c0.
Proof.
  unfold has_category. destruct (merged_category_category c l) as [-> _].
  reflexivity.
Qed.

Lemma grafts_for_snoc (unified : list string) (c : string)
    (ns : list MindmapNode) (n : MindmapNode) :
  grafts_for unified c (ns ++ [n]) =
  (grafts_for unified c ns ++
   (if String.eqb (target unified n) c then [n] else []))%list.
Proof. unfold grafts_for. rewrite filter_app. reflexivity. Qed.

Lemma merged_category_snoc (c : string) (l : list MindmapNode) (n : MindmapNode) :
  merged_category c (l ++ [n]) = absorb (merged_category c l) n.
Proof. unfold Core.merged_category. rewrite fold_left_app. reflexivity. Qed.

(** Grafting a node under its target updates every category node to what
    it should be once the node is taken into account. *)
Lemma graft_under_target (unified : list string) (ns : list MindmapNode)
    (n : MindmapNode) (cs : list string) :
  graft_under (target unified n) n
    (map (fun c => merged_category c (grafts_for unified c ns)) cs) =
  map (fun c => merged_category c (grafts_for unified c (ns ++ [n]))) cs.
Proof.
  unfold Core.graft_under. rewrite map_map. apply map_ext. intros c.
  rewrite has_category_merged, grafts_for_snoc, (String.eqb_sym c).
  destruct (String.eqb (target unified n) c).
  - rewrite merged_category_snoc. reflexivity.
  - rewrite app_nil_r. reflexivity.
Qed.

Lemma orphan_target (unified : list string) (n : MindmapNode) :
  orphan unified n = false ->
  existsb (String.eqb (target unified n)) unified = true.
Proof.
  unfold orphan, target, placement.
  destruct (category n) as [c |]; [| discriminate].
  destruct (existsb (String.eqb c) unified) eqn:Hc; [| discriminate]. auto.
Qed.

Lemma no_orphan_no_fallback (unified : list string) (ns : list MindmapNode) :
  existsb (orphan unified) ns = false ->
  existsb (String.eqb UNCATEGORIZED) unified = false ->
  grafts_for unified UNCATEGORIZED ns = [].
Proof.
  intros Hns Hu. unfold grafts_for. induction ns as [| n ns IH]; [reflexivity |].
  simpl in Hns |- *. apply orb_false_elim in Hns. destruct Hns as [Hn Hns].
  rewrite (IH Hns).
  destruct (String.eqb_spec (target unified n) UNCATEGORIZED) as [Heq |];
    [| reflexivity].
  apply orphan_target in Hn. rewrite Heq in Hn. congruence.
Qed.

Lemma existsb_has_category (c0 : string) (unified : list string)
    (ns : list MindmapNode) (cs : list string) :
  existsb (has_category c0)
    (map (fun c => merged_category c (grafts_for unified c ns)) cs) =
  existsb (String.eqb c0) cs.
Proof.
  induction cs as [| c cs IH]; [reflexivity |].
  simpl. rewrite has_category_merged, IH, (String.eqb_sym c). reflexivity.
Qed.

Lemma graft_category_step (unified : list string) (ns : list MindmapNode)
    (n : MindmapNode) :
  graft_category unified
    (combined_categories unified ns, fallback_warnings unified ns) n =
  (combined_categories unified (ns ++ [n]), fallback_warnings unified (ns ++ [n])).
Proof.
  unfold Core.graft_category, Core.combined_categories, fallback_warnings,
    final_categories. cbn [fst snd].
  rewrite filter_app, existsb_app. cbn [filter existsb].
  destruct (placement unified n) as [c |] eqn:Hp.
  - assert (Ho : orphan unified n = false) by (unfold orphan; rewrite Hp; reflexivity).
    assert (Ht : target unified n = c) by (unfold target; rewrite Hp; reflexivity).
    rewrite Ho, !orb_false_r, app_nil_r, <- Ht, graft_under_target. reflexivity.
  - assert (Ho : orphan unified n = true) by (unfold orphan; rewrite Hp; reflexivity).
    assert (Ht : target unified n = UNCATEGORIZED)
      by (unfold target; rewrite Hp; reflexivity).
    rewrite Ho, orb_false_r, orb_true_r, andb_true_l. f_equal.
    + rewrite <- Ht at 1. rewrite <- graft_under_target. rewrite Ht. f_equal.
      unfold ensure_uncategorized. rewrite existsb_has_category, existsb_app.
      destruct (existsb (String.eqb UNCATEGORIZED) unified) eqn:Hu.
      * cbn [negb orb]. rewrite andb_false_r. reflexivity.
      * cbn [negb orb]. rewrite andb_true_r.
        destruct (existsb (orphan unified) ns) eqn:Hns.
        -- cbn [existsb]. rewrite String.eqb_refl. reflexivity.
        -- cbn [existsb]. rewrite app_nil_r, map_app. cbn [map].
           rewrite (no_orphan_no_fallback unified ns Hns Hu). reflexivity.
    + rewrite map_app. reflexivity.
Qed.

Lemma graft_all (unified : list string) (ns2 : list MindmapNode) :
  forall ns1,
    fold_left (graft_category unified) ns2
      (combined_categories unified ns1, fallback_warnings unified ns1) =
    (combined_categories unified (ns1 ++ ns2),
     fallback_warnings unified (ns1 ++ ns2)).
Proof.
  induction ns2 as [| n ns2 IH]; intros ns1; simpl.
  - rewrite app_nil_r. reflexivity.
  - rewrite graft_category_step, IH, <- app_assoc. reflexivity.
Qed.

Lemma graft_trees (unified : list string) (inputs : list Mindmap) :
  forall st,
    fold_left (graft_tree unified) inputs st =
    fold_left (graft_category unified) (depth1_nodes inputs) st.
Proof.
  induction inputs as [| m inputs IH]; intros st; simpl; [reflexivity |].
  unfold depth1_nodes in *. simpl. rewrite fold_left_app, IH. reflexivity.
Qed.

(** The state reached by grafting every input: category by category, the
    unified node has absorbed exactly the depth-1 nodes targeting it. *)
Lemma graft_inputs (inputs : list Mindmap) :
  fold_left (graft_tree (unified_schema inputs)) inputs
    (map category_node (unified_schema inputs), []) =
  (combined_categories (unified_schema inputs) (depth1_nodes inputs),
   fallback_warnings (unified_schema inputs) (depth1_nodes inputs)).
Proof.
  rewrite graft_trees.
  pose proof (graft_all (unified_schema inputs) (depth1_nodes inputs) []) as H.
  simpl app in H. rewrite <- H. f_equal.
  unfold Core.combined_categories, fallback_warnings, final_categories. simpl.
  rewrite app_nil_r. reflexivity.
Qed.

(** *** The unified schema *)

Lemma unified_schema_from (inputs : list Mindmap) :
  forall acc,
    NoDup acc ->
    NoDup (fold_left (fun acc m => fold_left set_add (schema_of m) acc) inputs acc) /\
    forall c,
      In c (fold_left (fun acc m => fold_left set_add (schema_of m) acc) inputs acc)
      <-> In c acc \/ exists m, In m inputs /\ In c (schema_of m).
Proof.
  induction inputs as [| m inputs IH]; intros acc Hacc; simpl.
  - split; [exact Hacc |]. intros c. split; [auto | intros [H | (m & [] & _)]; exact H].
  - destruct (IH _ (fold_set_add_NoDup (schema_of m) acc Hacc)) as [Hnd Hin].
    split; [exact Hnd |]. intros c. rewrite Hin, fold_set_add_In. split.
    + intros [[H | H] | (m' & Hm' & Hc)]; eauto.
    + intros [H | (m' & [<- | Hm'] & Hc)]; eauto.
Qed.

Lemma unified_schema_NoDup (inputs : list Mindmap) : NoDup (unified_schema inputs).
Proof. apply unified_schema_from. constructor. Qed.

Lemma unified_schema_In (inputs : list Mindmap) (c : string) :
  In c (unified_schema inputs) <-> exists m, In m inputs /\ In c (schema_of m).
Proof.
  unfold unified_schema.
  destruct (unified_schema_from inputs [] (NoDup_nil _)) as [_ H].
  rewrite H. simpl. tauto.
Qed.

Lemma existsb_eqb_In (c : string) (l : list string) :
  existsb (String.eqb c) l = true <-> In c l.
Proof.
  rewrite existsb_exists. split.
  - intros (x & Hx & Heq). apply String.eqb_eq in Heq. subst. exact Hx.
  - intros Hc. exists c. split; [exact Hc | apply String.eqb_refl].
Qed.

Lemma target_of_listed (unified : list string) (n : MindmapNode) (c : string) :
  category n = Some c -> In c unified ->
  target unified n = c /\ orphan unified n = false.
Proof.
  intros Hc Hin. apply existsb_eqb_In in Hin.
  unfold target, orphan, placement. rewrite Hc, Hin. auto.
Qed.

Lemma orphan_spec (unified : list string) (n : MindmapNode) :
  orphan unified n = true <->
  forall c, category n = Some c -> ~ In c unified.
Proof.
  unfold orphan, placement. destruct (category n) as [c |].
  - destruct (existsb (String.eqb c) unified) eqn:Hc.
    + apply existsb_eqb_In in Hc. split; [discriminate |].
      intros H. destruct (H c eq_refl Hc).
    + split; [| reflexivity]. intros _ c' Heq Hin. injection Heq as <-.
      apply existsb_eqb_In in Hin. congruence.
  - split; [| reflexivity]. intros _ c Heq. discriminate.
Qed.

Lemma final_categories_NoDup (unified : list string) (ns : list MindmapNode) :
  NoDup unified -> NoDup (final_categories unified ns).
Proof.
  intros Hnd. unfold final_categories.
  destruct (existsb (orphan unified) ns); simpl; [| rewrite app_nil_r; exact Hnd].
  destruct (existsb (String.eqb UNCATEGORIZED) unified) eqn:Hu; simpl;
    [rewrite app_nil_r; exact Hnd |].
  apply NoDup_app; [exact Hnd | repeat constructor; simpl; tauto |].
  intros c Hc [<- | []]. apply existsb_eqb_In in Hc. congruence.
Qed.

Lemma final_categories_fallback (unified : list string) (ns : list MindmapNode) :
  In UNCATEGORIZED (final_categories unified ns) ->
  In UNCATEGORIZED unified \/ exists n, In n ns /\ orphan unified n = true.
Proof.
  unfold final_categories. intros H. apply in_app_or in H.
  destruct H as [H | H]; [left; exact H | right].
  destruct (existsb (orphan unified) ns) eqn:Hns; [| destruct H].
  apply existsb_exists in Hns. exact Hns.
Qed.

(** *** The combined tree *)

Lemma combine_result (now : string) (inputs : list Mindmap) :
  existsb schema_missing inputs = false ->
  exists out,
    combine title_overlap tags_overlap now inputs =
    inr (out, fallback_warnings (unified_schema inputs) (depth1_nodes inputs)) /\
    map content_of (children (root out)) =
    map content_of
      (combined_categories (unified_schema inputs) (depth1_nodes inputs)).
Proof.
  intros Hok. unfold combine. rewrite Hok, graft_inputs. cbn [fst snd].
  eexists. split; [reflexivity |]. cbn [link root].
  rewrite link_node_unfold. cbn [children].
  rewrite map_map, (map_ext _ _ (content_of_link_node _)).
  rewrite assign_ids_unfold. cbn [children].
  rewrite content_of_assign_ids_forest, clear_links_unfold. cbn [children].
  rewrite map_map. apply map_ext. apply content_of_clear_links.
Qed.

Lemma schema_missing_spec (m : Mindmap) :
  schema_missing m = true <->
  categorySchema m = None \/ categorySchema m = Some [].
Proof.
  unfold schema_missing. destruct (categorySchema m) as [[| c cs] |];
    intuition discriminate.
Qed.

(** *** What the combined tree holds *)

Section CombinedTree.

Variable unified : list string.
Variable ns : list MindmapNode.
Variable out : Mindmap.

Hypothesis Hcontent :
  map content_of (children (root out)) =
  map content_of (combined_categories unified ns).

(** The depth-1 nodes of the combined tree are the category nodes, one per
    category. *)
Lemma output_node (c : string) :
  In c (final_categories unified ns) ->
  exists u,
    In u (children (root out)) /\ category u = Some c /\ title u = c /\
    content_of u = content_of (merged_category c (grafts_for unified c ns)).
Proof.
  intros Hc.
  assert (Hin : In (merged_category c (grafts_for unified c ns))
                   (combined_categories unified ns)).
  { unfold Core.combined_categories.
    apply (in_map (fun c => merged_category c (grafts_for unified c ns))).
    exact Hc. }
  destruct (same_content_In _ _ _ Hcontent Hin) as (u & Hu & Heq).
  destruct (same_content_fields _ _ Heq) as (Ht & Hcat & _).
  destruct (merged_category_category c (grafts_for unified c ns)) as [Hmc Hmt].
  exists u. split; [exact Hu |]. split; [congruence |].
  split; [congruence | exact Heq].
Qed.

Lemma output_nodes (u : MindmapNode) :
  In u (children (root out)) ->
  exists c,
    In c (final_categories unified ns) /\ category u = Some c /\ title u = c /\
    content_of u = content_of (merged_category c (grafts_for unified c ns)).
Proof.
  intros Hu. apply (in_map content_of) in Hu. rewrite Hcontent in Hu.
  apply in_map_iff in Hu. destruct Hu as (u' & Heq & Hu').
  unfold Core.combined_categories in Hu'. apply in_map_iff in Hu'.
  destruct Hu' as (c & <- & Hc). symmetry in Heq.
  destruct (same_content_fields _ _ Heq) as (Ht & Hcat & _).
  destruct (merged_category_category c (grafts_for unified c ns)) as [Hmc Hmt].
  exists c. split; [exact Hc |]. split; [congruence |].
  split; [congruence | exact Heq].
Qed.

Lemma output_titles :
  map title (children (root out)) = final_categories unified ns.
Proof.
  transitivity (map title (map content_of (children (root out)))).
  - rewrite map_map. apply map_ext. intros u.
    symmetry. apply content_of_fields.
  - rewrite Hcontent. unfold Core.combined_categories. rewrite !map_map.
    rewrite <- (map_id (final_categories unified ns)) at 2.
    apply map_ext. intros c.
    destruct (content_of_fields (merged_category c (grafts_for unified c ns)))
      as (_ & -> & _).
    apply merged_category_category.
Qed.

Lemma output_categories :
  map category (children (root out)) = map Some (final_categories unified ns).
Proof.
  transitivity (map category (map content_of (children (root out)))).
  - rewrite map_map. apply map_ext. intros u.
    symmetry. apply content_of_fields.
  - rewrite Hcontent. unfold Core.combined_categories. rewrite !map_map.
    apply map_ext. intros c.
    destruct (content_of_fields (merged_category c (grafts_for unified c ns)))
      as (-> & _).
    apply merged_category_category.
Qed.

Lemma target_in_final (n : MindmapNode) :
  In n ns -> In (target unified n) (final_categories unified ns).
Proof.
  intros Hn. unfold final_categories, target. apply in_or_app.
  destruct (placement unified n) as [c |] eqn:Hp.
  - left. unfold placement in Hp. destruct (category n) as [c' |]; [| discriminate].
    destruct (existsb (String.eqb c') unified) eqn:Hc; [| discriminate].
    injection Hp as <-. apply existsb_eqb_In, Hc.
  - assert (Ho : existsb (orphan unified) ns = true).
    { apply existsb_exists. exists n. split; [exact Hn |].
      unfold orphan. rewrite Hp. reflexivity. }
    rewrite Ho. cbn [andb].
    destruct (existsb (String.eqb UNCATEGORIZED) unified) eqn:Hu.
    + left. apply existsb_eqb_In, Hu.
    + right. left. reflexivity.
Qed.

(** Every depth-1 node of the inputs is held by the depth-1 node of the
    combined tree whose category is the one the node targets. *)
Lemma output_holds (n : MindmapNode) :
  In n ns ->
  exists u,
    In u (children (root out)) /\ category u = Some (target unified n) /\
    title u = target unified n /\ holds u n.
Proof.
  intros Hn. set (c := target unified n).
  destruct (output_node c (target_in_final n Hn)) as (u & Hu & Hcat & Ht & Heq).
  exists u. split; [exact Hu |]. split; [exact Hcat |]. split; [exact Ht |].
  assert (Hg : In n (grafts_for unified c ns)).
  { apply filter_In. split; [exact Hn | apply String.eqb_refl]. }
  pose proof (fold_absorb_holds (grafts_for unified c ns) (category_node c) n Hg)
    as Hheld.
  fold (merged_category c (grafts_for unified c ns)) in Hheld.
  destruct (merged_category_category c (grafts_for unified c ns)) as [_ Hmt].
  unfold Core.holds in *. rewrite Hmt in Hheld. rewrite Ht.
  destruct (String.eqb (title n) c).
  - apply (carries_same_content n _ u Heq Hheld).
  - apply Exists_exists in Hheld. destruct Hheld as (s & Hs & Hcar).
    destruct (same_content_fields _ _ Heq) as (_ & _ & _ & _ & Hkids).
    destruct (same_content_In _ _ s Hkids Hs) as (s' & Hs' & Hsame).
    apply Exists_exists. exists s'. split; [exact Hs' |].
    apply (carries_same_content n s s' Hsame Hcar).
Qed.

(** Every child of a depth-1 node of the combined tree stems from a
    depth-1 node of the inputs that targets the category of that node. *)
Lemma output_stems (u s : MindmapNode) (c : string) :
  In u (children (root out)) -> category u = Some c -> In s (children u) ->
  exists n, In n ns /\ target unified n = c /\ stems_from u s n.
Proof.
  intros Hu Hcat Hs.
  destruct (output_nodes u Hu) as (c' & _ & Hcat' & Ht & Heq).
  assert (Hcc : c' = c) by congruence. rewrite Hcc in Ht, Heq.
  clear c' Hcc Hcat'.
  destruct (same_content_fields _ _ Heq) as (_ & _ & _ & _ & Hkids).
  symmetry in Hkids.
  destruct (same_content_In _ _ s Hkids Hs) as (s' & Hs' & Hsame).
  unfold Core.merged_category in Hs'.
  destruct (fold_absorb_children _ _ _ Hs')
    as [(c0 & [] & _) | (n & Hn & Hstem)].
  apply filter_In in Hn. destruct Hn as [Hn Htarget].
  apply String.eqb_eq in Htarget.
  exists n. split; [exact Hn |]. split; [exact Htarget |].
  unfold Core.stems_from in *. cbn [category_node title] in Hstem.
  rewrite Ht.
  assert (Hkeep : forall k, carries s' k -> carries s k).
  { intros k Hk. apply (carries_same_content k s' s); [| exact Hk].
    symmetry. exact Hsame. }
  destruct (String.eqb (title n) c); [| apply Hkeep, Hstem].
  apply Exists_exists in Hstem. destruct Hstem as (k & Hk & Hcar).
  apply Exists_exists. exists k. split; [exact Hk | apply Hkeep, Hcar].
Qed.

End CombinedTree.

Lemma target_spec (unified : list string) (n : MindmapNode) (c : string) :
  target unified n = c ->
  (category n = Some c /\ In c unified) \/
  (c = UNCATEGORIZED /\ forall c', category n = Some c' -> ~ In c' unified).
Proof.
  unfold target, placement. destruct (category n) as [c0 |].
  - destruct (existsb (String.eqb c0) unified) eqn:Hc.
    + intros <-. left. split; [reflexivity | apply existsb_eqb_In, Hc].
    + intros <-. right. split; [reflexivity |]. intros c' Heq Hin.
      injection Heq as <-. apply existsb_eqb_In in Hin. congruence.
  - intros <-. right. split; [reflexivity |]. intros c' Heq. discriminate.
Qed.

Lemma combine_succeeds (now : string) (inputs : list Mindmap)
    (out : Mindmap) (w : list Warning) :
  combine title_overlap tags_overlap now inputs = inr (out, w) ->
  w = fallback_warnings (unified_schema inputs) (depth1_nodes inputs) /\
  map content_of (children (root out)) =
  map content_of
    (combined_categories (unified_schema inputs) (depth1_nodes inputs)).
Proof.
  intros Hcombine.
  assert (Hok : existsb schema_missing inputs = false).
  { unfold combine in Hcombine.
    destruct (existsb schema_missing inputs); [discriminate | reflexivity]. }
  destruct (combine_result now inputs Hok) as (out' & Hout & Hcontent).
  rewrite Hout in Hcombine. injection Hcombine as <- <-. auto.
Qed.


(** C7. Combine fails, with CombineError, exactly when an input has an
    empty or absent category schema. Otherwise it succeeds, and its result
    is this tree: the depth-1 categories are the unified schema, followed
    by the synthetic fallback only if it is needed; the fallback category
    is there only if a schema lists it or some depth-1 node has no
    category that any supplied schema lists; when no schema lists it, the
    fallback node holds nothing but nodes whose category no schema lists,
    each of them is held there and reported by a warning, and only they
    are reported; and no category is reassigned: a depth-1 node whose
    category some schema lists is held by the node of that very category,
    and whatever lies under the node of a listed category stems from a
    node of that category. *)
Theorem combine_error_iff (now : string) (inputs : list Mindmap) :
  let unified := unified_schema inputs in
  let ns := depth1_nodes inputs in
  let unplaced (n : MindmapNode) : Prop :=
    forall c, category n = Some c ->
              forall m, In m inputs -> ~ In c (schema_of m) in
  (combine title_overlap tags_overlap now inputs = inl CombineError_missing_schema
   <-> exists m, In m inputs /\
                 (categorySchema m = None \/ categorySchema m = Some [])) /\
  ((forall m, In m inputs ->
              exists c cs, categorySchema m = Some (c :: cs)) ->
   exists out w,
     combine title_overlap tags_overlap now inputs = inr (out, w) /\
     w = map (fun n => WUncategorized (title n)) (filter (orphan unified) ns) /\
     (exists extra,
         map category (children (root out)) = map Some (unified ++ extra) /\
         (extra = [] \/ extra = [UNCATEGORIZED]) /\
         (extra = [UNCATEGORIZED] <->
          ~ In UNCATEGORIZED unified /\ exists n, In n ns /\ unplaced n)) /\
     (forall u,
         In u (children (root out)) -> category u = Some UNCATEGORIZED ->
         (exists m, In m inputs /\ In UNCATEGORIZED (schema_of m)) \/
         exists n, In n ns /\ unplaced n) /\
     (forall u s,
         In u (children (root out)) -> category u = Some UNCATEGORIZED ->
         (forall m, In m inputs -> ~ In UNCATEGORIZED (schema_of m)) ->
         In s (children u) ->
         exists n, In n ns /\ unplaced n /\ stems_from u s n) /\
     (forall n,
         In n ns -> unplaced n ->
         In (WUncategorized (title n)) w /\
         exists u,
           In u (children (root out)) /\ category u = Some UNCATEGORIZED /\
           holds u n) /\
     (forall t,
         In (WUncategorized t) w ->
         exists n, In n ns /\ unplaced n /\ title n = t) /\
     (forall n c,
         In n ns -> category n = Some c ->
         (exists m, In m inputs /\ In c (schema_of m)) ->
         exists u,
           In u (children (root out)) /\ category u = Some c /\ title u = c /\
           holds u n) /\
     (forall u c s,
         In u (children (root out)) -> category u = Some c ->
         c <> UNCATEGORIZED -> In s (children u) ->
         exists n, In n ns /\ category n = Some c /\ stems_from u s n)).
Proof.
  intros unified ns unplaced.
  assert (Hunplaced : forall n, orphan unified n = true <-> unplaced n).
  { intros n. rewrite orphan_spec. unfold unplaced. split.
    - intros H c Hc m Hm Hin. apply (H c Hc). apply unified_schema_In. eauto.
    - intros H c Hc Hin. apply unified_schema_In in Hin.
      destruct Hin as (m & Hm & Hin). exact (H c Hc m Hm Hin). }
  split.
  - unfold combine. destruct (existsb schema_missing inputs) eqn:Hmiss.
    + split; [intros _ | reflexivity].
      apply existsb_exists in Hmiss. destruct Hmiss as (m & Hm & Hs).
      exists m. split; [exact Hm | apply schema_missing_spec, Hs].
    + split; [discriminate |]. intros (m & Hm & Hs).
      apply schema_missing_spec in Hs.
      assert (existsb schema_missing inputs = true)
        by (apply existsb_exists; eauto).
      congruence.
  - intros Hall.
    assert (Hok : existsb schema_missing inputs = false).
    { destruct (existsb schema_missing inputs) eqn:Hmiss; [| reflexivity].
      apply existsb_exists in Hmiss. destruct Hmiss as (m & Hm & Hs).
      destruct (Hall m Hm) as (c & cs & Hsch).
      unfold schema_missing in Hs. rewrite Hsch in Hs. discriminate. }
    destruct (combine_result now inputs Hok) as (out & Hout & Hcontent).
    fold unified ns in Hcontent, Hout.
    exists out, (fallback_warnings unified ns).
    split; [exact Hout |]. split; [reflexivity |].
    split; [| split; [| split; [| split; [| split; [| split]]]]].
    + exists (if existsb (orphan unified) ns
                 && negb (existsb (String.eqb UNCATEGORIZED) unified)
              then [UNCATEGORIZED] else []).
      split; [exact (output_categories unified ns out Hcontent) |].
      destruct (existsb (orphan unified) ns) eqn:Ho;
        destruct (existsb (String.eqb UNCATEGORIZED) unified) eqn:Hu;
        cbn [andb negb].
      * split; [left; reflexivity |]. split; [discriminate |].
        intros [Hnot _]. apply existsb_eqb_In in Hu. contradiction.
      * split; [right; reflexivity |]. split; [| reflexivity]. intros _.
        split.
        -- intros Hin. apply existsb_eqb_In in Hin. congruence.
        -- apply existsb_exists in Ho. destruct Ho as (n & Hn & Hon).
           exists n. split; [exact Hn | apply Hunplaced, Hon].
      * split; [left; reflexivity |]. split; [discriminate |].
        intros [Hnot _]. apply existsb_eqb_In in Hu. contradiction.
      * split; [left; reflexivity |]. split; [discriminate |].
        intros [_ (n & Hn & Hun)]. apply Hunplaced in Hun.
        assert (existsb (orphan unified) ns = true)
          by (apply existsb_exists; eauto).
        congruence.
    + intros u Hu Hcat.
      destruct (output_nodes unified ns out Hcontent u Hu)
        as (c & Hc & Hcat' & _).
      assert (c = UNCATEGORIZED) by congruence. subst c.
      apply final_categories_fallback in Hc. destruct Hc as [Hin | Hin].
      * left. apply unified_schema_In, Hin.
      * right. destruct Hin as (n & Hn & Ho). exists n.
        split; [exact Hn | apply Hunplaced, Ho].
    + intros u s Hu Hcat Hnone Hs.
      destruct (output_stems unified ns out Hcontent u s _ Hu Hcat Hs)
        as (n & Hn & Htarget & Hstem).
      exists n. split; [exact Hn |]. split; [| exact Hstem].
      destruct (target_spec unified n _ Htarget) as [[_ Hin] | [_ Horphan]].
      * apply unified_schema_In in Hin. destruct Hin as (m & Hm & Hin).
        destruct (Hnone m Hm Hin).
      * intros c Hc m Hm Hin. apply (Horphan c Hc).
        apply unified_schema_In. eauto.
    + intros n Hn Hun. apply Hunplaced in Hun. split.
      * unfold fallback_warnings.
        apply (in_map (fun n => WUncategorized (title n))).
        apply filter_In. auto.
      * destruct (output_holds unified ns out Hcontent n Hn)
          as (u & Hu & Hcat & _ & Hheld).
        assert (Ht : target unified n = UNCATEGORIZED).
        { unfold orphan in Hun. unfold target.
          destruct (placement unified n); [discriminate | reflexivity]. }
        rewrite Ht in Hcat. eauto.
    + intros t Hw. unfold fallback_warnings in Hw. apply in_map_iff in Hw.
      destruct Hw as (n & Heq & Hn). apply filter_In in Hn.
      destruct Hn as [Hn Ho]. injection Heq as <-.
      exists n. split; [exact Hn |]. split; [apply Hunplaced, Ho | reflexivity].
    + intros n c Hn Hc Hlisted.
      assert (Hu : In c unified) by (apply unified_schema_In; exact Hlisted).
      destruct (target_of_listed unified n c Hc Hu) as [Ht _].
      destruct (output_holds unified ns out Hcontent n Hn)
        as (u & Hu' & Hcat & Htitle & Hheld).
      rewrite Ht in Hcat, Htitle. eauto.
    + intros u c s Hu Hcat Hne Hs.
      destruct (output_stems unified ns out Hcontent u s c Hu Hcat Hs)
        as (n & Hn & Htarget & Hstem).
      exists n. split; [exact Hn |]. split; [| exact Hstem].
      destruct (target_spec unified n c Htarget) as [[Hc _] | [Heq _]];
        [exact Hc | contradiction].
Qed.


End CombinerProperties.

Section BuiltTrees.

Import Plugin Core.

Lemma build_node_category (mode : TagWeighting) (schema : list string)
    (sources : list SourceContent) (r : RawNode) (n : MindmapNode) :
  In n (build_node mode schema sources 1 r) -> exists c, category n = Some c.
Proof.
  destruct r as [[ttl |] rc rt rch]; simpl; [| tauto].
  intros [<- | []]. simpl. eauto.
Qed.

Lemma built_shape_no_links (n : MindmapNode) :
  forall d anc i,
    built_shape d n -> In i (node_infos anc n) ->
    secondaryParents (ni_node i) = [].
Proof.
  induction n as [i0 t c dn tg sr ch sp IH] using MindmapNode_ind.
  intros d anc i Hshape Hin. inversion Hshape as [d' n' Hd Hsp Hch]; subst d' n'.
  simpl in *. destruct Hin as [<- | Hin]; [exact Hsp |].
  apply in_flat_map in Hin. destruct Hin as (k & Hk & Hik).
  rewrite Forall_forall in IH, Hch. eapply IH; eauto.
Qed.

(** The mindmaps StructureBuilder builds satisfy the invariants of the data
    model that the linker and the combiner rely on: ids are unique, no
    secondary parent breaks the exclusion, and every depth-1 node has a
    category listed by the schema. *)
Lemma build_satisfies_invariants (mode : TagWeighting) (schema : list string)
    (sources : list SourceContent) (now : string) (outline : list RawNode)
    (m : Mindmap) (w : list Warning) :
  build mode schema sources now outline = inr (m, w) ->
  NoDup (ids_of (preorder (root m))) /\
  exclusion_ok (root m) /\
  forall n, In n (children (root m)) ->
            exists c, category n = Some c /\ In c (schema_of m).
Proof.
  intros Hbuild. unfold build in Hbuild.
  pose proof (build_forest_shape mode schema sources 1 outline) as Hshape.
  destruct (build_forest mode schema sources 1 outline) as [| x top] eqn:Htop;
    [discriminate |].
  injection Hbuild as Hm _.
  set (r0 := {| id := 0; title := ""; category := None; depth := 0; tags := [];
                sourceRefs := []; children := x :: top;
                secondaryParents := [] |}) in *.
  assert (Hroot : root m = assign_ids 0 r0) by (subst m; reflexivity).
  assert (Hschema : schema_of m = fold_left set_add (categories_of (x :: top)) schema)
    by (subst m; reflexivity).
  split; [| split].
  - rewrite Hroot, assign_ids_preorder. apply seq_NoDup.
  - intros i p Hin Hp. rewrite Hroot in Hin.
    assert (Hr0 : built_shape 0 (assign_ids 0 r0)).
    { apply assign_ids_shape. constructor; [reflexivity | reflexivity | exact Hshape]. }
    rewrite (built_shape_no_links _ 0 [] i Hr0 Hin) in Hp. destruct Hp.
  - intros n Hn. rewrite Hroot, assign_ids_unfold in Hn. cbn [children r0] in Hn.
    destruct (same_content_In (x :: top) (assign_ids_forest 1 (x :: top)) n)
      as (n0 & Hn0 & Heq); [| exact Hn |].
    { symmetry. apply content_of_assign_ids_forest. }
    assert (Hcat : category n = category n0).
    { destruct (content_of_fields n) as (<- & _).
      destruct (content_of_fields n0) as (<- & _). congruence. }
    assert (Hc : exists c, category n0 = Some c).
    { rewrite <- Htop in Hn0. unfold build_forest in Hn0.
      apply in_flat_map in Hn0. destruct Hn0 as (r & _ & Hr).
      eapply build_node_category, Hr. }
    destruct Hc as (c & Hc). exists c. split; [congruence |].
    rewrite Hschema. apply fold_set_add_In. right.
    unfold categories_of. apply in_flat_map. exists n0.
    split; [exact Hn0 | rewrite Hc; left; reflexivity].
Qed.

End BuiltTrees.

(** Witness for C4: the first line of the rendered sample. *)
Lemma render_marker_by_depth_witness :
  exists m w,
    Core.build Plugin.high ["Technological"] Core.sample_sources "2025-01-01"
      Core.sample_outline = inr (m, w) /\
    exists n text,
      In n (flat_map Core.preorder (Core.children (Core.root m))) /\
      Core.line_style "  # {;Technological||;unattributed|} Frontend" =
      Some (Core.INDENT_UNIT * Core.depth n,
            Core.marker_of_depth (Core.depth n), text).
Proof.
  do 2 eexists. split; [vm_compute; reflexivity |].
  eapply (proj1 (render_marker_by_depth _)). simpl. left. reflexivity.
Defined.


(** Witness for C3: the built sample, linked. *)
Lemma link_keeps_exclusion_witness :
  exists m w,
    Core.build Plugin.high ["Technological"] Core.sample_sources "2025-01-01"
      Core.sample_outline = inr (m, w) /\
    Core.acyclic (Core.root (Core.link (Core.never string) true m)) /\
    Core.exclusion_ok (Core.root (Core.link (Core.never string) true m)).
Proof.
  do 2 eexists. split; [vm_compute; reflexivity |].
  refine ((fun H => conj (proj1 H) (proj1 (proj2 H)))
            (link_keeps_exclusion (Core.never string) true _ _ _)).
  - simpl. repeat (constructor; [simpl; intuition discriminate |]). constructor.
  - intros i p Hin Hp. simpl in Hin.
    repeat (destruct Hin as [<- | Hin]; [destruct Hp |]). destruct Hin.
Defined.


(** The combine scenario: both categories, each with its leaf unchanged,
    and no warning. *)
Example combine_scenario :
  exists out,
    Core.combine (Core.never string) (Core.never (list string)) "2025-01-02"
      [Core.tree_a; Core.tree_b] = inr (out, []) /\
    map Core.content_of (Core.children (Core.root out)) =
    map Core.content_of
      [Core.category_tree 1 "Technological" [Core.leaf 2 "AI Research"];
       Core.category_tree 1 "Economic" [Core.leaf 2 "Market Shift"]].
Proof. eexists. split; vm_compute; reflexivity. Qed.

(** Combining a built tree: its depth-1 concepts keep their titles and
    their subtrees, one level down, under the node of their category. *)
Example combine_concepts :
  exists out,
    Core.combine (Core.never string) (Core.never (list string)) "2025-01-02"
      [Core.tree_concepts; Core.tree_b] = inr (out, []) /\
    map Core.content_of (Core.children (Core.root out)) =
    map Core.content_of
      [ {| Core.id := 0; Core.title := "Technological";
           Core.category := Some "Technological"; Core.depth := 1;
           Core.tags := []; Core.sourceRefs := [];
           Core.children :=
             map Core.deepen
               [Core.concept 1 "Frontend" "Technological"
                  [Core.leaf 2 "React"];
                Core.concept 3 "Backend" "Technological"
                  [Core.leaf 4 "Sessions"]];
           Core.secondaryParents := [] |};
        Core.category_tree 1 "Economic" [Core.leaf 2 "Market Shift"] ].
Proof. eexists. split; vm_compute; reflexivity. Qed.


(** Witness for C7: a tree without schema makes combine fail; the two
    scenario trees combine without warning; a tree with an unlisted
    category is combined with a warning. *)
Lemma combine_error_iff_witness :
  Core.combine (Core.never string) (Core.never (list string)) "2025-01-02"
    [Core.tree_a; Core.tree_without_schema] =
  inl Core.CombineError_missing_schema /\
  (exists out,
      Core.combine (Core.never string) (Core.never (list string)) "2025-01-02"
        [Core.tree_a; Core.tree_b] = inr (out, [])) /\
  exists out,
    Core.combine (Core.never string) (Core.never (list string)) "2025-01-02"
      [Core.tree_a; Core.tree_legal] =
    inr (out, [Core.WUncategorized "Legal"]).
Proof.
  split; [| split].
  - apply (proj1 (combine_error_iff (Core.never string)
                    (Core.never (list string)) "2025-01-02"
                    [Core.tree_a; Core.tree_without_schema])).
    exists Core.tree_without_schema. split; [simpl; auto | left; reflexivity].
  - destruct (proj2 (combine_error_iff (Core.never string)
                       (Core.never (list string)) "2025-01-02"
                       [Core.tree_a; Core.tree_b]))
      as (out & w & Hout & Hw & _).
    + intros m [<- | [<- | []]]; do 2 eexists; reflexivity.
    + exists out. rewrite Hout, Hw. reflexivity.
  - destruct (proj2 (combine_error_iff (Core.never string)
                       (Core.never (list string)) "2025-01-02"
                       [Core.tree_a; Core.tree_legal]))
      as (out & w & Hout & Hw & _).
    + intros m [<- | [<- | []]]; do 2 eexists; reflexivity.
    + exists out. rewrite Hout, Hw. reflexivity.
Defined.
